(** * Dashboard task session: push channel, polling fallback and submission

    A shallow embedding of [src/app/dashboard/page.tsx] (the component
    [DashboardPage]) and of the start control of
    [src/components/task-input.tsx].

    The component keeps React state ([useState]), mutable refs ([useRef])
    and registers callbacks with the browser: WebSocket handlers, timers
    and an asynchronous submit handler.  The embedding makes the browser
    part explicit: a table of sockets, a table of pending timers, the
    [let pollCount] cell of every poll closure, the [localStorage] token
    and a log of the externally visible actions (requests, alerts,
    navigation).  Every callback is a function from worlds to worlds and
    the event loop is the function [step].

    A handler closes over the [const] bindings of the render that created
    it ([Render]); refs and functional state updates read the current
    world.  An [await] of the poll tick splits it in two events (the tick
    and the arrival of the response); the submit handler is run with its
    awaits settled by a record of collaborators ([Net]).  Not modelled:
    console output, request headers, the 2000 ms pause after a reconnect
    inside the submit handler, and React dropping state updates of an
    unmounted component. *)

From Stdlib Require Import Bool Arith ZArith NArith List String Ascii Lia.
From Stdlib Require Import DecimalString.
Import ListNotations.
Local Open Scope string_scope.
Local Open Scope list_scope.

(** ** JavaScript values received from the network

    [JSON.parse] results, [any]-typed payloads and the objects the page
    builds itself.  Numbers are restricted to integers: [JNum z] is the
    Number that the integer literal [z] denotes.  A string is the UTF-8
    text of the JavaScript string.  An object is the list of its own
    properties, looked up from the front. *)

#[local] Set Warnings "-register-all".
Inductive Json : Type :=
| JUndef
| JNull
| JBool (b : bool)
| JNum (z : Z)
| JStr (s : string)
| JArr (l : list Json)
| JObj (fields : list (string * Json)).

(** Truthiness as used by [&&], [||], [!] and [if]. *)
Definition truthy (j : Json) : bool :=
  match j with
  | JUndef | JNull => false
  | JBool b => b
  | JNum z => negb (Z.eqb z 0)
  | JStr s => negb (String.eqb s "")
  | JArr _ | JObj _ => true
  end.

Definition truthy_str (s : string) : bool := negb (String.eqb s "").

(** A [string | null] value in a condition. *)
Definition truthy_opt (o : option string) : bool :=
  match o with
  | Some s => truthy_str s
  | None => false
  end.

Fixpoint lookup (k : string) (fs : list (string * Json)) : Json :=
  match fs with
  | [] => JUndef
  | (k', v) :: r => if String.eqb k k' then v else lookup k r
  end.

(** Property access [j.k].  [None] stands for the [TypeError] thrown on
    [undefined] and [null]; a missing property reads as [undefined]. *)
Definition get (k : string) (j : Json) : option Json :=
  match j with
  | JUndef | JNull => None
  | JObj fs => Some (lookup k fs)
  | _ => Some JUndef
  end.

(** [j === s] for a string [s]. *)
Definition strict_eq_str (j : Json) (s : string) : bool :=
  match j with
  | JStr s' => String.eqb s' s
  | _ => false
  end.

(** *** Numbers as text

    The Number of an integer literal is the double nearest to it, ties
    going to the even significand; from [2^1024 - 2^970] on it is
    [Infinity].  [round_to_double a] is that double for [0 <= a]. *)
Definition round_to_double (a : Z) : Z :=
  if (a <? 2 ^ 53)%Z then a
  else
    let e := (Z.log2 a - 52)%Z in
    let q := Z.shiftr a e in
    let r := (a - Z.shiftl q e)%Z in
    let half := Z.shiftl 1 (e - 1) in
    let q' := if (r <? half)%Z then q
              else if (half <? r)%Z then (q + 1)%Z
              else if Z.even q then q else (q + 1)%Z in
    Z.shiftl q' e.

Definition digits (a : Z) : string := NilZero.string_of_int (Z.to_int a).

(** The digits [s] of a decimal that denotes the double [v] when it is
    followed by [m] zeros: of the two multiples of [10^m] around [v],
    one that rounds to [v], the closer one when both do, the even one
    when they are as close. *)
Definition candidate (v m : Z) : option Z :=
  let p := (10 ^ m)%Z in
  let lo := (v / p)%Z in
  let hi := (lo + 1)%Z in
  match (round_to_double (lo * p) =? v)%Z, (round_to_double (hi * p) =? v)%Z with
  | true, true =>
      let dl := (v - lo * p)%Z in
      let dh := (hi * p - v)%Z in
      if (dl <? dh)%Z then Some lo
      else if (dh <? dl)%Z then Some hi
      else if Z.even lo then Some lo else Some hi
  | true, false => Some lo
  | false, true => Some hi
  | false, false => None
  end.

(** The shortest such decimal: [k] significant digits are tried for
    [k = 1, 2, ...]; [d] is the number of digits of [v]. *)
Fixpoint shortest (fuel : nat) (k d v : Z) : Z * Z :=
  match fuel with
  | O => (v, 0%Z)
  | S fuel' =>
      match candidate v (d - k) with
      | Some s => (s, (d - k)%Z)
      | None => shortest fuel' (k + 1)%Z d v
      end
  end.

Fixpoint strip_zeros (rev_digits : list ascii) : list ascii :=
  match rev_digits with
  | c :: r => if Ascii.eqb c "0" then strip_zeros r else rev_digits
  | [] => []
  end.

Fixpoint zeros (n : nat) : string :=
  match n with
  | O => ""
  | S m => String "0" (zeros m)
  end.

(** [Number::toString] for a positive integral double [v]: the shortest
    decimal that denotes [v], written out with its zeros up to 21 digits
    and in exponent form beyond. *)
Definition positive_to_string (v : Z) : string :=
  if (v <? 2 ^ 53)%Z then digits v
  else
    let d := String.length (digits v) in
    let (s, m) := shortest d 1 (Z.of_nat d) v in
    let n := (String.length (digits s) + Z.to_nat m)%nat in
    let sig := rev (strip_zeros (rev (list_ascii_of_string (digits s)))) in
    if (n <=? 21)%nat then
      (string_of_list_ascii sig ++ zeros (n - List.length sig))%string
    else
      match sig with
      | [] => ""
      | c :: [] =>
          (String c "e+" ++ digits (Z.of_nat (n - 1)))%string
      | c :: frac =>
          (String c ("." ++ string_of_list_ascii frac) ++ "e+"
           ++ digits (Z.of_nat (n - 1)))%string
      end.

Definition number_to_string (z : Z) : string :=
  let a := Z.abs z in
  let v := round_to_double a in
  let text := if (2 ^ 1024 <=? v)%Z then "Infinity" else positive_to_string v in
  if (z <? 0)%Z then ("-" ++ text)%string else text.

(** String conversion, as in a template literal [`${j}`] or in
    [new Error(j)], throws a [TypeError] for an object with an own
    property [toString] (a value of [JSON.parse] is never callable), and
    for an array with such an element. *)
Fixpoint to_string_throws (j : Json) : bool :=
  match j with
  | JObj fs => existsb (fun kv => String.eqb (fst kv) "toString") fs
  | JArr l => existsb to_string_throws l
  | _ => false
  end.

(** The message of that [TypeError], which the specification leaves to
    the engine; this is the text of V8. *)
Definition cannot_convert : string :=
  "Cannot convert object to primitive value".

(** The text the conversion gives when it does not throw. *)
Fixpoint to_js_string (j : Json) : string :=
  match j with
  | JUndef => "undefined"
  | JNull => "null"
  | JBool true => "true"
  | JBool false => "false"
  | JNum z => number_to_string z
  | JStr s => s
  | JArr l =>
      (fix join (l : list Json) : string :=
         match l with
         | [] => ""
         | x :: r =>
             let e := match x with
                      | JUndef | JNull => ""
                      | _ => to_js_string x
                      end in
             match r with
             | [] => e
             | _ :: _ => (e ++ "," ++ join r)%string
             end
         end) l
  | JObj _ => "[object Object]"
  end.

(** [s.trim()] removes the WhiteSpace and LineTerminator code points
    from both ends, so it is the empty string exactly when [s] consists
    of them: U+0009 to U+000D and U+0020, one byte each; U+00A0 in two
    bytes; U+1680, U+2000 to U+200A, U+2028, U+2029, U+202F, U+205F,
    U+3000 and U+FEFF in three. *)
Definition is_space (c : ascii) : bool :=
  match nat_of_ascii c with
  | 9 | 10 | 11 | 12 | 13 | 32 => true
  | _ => false
  end.

Definition is_space2 (c1 c2 : ascii) : bool :=
  (N_of_ascii c1 =? 194)%N && (N_of_ascii c2 =? 160)%N.

Definition is_space3 (c1 c2 c3 : ascii) : bool :=
  let a := N_of_ascii c1 in
  let b := N_of_ascii c2 in
  let c := N_of_ascii c3 in
  ((a =? 225) && (b =? 154) && (c =? 128)
   || (a =? 226) && (b =? 128)
      && ((128 <=? c) && (c <=? 138) || (c =? 168) || (c =? 169) || (c =? 175))
   || (a =? 226) && (b =? 129) && (c =? 159)
   || (a =? 227) && (b =? 128) && (c =? 128)
   || (a =? 239) && (b =? 187) && (c =? 191))%N.

Fixpoint trim_is_empty (s : string) : bool :=
  match s with
  | EmptyString => true
  | String c1 r1 =>
      if is_space c1 then trim_is_empty r1
      else
        match r1 with
        | EmptyString => false
        | String c2 r2 =>
            if is_space2 c1 c2 then trim_is_empty r2
            else
              match r2 with
              | EmptyString => false
              | String c3 r3 => is_space3 c1 c2 c3 && trim_is_empty r3
              end
        end
  end.

(** ** Browser objects *)

Inductive ReadyState : Type := CONNECTING | OPEN | CLOSING | CLOSED.

(** A [WebSocket] created by [setupWebSocket uid]; its handlers close over
    [uid].  A socket is named by its position in the table [sockets]. *)
Record Socket : Type := mkSocket {
  s_uid : string;
  readyState : ReadyState
}.

(** The closure passed to a timer. *)
Inductive Callback : Type :=
| CbReconnect (uid : string)
    (* [() => { reconnectTimeoutRef.current = null; setupWebSocket(uid) }] *)
| CbPing (ws : nat)
    (* [() => { if (ws.readyState === OPEN) ws.send('ping') }] *)
| CbPoll (cycle : nat) (newTaskId : string)
         (c_showResults : bool) (c_agentLogs : list Json).
    (* the poll tick; [cycle] names its [pollCount] cell, the last two
       are the [showResults] and [agentLogs] bindings it closes over *)

(** A pending timer: [setTimeout] ([t_repeat = false]) or [setInterval]. *)
Record Timer : Type := mkTimer {
  t_id : nat;
  t_delay : Z;
  t_repeat : bool;
  t_cb : Callback
}.

Record File : Type := mkFile {
  f_name : string;
  f_size : Z
}.

(** Externally visible actions, in the order they are performed. *)
Inductive Effect : Type :=
| EAlert (message : string)
| ENavigate (path : string)
| EUpload (index : nat) (f : File)
| ECreateTask (description : string) (files : list string) (priority : string)
| EGetTask (taskId : string)
| ESend (ws : nat) (data : string).

(** ** The component and its environment *)

Record World : Type := mkWorld {
  (* useState *)
  isRunning : bool;
  showResults : bool;
  result : Json;
  userId : option string;
  uploadProgress : list (string * Z);
  agentLogs : list Json;
  wsConnected : bool;
  (* useRef *)
  wsRef : option nat;
  taskIdRef : option string;
  reconnectTimeoutRef : option nat;
  pingIntervalRef : option nat;
  pollIntervalRef : option nat;
  (* browser *)
  sockets : list Socket;
  timers : list Timer;
  pollCounts : list nat;
  nextTimerId : nat;
  token : option string;
  trace : list Effect
}.

Definition setIsRunning (v : bool) (w : World) : World :=
  {| isRunning := v; showResults := showResults w; result := result w;
     userId := userId w; uploadProgress := uploadProgress w;
     agentLogs := agentLogs w; wsConnected := wsConnected w;
     wsRef := wsRef w; taskIdRef := taskIdRef w;
     reconnectTimeoutRef := reconnectTimeoutRef w;
     pingIntervalRef := pingIntervalRef w;
     pollIntervalRef := pollIntervalRef w; sockets := sockets w;
     timers := timers w; pollCounts := pollCounts w;
     nextTimerId := nextTimerId w; token := token w; trace := trace w |}.

Definition setShowResults (v : bool) (w : World) : World :=
  {| isRunning := isRunning w; showResults := v; result := result w;
     userId := userId w; uploadProgress := uploadProgress w;
     agentLogs := agentLogs w; wsConnected := wsConnected w;
     wsRef := wsRef w; taskIdRef := taskIdRef w;
     reconnectTimeoutRef := reconnectTimeoutRef w;
     pingIntervalRef := pingIntervalRef w;
     pollIntervalRef := pollIntervalRef w; sockets := sockets w;
     timers := timers w; pollCounts := pollCounts w;
     nextTimerId := nextTimerId w; token := token w; trace := trace w |}.

Definition setResult (v : Json) (w : World) : World :=
  {| isRunning := isRunning w; showResults := showResults w; result := v;
     userId := userId w; uploadProgress := uploadProgress w;
     agentLogs := agentLogs w; wsConnected := wsConnected w;
     wsRef := wsRef w; taskIdRef := taskIdRef w;
     reconnectTimeoutRef := reconnectTimeoutRef w;
     pingIntervalRef := pingIntervalRef w;
     pollIntervalRef := pollIntervalRef w; sockets := sockets w;
     timers := timers w; pollCounts := pollCounts w;
     nextTimerId := nextTimerId w; token := token w; trace := trace w |}.

Definition setUserId (v : option string) (w : World) : World :=
  {| isRunning := isRunning w; showResults := showResults w;
     result := result w; userId := v; uploadProgress := uploadProgress w;
     agentLogs := agentLogs w; wsConnected := wsConnected w;
     wsRef := wsRef w; taskIdRef := taskIdRef w;
     reconnectTimeoutRef := reconnectTimeoutRef w;
     pingIntervalRef := pingIntervalRef w;
     pollIntervalRef := pollIntervalRef w; sockets := sockets w;
     timers := timers w; pollCounts := pollCounts w;
     nextTimerId := nextTimerId w; token := token w; trace := trace w |}.

Definition setUploadProgress (v : list (string * Z)) (w : World) : World :=
  {| isRunning := isRunning w; showResults := showResults w;
     result := result w; userId := userId w; uploadProgress := v;
     agentLogs := agentLogs w; wsConnected := wsConnected w;
     wsRef := wsRef w; taskIdRef := taskIdRef w;
     reconnectTimeoutRef := reconnectTimeoutRef w;
     pingIntervalRef := pingIntervalRef w;
     pollIntervalRef := pollIntervalRef w; sockets := sockets w;
     timers := timers w; pollCounts := pollCounts w;
     nextTimerId := nextTimerId w; token := token w; trace := trace w |}.

Definition setAgentLogs (v : list Json) (w : World) : World :=
  {| isRunning := isRunning w; showResults := showResults w;
     result := result w; userId := userId w;
     uploadProgress := uploadProgress w; agentLogs := v;
     wsConnected := wsConnected w; wsRef := wsRef w;
     taskIdRef := taskIdRef w; reconnectTimeoutRef := reconnectTimeoutRef w;
     pingIntervalRef := pingIntervalRef w;
     pollIntervalRef := pollIntervalRef w; sockets := sockets w;
     timers := timers w; pollCounts := pollCounts w;
     nextTimerId := nextTimerId w; token := token w; trace := trace w |}.

Definition setWsConnected (v : bool) (w : World) : World :=
  {| isRunning := isRunning w; showResults := showResults w;
     result := result w; userId := userId w;
     uploadProgress := uploadProgress w; agentLogs := agentLogs w;
     wsConnected := v; wsRef := wsRef w; taskIdRef := taskIdRef w;
     reconnectTimeoutRef := reconnectTimeoutRef w;
     pingIntervalRef := pingIntervalRef w;
     pollIntervalRef := pollIntervalRef w; sockets := sockets w;
     timers := timers w; pollCounts := pollCounts w;
     nextTimerId := nextTimerId w; token := token w; trace := trace w |}.

Definition set_wsRef (v : option nat) (w : World) : World :=
  {| isRunning := isRunning w; showResults := showResults w;
     result := result w; userId := userId w;
     uploadProgress := uploadProgress w; agentLogs := agentLogs w;
     wsConnected := wsConnected w; wsRef := v; taskIdRef := taskIdRef w;
     reconnectTimeoutRef := reconnectTimeoutRef w;
     pingIntervalRef := pingIntervalRef w;
     pollIntervalRef := pollIntervalRef w; sockets := sockets w;
     timers := timers w; pollCounts := pollCounts w;
     nextTimerId := nextTimerId w; token := token w; trace := trace w |}.

Definition set_taskIdRef (v : option string) (w : World) : World :=
  {| isRunning := isRunning w; showResults := showResults w;
     result := result w; userId := userId w;
     uploadProgress := uploadProgress w; agentLogs := agentLogs w;
     wsConnected := wsConnected w; wsRef := wsRef w; taskIdRef := v;
     reconnectTimeoutRef := reconnectTimeoutRef w;
     pingIntervalRef := pingIntervalRef w;
     pollIntervalRef := pollIntervalRef w; sockets := sockets w;
     timers := timers w; pollCounts := pollCounts w;
     nextTimerId := nextTimerId w; token := token w; trace := trace w |}.

Definition set_reconnectTimeoutRef (v : option nat) (w : World) : World :=
  {| isRunning := isRunning w; showResults := showResults w;
     result := result w; userId := userId w;
     uploadProgress := uploadProgress w; agentLogs := agentLogs w;
     wsConnected := wsConnected w; wsRef := wsRef w;
     taskIdRef := taskIdRef w; reconnectTimeoutRef := v;
     pingIntervalRef := pingIntervalRef w;
     pollIntervalRef := pollIntervalRef w; sockets := sockets w;
     timers := timers w; pollCounts := pollCounts w;
     nextTimerId := nextTimerId w; token := token w; trace := trace w |}.

Definition set_pingIntervalRef (v : option nat) (w : World) : World :=
  {| isRunning := isRunning w; showResults := showResults w;
     result := result w; userId := userId w;
     uploadProgress := uploadProgress w; agentLogs := agentLogs w;
     wsConnected := wsConnected w; wsRef := wsRef w;
     taskIdRef := taskIdRef w; reconnectTimeoutRef := reconnectTimeoutRef w;
     pingIntervalRef := v; pollIntervalRef := pollIntervalRef w;
     sockets := sockets w; timers := timers w; pollCounts := pollCounts w;
     nextTimerId := nextTimerId w; token := token w; trace := trace w |}.

Definition set_pollIntervalRef (v : option nat) (w : World) : World :=
  {| isRunning := isRunning w; showResults := showResults w;
     result := result w; userId := userId w;
     uploadProgress := uploadProgress w; agentLogs := agentLogs w;
     wsConnected := wsConnected w; wsRef := wsRef w;
     taskIdRef := taskIdRef w; reconnectTimeoutRef := reconnectTimeoutRef w;
     pingIntervalRef := pingIntervalRef w; pollIntervalRef := v;
     sockets := sockets w; timers := timers w; pollCounts := pollCounts w;
     nextTimerId := nextTimerId w; token := token w; trace := trace w |}.

Definition set_sockets (v : list Socket) (w : World) : World :=
  {| isRunning := isRunning w; showResults := showResults w;
     result := result w; userId := userId w;
     uploadProgress := uploadProgress w; agentLogs := agentLogs w;
     wsConnected := wsConnected w; wsRef := wsRef w;
     taskIdRef := taskIdRef w; reconnectTimeoutRef := reconnectTimeoutRef w;
     pingIntervalRef := pingIntervalRef w;
     pollIntervalRef := pollIntervalRef w; sockets := v; timers := timers w;
     pollCounts := pollCounts w; nextTimerId := nextTimerId w;
     token := token w; trace := trace w |}.

Definition set_timers (v : list Timer) (w : World) : World :=
  {| isRunning := isRunning w; showResults := showResults w;
     result := result w; userId := userId w;
     uploadProgress := uploadProgress w; agentLogs := agentLogs w;
     wsConnected := wsConnected w; wsRef := wsRef w;
     taskIdRef := taskIdRef w; reconnectTimeoutRef := reconnectTimeoutRef w;
     pingIntervalRef := pingIntervalRef w;
     pollIntervalRef := pollIntervalRef w; sockets := sockets w; timers := v;
     pollCounts := pollCounts w; nextTimerId := nextTimerId w;
     token := token w; trace := trace w |}.

Definition set_pollCounts (v : list nat) (w : World) : World :=
  {| isRunning := isRunning w; showResults := showResults w;
     result := result w; userId := userId w;
     uploadProgress := uploadProgress w; agentLogs := agentLogs w;
     wsConnected := wsConnected w; wsRef := wsRef w;
     taskIdRef := taskIdRef w; reconnectTimeoutRef := reconnectTimeoutRef w;
     pingIntervalRef := pingIntervalRef w;
     pollIntervalRef := pollIntervalRef w; sockets := sockets w;
     timers := timers w; pollCounts := v; nextTimerId := nextTimerId w;
     token := token w; trace := trace w |}.

Definition set_nextTimerId (v : nat) (w : World) : World :=
  {| isRunning := isRunning w; showResults := showResults w;
     result := result w; userId := userId w;
     uploadProgress := uploadProgress w; agentLogs := agentLogs w;
     wsConnected := wsConnected w; wsRef := wsRef w;
     taskIdRef := taskIdRef w; reconnectTimeoutRef := reconnectTimeoutRef w;
     pingIntervalRef := pingIntervalRef w;
     pollIntervalRef := pollIntervalRef w; sockets := sockets w;
     timers := timers w; pollCounts := pollCounts w; nextTimerId := v;
     token := token w; trace := trace w |}.

Definition set_token (v : option string) (w : World) : World :=
  {| isRunning := isRunning w; showResults := showResults w;
     result := result w; userId := userId w;
     uploadProgress := uploadProgress w; agentLogs := agentLogs w;
     wsConnected := wsConnected w; wsRef := wsRef w;
     taskIdRef := taskIdRef w; reconnectTimeoutRef := reconnectTimeoutRef w;
     pingIntervalRef := pingIntervalRef w;
     pollIntervalRef := pollIntervalRef w; sockets := sockets w;
     timers := timers w; pollCounts := pollCounts w;
     nextTimerId := nextTimerId w; token := v; trace := trace w |}.

Definition set_trace (v : list Effect) (w : World) : World :=
  {| isRunning := isRunning w; showResults := showResults w;
     result := result w; userId := userId w;
     uploadProgress := uploadProgress w; agentLogs := agentLogs w;
     wsConnected := wsConnected w; wsRef := wsRef w;
     taskIdRef := taskIdRef w; reconnectTimeoutRef := reconnectTimeoutRef w;
     pingIntervalRef := pingIntervalRef w;
     pollIntervalRef := pollIntervalRef w; sockets := sockets w;
     timers := timers w; pollCounts := pollCounts w;
     nextTimerId := nextTimerId w; token := token w; trace := v |}.


(** Exceptions: [None] propagates to the enclosing [catch]. *)
Notation "x <- e ;; k" :=
  (match e with Some x => k | None => None end)
  (at level 61, e at next level, right associativity).

Definition emit (e : Effect) (w : World) : World :=
  set_trace (trace w ++ [e]) w.

(** *** Timers *)

(** [setTimeout(cb, delay)] and [setInterval(cb, delay)]: the new handle
    and the world with the timer pending.  Handles are never reused. *)
Definition addTimer (delay : Z) (rep : bool) (cb : Callback) (w : World)
  : nat * World :=
  let id := nextTimerId w in
  (id, set_nextTimerId (S id)
         (set_timers (timers w ++ [mkTimer id delay rep cb]) w)).

(** [clearTimeout(id)] and [clearInterval(id)]. *)
Definition clearTimer (id : nat) (w : World) : World :=
  set_timers (filter (fun t => negb (Nat.eqb (t_id t) id)) (timers w)) w.

Definition is_reconnect (t : Timer) : bool :=
  match t_cb t with CbReconnect _ => true | _ => false end.

Definition is_poll (t : Timer) : bool :=
  match t_cb t with CbPoll _ _ _ _ => true | _ => false end.

Definition reconnect_timers (w : World) : list Timer :=
  filter is_reconnect (timers w).

Definition poll_timers (w : World) : list Timer :=
  filter is_poll (timers w).

Definition pending (id : nat) (w : World) : bool :=
  existsb (fun t => Nat.eqb (t_id t) id) (timers w).

(** *** Sockets *)

Fixpoint update_nth {A : Type} (n : nat) (f : A -> A) (l : list A) : list A :=
  match l, n with
  | [], _ => []
  | x :: r, O => f x :: r
  | x :: r, S m => x :: update_nth m f r
  end.

Definition socket_state (ws : nat) (w : World) : option ReadyState :=
  option_map readyState (nth_error (sockets w) ws).

Definition set_readyState (ws : nat) (rs : ReadyState) (w : World) : World :=
  set_sockets (update_nth ws (fun s => mkSocket (s_uid s) rs) (sockets w)) w.

(** The url [ws://host:8000/ws/uid] has a fragment when [uid] contains
    the character [#]. *)
Fixpoint has_fragment (uid : string) : bool :=
  match uid with
  | EmptyString => false
  | String c r => Ascii.eqb c "#" || has_fragment r
  end.

(** [new WebSocket(url)], the url ending in [uid].  The constructor
    throws a [SyntaxError] for a url with a fragment ([None]); otherwise
    the new socket is connecting. *)
Definition newWebSocket (uid : string) (w : World) : option (nat * World) :=
  if has_fragment uid then None
  else Some (List.length (sockets w),
             set_sockets (sockets w ++ [mkSocket uid CONNECTING]) w).

(** [ws.close()]: starts the closing handshake; the close event comes
    later, as an event of its own. *)
Definition socket_close (ws : nat) (w : World) : World :=
  match socket_state ws w with
  | Some CONNECTING | Some OPEN => set_readyState ws CLOSING w
  | _ => w
  end.

(** ** [setupWebSocket] and the handlers it installs *)

Definition invalid_uid (uid : string) : bool :=
  negb (truthy_str uid) || String.eqb uid "undefined" || String.eqb uid "null"
  || trim_is_empty uid.

Definition ws_is_open (w : World) : bool :=
  match wsRef w with
  | Some ws =>
      match socket_state ws w with
      | Some OPEN => true
      | _ => false
      end
  | None => false
  end.

Definition setupWebSocket (uid : string) (w : World) : World :=
  if invalid_uid uid then w
  else if ws_is_open w then w
  else
    let w := match wsRef w with
             | Some ws => set_wsRef None (socket_close ws w)
             | None => w
             end in
    match newWebSocket uid w with
    | Some (ws, w) => set_wsRef (Some ws) w
    | None => w                 (* the [catch] only logs *)
    end.

(** [ws.onopen], for the socket [ws]. *)
Definition ws_onopen (ws : nat) (w : World) : World :=
  let w := setWsConnected true w in
  let w := match reconnectTimeoutRef w with
           | Some id => set_reconnectTimeoutRef None (clearTimer id w)
           | None => w
           end in
  let w := match pingIntervalRef w with
           | Some id => clearTimer id w
           | None => w
           end in
  let (id, w) := addTimer 30000 true (CbPing ws) w in
  set_pingIntervalRef (Some id) w.

(** What a socket delivers: the text [pong], text that [JSON.parse]
    rejects, or a parsed value. *)
Inductive Frame : Type :=
| FPong
| FUnparsable
| FJson (msg : Json).

(** [if (pollIntervalRef.current) { clearInterval(..); .. = null }] *)
Definition stop_poll (w : World) : World :=
  match pollIntervalRef w with
  | Some id => set_pollIntervalRef None (clearTimer id w)
  | None => w
  end.

(** The identity filter of [ws.onmessage]:
    [taskIdRef.current && msg.task_id && msg.task_id !== taskIdRef.current]. *)
Definition filtered_out (current : option string) (task_id : Json) : bool :=
  match current with
  | Some t => truthy_str t && truthy task_id && negb (strict_eq_str task_id t)
  | None => false
  end.

Definition errorResult (err : Json) : Json :=
  JObj [("error", err);
        ("status", JStr "error");
        ("summary", JStr ("Error: " ++ to_js_string err));
        ("insights", JArr [JStr "An error occurred"]);
        ("recommendations", JArr [JStr "Please try again"])].

(** The three branches of [ws.onmessage].  [None] is an exception. *)
Definition on_agent_log (msg : Json) (w : World) : option World :=
  log <- get "log" msg ;;
  _ <- get "agent" log ;;
  Some (setAgentLogs (agentLogs w ++ [log]) w).

Definition on_task_completed (msg : Json) (w : World) : option World :=
  res <- get "result" msg ;;
  let w := setResult res w in
  let w := setShowResults true w in
  let w := setIsRunning false w in
  let w := set_taskIdRef None w in
  Some (stop_poll w).

Definition on_task_error (msg : Json) (w : World) : option World :=
  err <- get "error" msg ;;
  if to_string_throws err then None     (* [`Error: ${msg.error}`] throws *)
  else
    let w := setResult (errorResult err) w in
    let w := setShowResults true w in
    let w := setIsRunning false w in
    let w := set_taskIdRef None w in
    Some (stop_poll w).

(** The body of the [try] block of [ws.onmessage]; the [catch] only logs. *)
Definition onmessage_try (msg : Json) (w : World) : option World :=
  type <- get "type" msg ;;
  task_id <- get "task_id" msg ;;
  if filtered_out (taskIdRef w) task_id then Some w
  else
    w <- (if strict_eq_str type "agent_log" then on_agent_log msg w
          else Some w) ;;
    w <- (if strict_eq_str type "task_completed" then on_task_completed msg w
          else Some w) ;;
    if strict_eq_str type "task_error" then on_task_error msg w else Some w.

Definition ws_onmessage (fr : Frame) (w : World) : World :=
  match fr with
  | FPong => w
  | FUnparsable => w
  | FJson msg =>
      match onmessage_try msg w with
      | Some w' => w'
      | None => w
      end
  end.

Definition ws_onerror (w : World) : World := setWsConnected false w.

(** [ws.onclose], for a socket created by [setupWebSocket uid]. *)
Definition ws_onclose (uid : string) (w : World) : World :=
  let w := set_wsRef None w in
  let w := setWsConnected false w in
  let w := match pingIntervalRef w with
           | Some id => set_pingIntervalRef None (clearTimer id w)
           | None => w
           end in
  match reconnectTimeoutRef w with
  | None =>
      if truthy_str uid then
        let (id, w) := addTimer 3000 false (CbReconnect uid) w in
        set_reconnectTimeoutRef (Some id) w
      else w
  | Some _ => w
  end.

(** The reconnect closure. *)
Definition reconnect_cb (uid : string) (w : World) : World :=
  setupWebSocket uid (set_reconnectTimeoutRef None w).

(** The heartbeat closure of socket [ws]. *)
Definition ping_cb (ws : nat) (w : World) : World :=
  match socket_state ws w with
  | Some OPEN => emit (ESend ws "ping") w
  | _ => w
  end.

(** The cleanup returned by the effect. *)
Definition cleanup (w : World) : World :=
  let w := match reconnectTimeoutRef w with
           | Some id => clearTimer id w
           | None => w
           end in
  let w := match pingIntervalRef w with
           | Some id => clearTimer id w
           | None => w
           end in
  let w := match pollIntervalRef w with
           | Some id => clearTimer id w
           | None => w
           end in
  match wsRef w with
  | Some ws => set_wsRef None (socket_close ws w)
  | None => w
  end.

(** ** The polling fallback *)

Definition maxPolls : nat := 30.

Definition pollCount (cycle : nat) (w : World) : nat :=
  nth cycle (pollCounts w) 0.

(** What [fetch] of the task and [pollResponse.json()] yield. *)
Inductive PollResponse : Type :=
| PollRejected                  (* [fetch] or [json()] rejects *)
| PollNotOk                     (* [pollResponse.ok] is false *)
| PollOk (taskData : Json).

Definition systemLog (now : string) : Json :=
  JObj [("agent", JStr "System");
        ("action", JStr "completed");
        ("message", JStr "Task completed (fallback retrieval)");
        ("timestamp", JStr now)].

Definition failedResult : Json :=
  JObj [("error", JStr "Task failed");
        ("status", JStr "error");
        ("summary", JStr "Task failed");
        ("insights", JArr [JStr "Error occurred"]);
        ("recommendations", JArr [JStr "Try again"])].

Definition timeoutResult : Json :=
  JObj [("status", JStr "error");
        ("summary", JStr "Task taking longer than expected");
        ("insights", JArr [JStr "May still be processing"]);
        ("recommendations", JArr [JStr "Check History page later"])].

(** The tick up to [await fetch(..)]: the counter is bumped, the closure's
    own [showResults] and [agentLogs] are tested, and the request is sent. *)
Definition poll_tick (cycle : nat) (newTaskId : string)
    (c_showResults : bool) (c_agentLogs : list Json) (w : World) : World :=
  let w := set_pollCounts (update_nth cycle S (pollCounts w)) w in
  if c_showResults || (0 <? List.length c_agentLogs)%nat then stop_poll w
  else emit (EGetTask newTaskId) w.

(** The [try] block once the response is there. *)
Definition poll_try (resp : PollResponse) (now : string) (w : World)
  : option World :=
  match resp with
  | PollRejected => None
  | PollNotOk => Some w
  | PollOk taskData =>
      task <- get "task" taskData ;;
      status <- get "status" task ;;
      res <- get "result" task ;;
      if strict_eq_str status "completed" && truthy res then
        let w := stop_poll w in
        let w := setResult res w in
        let w := setShowResults true w in
        let w := setIsRunning false w in
        let w := set_taskIdRef None w in
        Some (setAgentLogs (agentLogs w ++ [systemLog now]) w)
      else if strict_eq_str status "error" then
        let w := stop_poll w in
        let w := setResult (if truthy res then res else failedResult) w in
        let w := setShowResults true w in
        let w := setIsRunning false w in
        Some (set_taskIdRef None w)
      else Some w
  end.

(** The rest of the tick, run when the response arrives. *)
Definition poll_resume (cycle : nat) (resp : PollResponse) (now : string)
    (w : World) : World :=
  let w := match poll_try resp now w with
           | Some w' => w'
           | None => w
           end in
  if (maxPolls <=? pollCount cycle w)%nat then
    let w := stop_poll w in
    let w := setResult timeoutResult w in
    let w := setShowResults true w in
    setIsRunning false w
  else w.

(** ** Submission *)

(** The bindings of one render, which the handlers created by that render
    close over. *)
Record Render : Type := mkRender {
  r_isRunning : bool;
  r_showResults : bool;
  r_agentLogs : list Json;
  r_wsConnected : bool;
  r_userId : option string
}.

Definition render (w : World) : Render :=
  {| r_isRunning := isRunning w;
     r_showResults := showResults w;
     r_agentLogs := agentLogs w;
     r_wsConnected := wsConnected w;
     r_userId := userId w |}.

(** How an upload settles: the percentages reported by [onprogress], then
    the document name or a rejection. *)
Inductive UploadOutcome : Type :=
| Uploaded (progress : list Z) (fileName : string)
| UploadFailed (progress : list Z).

(** How task creation settles: the new task's [_id], a response that is
    not ok with its [detail], or an exception with its message. *)
Inductive CreateOutcome : Type :=
| Created (newTaskId : string)
| CreateNotOk (detail : Json)
| CreateThrows (message : string).

(** The collaborators behind [/api/upload] and [/api/tasks]. *)
Record Net : Type := mkNet {
  upload : nat -> File -> UploadOutcome;
  createTask : string -> list string -> CreateOutcome
}.

Fixpoint assoc_set (k : string) (v : Z) (l : list (string * Z))
  : list (string * Z) :=
  match l with
  | [] => [(k, v)]
  | (k', v') :: r =>
      if String.eqb k k' then (k, v) :: r else (k', v') :: assoc_set k v r
  end.

Definition report_progress (name : string) (ps : list Z) (w : World) : World :=
  fold_left (fun w p => setUploadProgress (assoc_set name p (uploadProgress w)) w)
            ps w.

(** The [for (const file of files)] loop; [None] is the early [return]. *)
Fixpoint uploadFiles (net : Net) (i : nat) (files : list File)
    (uploadedFiles : list string) (w : World) : World * option (list string) :=
  match files with
  | [] => (w, Some uploadedFiles)
  | file :: rest =>
      let w := emit (EUpload i file) w in
      match upload net i file with
      | Uploaded ps fileName =>
          uploadFiles net (S i) rest (uploadedFiles ++ [fileName])
                      (report_progress (f_name file) ps w)
      | UploadFailed ps =>
          let w := report_progress (f_name file) ps w in
          let w := emit (EAlert ("Failed to upload " ++ f_name file)) w in
          (setIsRunning false w, None)
      end
  end.

(** The message of [new Error(errorData.detail || 'Failed to create
    task')], or of the [TypeError] thrown in its place when the detail
    does not convert to text. *)
Definition creation_error (detail : Json) : string :=
  if truthy detail then
    if to_string_throws detail then cannot_convert else to_js_string detail
  else "Failed to create task".

(** The [catch] of the handler. *)
Definition start_failed (message : string) (w : World) : World :=
  let w := emit (EAlert (if truthy_str message then message
                         else "Failed to start task")) w in
  let w := setIsRunning false w in
  let w := setAgentLogs [] w in
  stop_poll w.

(** [pollIntervalRef.current = setInterval(async () => ..., 3000)] with a
    fresh [let pollCount = 0]. *)
Definition start_polling (r : Render) (newTaskId : string) (w : World) : World :=
  let cycle := List.length (pollCounts w) in
  let w := set_pollCounts (pollCounts w ++ [0]) w in
  let (id, w) :=
    addTimer 3000 true
      (CbPoll cycle newTaskId (r_showResults r) (r_agentLogs r)) w in
  set_pollIntervalRef (Some id) w.

(** [handleStartTaskWithFiles], as created by the render [r], run with
    its awaits settled by [net]. *)
Definition handleStartTaskWithFiles (r : Render) (net : Net)
    (taskText : string) (files : list File) (w : World) : World :=
  if trim_is_empty taskText then
    emit (EAlert "Please enter a task description") w
  else
    let w := setIsRunning true w in
    let w := setShowResults false w in
    let w := setResult JNull w in
    let w := setAgentLogs [] w in
    let w := setUploadProgress [] w in
    let w := set_taskIdRef None w in
    if negb (truthy_opt (token w)) then emit (ENavigate "/login") w
    else
      match uploadFiles net 0 files [] w with
      | (w, None) => w
      | (w, Some uploadedFiles) =>
          let w := setUploadProgress [] w in
          let w :=
            match r_userId r with
            | Some uid =>
                if negb (r_wsConnected r) && truthy_str uid
                then setupWebSocket uid w else w
            | None => w
            end in
          let w := emit (ECreateTask taskText uploadedFiles "medium") w in
          match createTask net taskText uploadedFiles with
          | Created newTaskId =>
              start_polling r newTaskId (set_taskIdRef (Some newTaskId) w)
          | CreateNotOk detail => start_failed (creation_error detail) w
          | CreateThrows message => start_failed message w
          end
      end.

(** *** The start control of [TaskInput] *)

Module TaskInput.

(** [disabled={!task.trim() || isRunning}] *)
Definition disabled (task : string) (isRunning : bool) : bool :=
  trim_is_empty task || isRunning.

Definition handleStart (onStart : string -> list File -> World -> World)
    (task : string) (files : list File) (w : World) : World :=
  if trim_is_empty task then emit (EAlert "Please enter a task description") w
  else onStart task files w.

(** A click on the button; a disabled button dispatches nothing. *)
Definition click (isRunning : bool)
    (onStart : string -> list File -> World -> World)
    (task : string) (files : list File) (w : World) : World :=
  if disabled task isRunning then w else handleStart onStart task files w.

End TaskInput.

(** The page renders [<TaskInput onStart={handleStartTaskWithFiles}
    isRunning={isRunning} />]. *)
Definition click_start (net : Net) (task : string) (files : list File)
    (w : World) : World :=
  TaskInput.click (isRunning w) (handleStartTaskWithFiles (render w) net)
                  task files w.

(** ** Authentication on mount *)

(** How [fetchUser] settles: the request, [json()] or the reading of the
    data throws; the response is not ok; or the response is ok and
    [data.user?._id || data.user?.id] is the text [uid] (the empty text
    when it is missing). *)
Inductive AuthOutcome : Type :=
| AuthRejected
| AuthNotOk
| AuthUser (uid : string).

Definition fetchUser (o : AuthOutcome) (w : World) : World :=
  if negb (truthy_opt (token w)) then emit (ENavigate "/login") w
  else
    match o with
    | AuthRejected => emit (ENavigate "/login") w
    | AuthNotOk => emit (ENavigate "/login") (set_token None w)
    | AuthUser uid =>
        if invalid_uid uid then
          emit (ENavigate "/login")
               (emit (EAlert "Failed to get user ID. Please login again.") w)
        else setupWebSocket uid (setUserId (Some uid) w)
    end.

(** ** The event loop *)

Inductive Event : Type :=
| EvMount (o : AuthOutcome)
| EvOpen (ws : nat)
| EvMessage (ws : nat) (fr : Frame)
| EvError (ws : nat)
| EvClose (ws : nat)
| EvTimer (id : nat)
| EvPollResponse (cycle : nat) (resp : PollResponse) (now : string)
| EvClickStart (net : Net) (task : string) (files : list File)
| EvUnmount.

Definition run_callback (cb : Callback) (w : World) : World :=
  match cb with
  | CbReconnect uid => reconnect_cb uid w
  | CbPing ws => ping_cb ws w
  | CbPoll cycle newTaskId c_showResults c_agentLogs =>
      poll_tick cycle newTaskId c_showResults c_agentLogs w
  end.

(** The timer [id] fires: a timeout leaves the table, an interval stays. *)
Definition fire (id : nat) (w : World) : World :=
  match find (fun t => Nat.eqb (t_id t) id) (timers w) with
  | Some t =>
      run_callback (t_cb t) (if t_repeat t then w else clearTimer id w)
  | None => w
  end.

(** One turn of the event loop.  An event that cannot occur in [w] (a
    timer that is not pending, an open event on a socket that is not
    connecting, ...) leaves [w] as it is. *)
Definition step (w : World) (e : Event) : World :=
  match e with
  | EvMount o => fetchUser o w
  | EvOpen ws =>
      match socket_state ws w with
      | Some CONNECTING => ws_onopen ws (set_readyState ws OPEN w)
      | _ => w
      end
  | EvMessage ws fr =>
      match socket_state ws w with
      | Some OPEN | Some CLOSING => ws_onmessage fr w
      | _ => w
      end
  | EvError ws =>
      match socket_state ws w with
      | Some CONNECTING | Some OPEN | Some CLOSING => ws_onerror w
      | _ => w
      end
  | EvClose ws =>
      match nth_error (sockets w) ws with
      | Some s =>
          match readyState s with
          | CLOSED => w
          | _ => ws_onclose (s_uid s) (set_readyState ws CLOSED w)
          end
      | None => w
      end
  | EvTimer id => fire id w
  | EvPollResponse cycle resp now => poll_resume cycle resp now w
  | EvClickStart net task files => click_start net task files w
  | EvUnmount => cleanup w
  end.

Definition run (w : World) (evs : list Event) : World := fold_left step evs w.

(** The world when the component mounts. *)
Definition initial (tok : option string) : World :=
  {| isRunning := false; showResults := false; result := JNull;
     userId := None; uploadProgress := []; agentLogs := [];
     wsConnected := false;
     wsRef := None; taskIdRef := None; reconnectTimeoutRef := None;
     pingIntervalRef := None; pollIntervalRef := None;
     sockets := []; timers := []; pollCounts := []; nextTimerId := 1;
     token := tok; trace := [] |}.

(** ** Vocabulary of the properties *)

(** The upload requests for [files], numbered from [i], in list order. *)
Fixpoint uploads_of (i : nat) (files : list File) : list Effect :=
  match files with
  | [] => []
  | f :: r => EUpload i f :: uploads_of (S i) r
  end.

Definition is_create (e : Effect) : bool :=
  match e with ECreateTask _ _ _ => true | _ => false end.

(** A terminal signal has been applied: the results are shown, nothing
    runs, no task is bound and no poll handle is held. *)
Definition resolved (w : World) : Prop :=
  showResults w = true /\ isRunning w = false /\
  taskIdRef w = None /\ pollIntervalRef w = None.

(** A terminal outcome of a poll: [completed] with a result, or [error]. *)
Definition terminal_status (status res : Json) : Prop :=
  (status = JStr "completed" /\ truthy res = true) \/ status = JStr "error".

(** A poll response that settles nothing: the [try] block throws or
    leaves the world as it is. *)
Definition unresolved (resp : PollResponse) : Prop :=
  forall now w, poll_try resp now w = None \/ poll_try resp now w = Some w.

(** One poll tick of the timer [id] with the response to its request
    arriving before anything else happens. *)
Definition tick_round (id cycle : nat) (w : World)
    (rn : PollResponse * string) : World :=
  step (step w (EvTimer id)) (EvPollResponse cycle (fst rn) (snd rn)).

(** The world after [k] ticks of the poll cycle [cycle] that settled
    nothing: [k] requests were sent and the counter was bumped [k] times. *)
Definition ticked (w : World) (cycle : nat) (newTaskId : string) (k : nat)
  : World :=
  set_trace (trace w ++ repeat (EGetTask newTaskId) k)
            (set_pollCounts (Nat.iter k (update_nth cycle S) (pollCounts w)) w).

(** Every mount of the trace authenticates as [u]. *)
Definition single_identity (u : string) (evs : list Event) : Prop :=
  forall u', In (EvMount (AuthUser u')) evs -> u' = u.

(** The reconnect machinery as it should be for the identity [u]: a
    pending reconnect timer is the one whose handle is held, it is a
    timeout of 3000 ms for [u], there is at most one, every socket was
    opened for [u], and the user, once known, is [u].  A socket or a
    reconnect timer exists only for an identity that [setupWebSocket]
    accepts and that the socket constructor does not reject. *)
Definition reconnect_inv (u : string) (w : World) : Prop :=
  (forall t, In t (reconnect_timers w) ->
             reconnectTimeoutRef w = Some (t_id t) /\
             t = mkTimer (t_id t) 3000 false (CbReconnect u)) /\
  List.length (reconnect_timers w) <= 1 /\
  Forall (fun s => s_uid s = u /\ invalid_uid u = false /\
                   has_fragment u = false) (sockets w) /\
  (userId w = None \/ userId w = Some u) /\
  (reconnect_timers w <> [] ->
   invalid_uid u = false /\ has_fragment u = false).

(** Timer handles are never reused: the pending timers have distinct
    handles, all below the next handle the browser gives out. *)
Definition handles_inv (w : World) : Prop :=
  (forall t t', In t (timers w) -> In t' (timers w) ->
                t_id t = t_id t' -> t = t') /\
  Forall (fun t => t_id t < nextTimerId w) (timers w).

(** [w'] differs from [w] by nothing the reconnect machinery looks at,
    except that timers may have been cleared. *)
Definition quiet (w w' : World) : Prop :=
  reconnectTimeoutRef w' = reconnectTimeoutRef w /\
  userId w' = userId w /\
  sockets w' = sockets w /\
  nextTimerId w <= nextTimerId w' /\
  (forall t, In t (reconnect_timers w') -> In t (reconnect_timers w)) /\
  List.length (reconnect_timers w') <= List.length (reconnect_timers w).

(** ** Scenarios *)

Module Scenario.

Definition log1 : Json :=
  JObj [("agent", JStr "Planner"); ("action", JStr "plan");
        ("message", JStr "working"); ("timestamp", JStr "2024-01-01T00:00:00Z")].

Definition agent_log (task_id : string) : Json :=
  JObj [("type", JStr "agent_log"); ("task_id", JStr task_id); ("log", log1)].

Definition done : Json := JObj [("summary", JStr "done")].

(** The text of one no-break space, U+00A0. *)
Definition nbsp : string :=
  String (ascii_of_nat 194) (String (ascii_of_nat 160) EmptyString).

Definition task_completed (task_id : string) : Json :=
  JObj [("type", JStr "task_completed"); ("task_id", JStr task_id);
        ("result", done)].

Definition task_error (task_id : string) : Json :=
  JObj [("type", JStr "task_error"); ("task_id", JStr task_id);
        ("error", JStr "boom")].

Definition status (s : string) : PollResponse :=
  PollOk (JObj [("task", JObj [("status", JStr s)])]).

(** Uploads succeed and the task is created as [id]. *)
Definition net_ok (id : string) : Net :=
  {| upload := fun _ f => Uploaded [100%Z] (f_name f);
     createTask := fun _ _ => Created id |}.

(** As [net_ok], but the upload of the second file fails. *)
Definition net_second_fails : Net :=
  {| upload := fun i f => if Nat.eqb i 1 then UploadFailed [40%Z]
                          else Uploaded [100%Z] (f_name f);
     createTask := fun _ _ => Created "t1" |}.

Definition files3 : list File :=
  [mkFile "a.csv" 10; mkFile "b.csv" 20; mkFile "c.csv" 30].

(** Mounted as user "u1" with the socket open. *)
Definition connected : World :=
  run (initial (Some "tok")) [EvMount (AuthUser "u1"); EvOpen 0].

(** A first task "t1" submitted from [connected] and awaiting its result. *)
Definition awaiting : World :=
  step connected (EvClickStart (net_ok "t1") "first task" []).

(** The first task resolved by the push channel, then a second task "t2"
    submitted from the page that shows the first result. *)
Definition second_submission : World :=
  run awaiting [EvMessage 0 (FJson (task_completed "t1"));
                EvClickStart (net_ok "t2") "second task" []].

(** The first task resolved as failed by the first poll tick. *)
Definition failed_by_poll : World :=
  run awaiting [EvTimer 2; EvPollResponse 0 (status "error") "2024-01-01T00:00:03Z"].

(** The page unmounts while connected and the socket then closes. *)
Definition closed_after_cleanup : World :=
  run connected [EvUnmount; EvClose 0].

End Scenario.

(** ** Further vocabulary *)

(** The task session as the page keeps it: flags, result, event log,
    bound task, poll handle, poll counters and upload progress. *)
Definition session_of (w : World)
  : bool * bool * Json * list Json * option string * option nat
    * list nat * list (string * Z) :=
  (isRunning w, showResults w, result w, agentLogs w, taskIdRef w,
   pollIntervalRef w, pollCounts w, uploadProgress w).

(** The connection as the page keeps it: the socket table, the socket
    handle, the connected flag and the two connection timers' handles. *)
Definition connection_of (w : World)
  : list Socket * option nat * bool * option nat * option nat :=
  (sockets w, wsRef w, wsConnected w, reconnectTimeoutRef w,
   pingIntervalRef w).

Definition is_ping (t : Timer) : bool :=
  match t_cb t with CbPing _ => true | _ => false end.

Definition ping_timers (w : World) : list Timer :=
  filter is_ping (timers w).

Definition is_send (e : Effect) : bool :=
  match e with ESend _ _ => true | _ => false end.

(** What the page has written to its sockets so far. *)
Definition sends (w : World) : list Effect := filter is_send (trace w).

(** The names the upload endpoint returns for [files], numbered from
    [i]; [None] when one of the uploads fails. *)
Fixpoint returned_names (net : Net) (i : nat) (files : list File)
  : option (list string) :=
  match files with
  | [] => Some []
  | f :: r =>
      match upload net i f with
      | Uploaded _ name => option_map (cons name) (returned_names net (S i) r)
      | UploadFailed _ => None
      end
  end.

(** The session as the handler resets it before anything else. *)
Definition reset_session (w : World) : World :=
  set_taskIdRef None
    (setUploadProgress []
       (setAgentLogs []
          (setResult JNull (setShowResults false (setIsRunning true w))))).

(** The heartbeat as it should be: a pending heartbeat timer is the one
    whose handle is held, it is an interval of 30000 ms, and there is at
    most one. *)
Definition ping_inv (w : World) : Prop :=
  (forall t, In t (ping_timers w) ->
             pingIntervalRef w = Some (t_id t) /\
             t_delay t = 30000%Z /\ t_repeat t = true) /\
  List.length (ping_timers w) <= 1.

(** [w'] differs from [w] by nothing the heartbeat looks at, except that
    timers may have been cleared, and nothing was written to a socket. *)
Definition calm (w w' : World) : Prop :=
  pingIntervalRef w' = pingIntervalRef w /\
  (forall t, In t (ping_timers w') -> In t (ping_timers w)) /\
  List.length (ping_timers w') <= List.length (ping_timers w) /\
  sends w' = sends w.

(** What the event [e] writes to a socket in the world [w]: the text
    [ping], when [e] is a heartbeat timer firing for a socket that is
    open, and nothing otherwise. *)
Definition heartbeat_of (w : World) (e : Event) : list Effect :=
  match e with
  | EvTimer id =>
      match find (fun t => Nat.eqb (t_id t) id) (timers w) with
      | Some t =>
          match t_cb t with
          | CbPing ws =>
              match socket_state ws w with
              | Some OPEN => [ESend ws "ping"]
              | _ => []
              end
          | _ => []
          end
      | None => []
      end
  | _ => []
  end.

(** The text of the alert after a failed creation: the server's detail
    when it has one, and never an empty text. *)
Definition creation_alert (c : CreateOutcome) : string :=
  match c with
  | Created _ => ""
  | CreateNotOk detail =>
      if truthy detail then
        if to_string_throws detail then cannot_convert
        else if truthy_str (to_js_string detail) then to_js_string detail
        else "Failed to start task"
      else "Failed to create task"
  | CreateThrows message =>
      if truthy_str message then message else "Failed to start task"
  end.

(** An event of the connection's life in the world [w]: a socket opens,
    errs or closes, or a timer fires that is not a poll tick. *)
Definition connection_event (w : World) (e : Event) : bool :=
  match e with
  | EvOpen _ | EvError _ | EvClose _ => true
  | EvTimer id =>
      match find (fun t => Nat.eqb (t_id t) id) (timers w) with
      | Some t => negb (is_poll t)
      | None => true
      end
  | _ => false
  end.

(** A sequence of such events, each taken in the world it occurs in. *)
Fixpoint connection_events (w : World) (evs : list Event) : bool :=
  match evs with
  | [] => true
  | e :: r => connection_event w e && connection_events (step w e) r
  end.

(** ** The file list and the progress rows of [TaskInput] *)

Module TaskInputFiles.

(** [prev.filter((_, i) => i !== index)], the positions counted from [i]. *)
Fixpoint filter_from (i index : nat) (files : list File) : list File :=
  match files with
  | [] => []
  | f :: r =>
      if negb (Nat.eqb i index) then f :: filter_from (S i) index r
      else filter_from (S i) index r
  end.

Definition removeFile (index : nat) (files : list File) : list File :=
  filter_from 0 index files.

(** [onFileChange]: the selection of the file input, [None] when the
    event has no file list. *)
Definition onFileChange (selectedFiles : option (list File))
    (files : list File) : list File :=
  match selectedFiles with
  | None => files
  | Some [] => files
  | Some fileArray => files ++ fileArray
  end.

(** [uploadProgress[file.name]]; [None] is [undefined].  The map starts
    empty and is written by name only; names that [Object.prototype]
    defines ([constructor], [toString], ...) are left aside. *)
Fixpoint progress_of (name : string) (uploadProgress : list (string * Z))
  : option Z :=
  match uploadProgress with
  | [] => None
  | (k, v) :: r => if String.eqb name k then Some v else progress_of name r
  end.

(** [hasProgress && progress < 100]: the bar under a file's row. *)
Definition shows_bar (name : string) (uploadProgress : list (string * Z))
  : bool :=
  match progress_of name uploadProgress with
  | Some progress => Z.ltb progress 100
  | None => false
  end.

End TaskInputFiles.

(** ** [ResultsPanel] *)

Module ResultsPanel.

(** Which of its three cards the panel renders, with the values the
    card shows. *)
Inductive Card : Type :=
| NoResultsYet
| TaskFailed (details : Json)
| TaskCompleted (summary insights recommendations agentsInvolved
                 filesProcessed timestamp : Json).

(** [result?.k] *)
Definition opt_get (k : string) (result : Json) : Json :=
  match get k result with
  | Some v => v
  | None => JUndef
  end.

(** [a || b] *)
Definition js_or (a b : Json) : Json := if truthy a then a else b.

Definition view (showResults : bool) (result : Json) : Card :=
  if negb showResults then NoResultsYet
  else if strict_eq_str (opt_get "status" result) "error"
          || truthy (opt_get "error" result) then
    TaskFailed (js_or (opt_get "error" result)
                      (js_or (opt_get "message" result)
                             (JStr "Unknown error occurred")))
  else
    TaskCompleted
      (js_or (opt_get "summary" result)
             (JStr "The AI has completed processing your task."))
      (js_or (opt_get "insights" result) (JArr []))
      (js_or (opt_get "recommendations" result) (JArr []))
      (js_or (opt_get "agents_involved" result) (JNum 0))
      (js_or (opt_get "files_processed" result) (JNum 0))
      (opt_get "timestamp" result).

End ResultsPanel.

(** The panel as the page renders it:
    [<ResultsPanel showResults={showResults} result={result} />]. *)
Definition results_card (w : World) : ResultsPanel.Card :=
  ResultsPanel.view (showResults w) (result w).

(** ** The other loaders of the file: statistics and workflows

    [StatsOverview] is rendered by the dashboard; [WorkflowsPage] follows
    it in [src/app/dashboard/page.tsx].  Each handler is run with its
    awaits settled by the responses it is given and returns the new
    state with the actions it performed, in order. *)

(** What [fetch] yields: a rejection, or a response with its status and
    the value of [response.json()] ([None] when that throws). *)
Inductive Response : Type :=
| FetchRejected
| Responded (status : Z) (body : option Json).

(** [response.ok] *)
Definition ok (status : Z) : bool :=
  (Z.leb 200 status && Z.leb status 299)%bool.

Inductive Action : Type :=
| AFetch (method path : string) (body : Json)
| ANavigate (path : string)
| AAlert (message : string)
| AConfirm (message : string).

Module StatsOverview.

Record State : Type := mkState {
  stats : Json;
  loading : bool
}.

Definition initial : State :=
  {| stats := JObj [("total_tasks", JNum 0); ("completed_tasks", JNum 0);
                    ("active_workflows", JNum 0); ("total_documents", JNum 0);
                    ("success_rate", JNum 0)];
     loading := true |}.

(** The [try] and [catch] of [fetchStats]. *)
Definition fetchStats_try (token : option string) (resp : Response)
    (s : State) : State * list Action :=
  if negb (truthy_opt token) then (s, [])
  else
    let req := AFetch "GET" "/api/stats" JUndef in
    match resp with
    | FetchRejected => (s, [req])
    | Responded status body =>
        if negb (ok status) then
          if Z.eqb status 401 then (s, [req]) else (s, [req])
        else
          match body with
          | None => (s, [req])
          | Some data => ({| stats := data; loading := loading s |}, [req])
          end
    end.

(** [fetchStats], with its [finally]. *)
Definition fetchStats (token : option string) (resp : Response) (s : State)
  : State * list Action :=
  let (s', acts) := fetchStats_try token resp s in
  ({| stats := stats s'; loading := false |}, acts).

End StatsOverview.

Module WorkflowsPage.

Record State : Type := mkState {
  workflows : Json;
  loading : bool
}.

Definition initial : State := {| workflows := JArr []; loading := true |}.

(** The collaborators: the stored token, the answer to [confirm] and the
    responses of the three endpoints. *)
Record Env : Type := mkEnv {
  token : option string;
  confirms : string -> bool;
  list_response : Response;
  patch_response : string -> Json -> Response;
  delete_response : string -> Response
}.

Definition list_request : Action := AFetch "GET" "/api/workflows" JUndef.

(** The [try] and [catch] of [fetchWorkflows]. *)
Definition fetchWorkflows_try (env : Env) (s : State) : State * list Action :=
  let s := {| workflows := workflows s; loading := true |} in
  if negb (truthy_opt (token env)) then (s, [ANavigate "/login"])
  else
    match list_response env with
    | FetchRejected => (s, [list_request])
    | Responded status body =>
        if Z.eqb status 401 then (s, [list_request; ANavigate "/login"])
        else if negb (ok status) then (s, [list_request])
        else
          match body with
          | None => (s, [list_request])
          | Some data =>
              if truthy (ResultsPanel.opt_get "workflows" data) then
                ({| workflows := ResultsPanel.opt_get "workflows" data;
                    loading := loading s |}, [list_request])
              else (s, [list_request])
          end
    end.

(** [fetchWorkflows], with its [finally]. *)
Definition fetchWorkflows (env : Env) (s : State) : State * list Action :=
  let (s', acts) := fetchWorkflows_try env s in
  ({| workflows := workflows s'; loading := false |}, acts).

Definition toggle_request (workflowId : string) (currentStatus : Json)
  : Action :=
  AFetch "PATCH" ("/api/workflows/" ++ workflowId)
         (JObj [("is_active", JBool (negb (truthy currentStatus)))]).

Definition handleToggleActive (env : Env) (workflowId : string)
    (currentStatus : Json) (s : State) : State * list Action :=
  if negb (truthy_opt (token env)) then (s, [ANavigate "/login"])
  else
    let req := toggle_request workflowId currentStatus in
    match patch_response env workflowId
            (JBool (negb (truthy currentStatus))) with
    | FetchRejected => (s, [req])
    | Responded status _ =>
        if Z.eqb status 401 then (s, [req; ANavigate "/login"])
        else if ok status then
          let (s', acts) := fetchWorkflows env s in (s', req :: acts)
        else (s, [req])
    end.

(** The double quote character. *)
Definition dquote : string := String (ascii_of_nat 34) EmptyString.

Definition delete_prompt (workflowName : string) : string :=
  "Are you sure you want to delete " ++ dquote ++ workflowName
    ++ dquote ++ "?".

Definition delete_request (workflowId : string) : Action :=
  AFetch "DELETE" ("/api/workflows/" ++ workflowId) JUndef.

Definition handleDelete (env : Env) (workflowId workflowName : string)
    (s : State) : State * list Action :=
  let ask := AConfirm (delete_prompt workflowName) in
  if negb (confirms env (delete_prompt workflowName)) then (s, [ask])
  else if negb (truthy_opt (token env)) then (s, [ask; ANavigate "/login"])
  else
    let req := delete_request workflowId in
    let failed := AAlert "Failed to delete workflow" in
    match delete_response env workflowId with
    | FetchRejected => (s, [ask; req; failed])
    | Responded status _ =>
        if Z.eqb status 401 then (s, [ask; req; ANavigate "/login"])
        else if negb (ok status) then (s, [ask; req; failed])
        else
          let (s', acts) := fetchWorkflows env s in (s', ask :: req :: acts)
    end.

End WorkflowsPage.

(** * Properties *)

(** ** Basic facts about the primitives *)

Lemma filtered_out_same (t : string) :
  filtered_out (Some t) (JStr t) = false.
Proof.
  unfold filtered_out; simpl. rewrite String.eqb_refl.
  now rewrite andb_false_r.
Qed.

Lemma filtered_out_falsy_id (c : option string) (task_id : Json) :
  truthy task_id = false -> filtered_out c task_id = false.
Proof.
  intros H. destruct c as [t|]; simpl; [|reflexivity].
  rewrite H. now rewrite andb_false_r.
Qed.


(** [stop_poll] touches the poll handle and the timer table only. *)
Lemma stop_poll_fields (w : World) :
  isRunning (stop_poll w) = isRunning w /\
  showResults (stop_poll w) = showResults w /\
  result (stop_poll w) = result w /\
  agentLogs (stop_poll w) = agentLogs w /\
  taskIdRef (stop_poll w) = taskIdRef w /\
  trace (stop_poll w) = trace w /\
  pollIntervalRef (stop_poll w) = None.
Proof.
  unfold stop_poll. destruct (pollIntervalRef w) eqn:E; simpl; auto 10.
Qed.

(** [setupWebSocket] writes the socket table and the socket handle only. *)
Lemma setupWebSocket_frame (uid : string) (w : World) :
  exists ss r, setupWebSocket uid w = set_wsRef r (set_sockets ss w).
Proof.
  assert (Hid : exists ss r, w = set_wsRef r (set_sockets ss w))
    by (exists (sockets w), (wsRef w); destruct w; reflexivity).
  unfold setupWebSocket, newWebSocket.
  destruct (invalid_uid uid); [exact Hid|].
  destruct (ws_is_open w); [exact Hid|].
  destruct (has_fragment uid).
  - destruct (wsRef w) as [ws|]; [|exact Hid].
    unfold socket_close.
    destruct (socket_state ws w) as [[]|]; eexists _, _;
      try reflexivity; destruct w; reflexivity.
  - destruct (wsRef w) as [ws|]; [|eexists _, _; reflexivity].
    unfold socket_close.
    destruct (socket_state ws w) as [[]|]; eexists _, _; reflexivity.
Qed.

(** A message of an object always has a [task_id] to read. *)
Lemma get_type_task_id (msg type : Json) :
  get "type" msg = Some type -> exists task_id, get "task_id" msg = Some task_id.
Proof. destruct msg; simpl; try discriminate; eauto. Qed.

(** What [ws.onmessage] does with the three kinds of frame once the
    filter lets them through. *)
Lemma onmessage_agent_log (w : World) (msg task_id log : Json) :
  get "type" msg = Some (JStr "agent_log") ->
  get "task_id" msg = Some task_id ->
  filtered_out (taskIdRef w) task_id = false ->
  get "log" msg = Some log -> get "agent" log <> None ->
  ws_onmessage (FJson msg) w = setAgentLogs (agentLogs w ++ [log]) w.
Proof.
  intros Hty Hid Hf Hlog Hag. unfold ws_onmessage, onmessage_try.
  rewrite Hty, Hid, Hf. simpl. unfold on_agent_log. rewrite Hlog.
  destruct (get "agent" log); [reflexivity | contradiction].
Qed.

Lemma onmessage_task_completed (w : World) (msg task_id res : Json) :
  get "type" msg = Some (JStr "task_completed") ->
  get "task_id" msg = Some task_id ->
  filtered_out (taskIdRef w) task_id = false ->
  get "result" msg = Some res ->
  ws_onmessage (FJson msg) w =
  stop_poll (set_taskIdRef None
               (setIsRunning false (setShowResults true (setResult res w)))).
Proof.
  intros Hty Hid Hf Hres. unfold ws_onmessage, onmessage_try.
  rewrite Hty, Hid, Hf. simpl. unfold on_task_completed. rewrite Hres.
  reflexivity.
Qed.

Lemma onmessage_task_error (w : World) (msg task_id err : Json) :
  get "type" msg = Some (JStr "task_error") ->
  get "task_id" msg = Some task_id ->
  filtered_out (taskIdRef w) task_id = false ->
  get "error" msg = Some err ->
  to_string_throws err = false ->
  ws_onmessage (FJson msg) w =
  stop_poll (set_taskIdRef None
               (setIsRunning false
                  (setShowResults true (setResult (errorResult err) w)))).
Proof.
  intros Hty Hid Hf Herr Hth. unfold ws_onmessage, onmessage_try.
  rewrite Hty, Hid, Hf. simpl. unfold on_task_error. rewrite Herr, Hth.
  reflexivity.
Qed.

(** A [task_error] whose error does not convert to text is dropped: the
    exception is caught before any state is set. *)
Lemma onmessage_task_error_throws (w : World) (msg err : Json) :
  get "type" msg = Some (JStr "task_error") ->
  get "error" msg = Some err ->
  to_string_throws err = true ->
  ws_onmessage (FJson msg) w = w.
Proof.
  intros Hty Herr Hth. unfold ws_onmessage, onmessage_try.
  rewrite Hty. destruct (get "task_id" msg) as [task_id|]; [|reflexivity].
  destruct (filtered_out (taskIdRef w) task_id); [reflexivity|].
  simpl. unfold on_task_error. now rewrite Herr, Hth.
Qed.

(** ** The identity filter (C2, C10) *)

Section Filter.

(** C2, as stated, fails: with no task bound ([taskIdRef.current] is
    [null], so the notification's [task_id] "t0" differs from it) the
    notification is not discarded; it is appended to the event log. *)
Lemma C2_counterexample :
  let w := initial (Some "tok") in
  taskIdRef w = None /\
  get "task_id" (Scenario.agent_log "t0") = Some (JStr "t0") /\
  agentLogs w = [] /\
  agentLogs (ws_onmessage (FJson (Scenario.agent_log "t0")) w) = [Scenario.log1] /\
  ws_onmessage (FJson (Scenario.agent_log "t0")) w <> w.
Proof.
  vm_compute. repeat split. intros H. discriminate H.
Qed.

(** C2 (amended): when a task is bound ([taskIdRef.current] is a non-empty
    string [t]) and the notification carries a truthy [task_id] that is
    not strictly equal to [t], the handler leaves the whole world (event
    log, result, flags, [taskId], timers, ...) as it is, on every socket. *)
Theorem C2_mismatch_discarded (w : World) (msg : Json) (t : string)
    (task_id : Json) :
  taskIdRef w = Some t ->
  truthy_str t = true ->
  get "task_id" msg = Some task_id ->
  truthy task_id = true ->
  strict_eq_str task_id t = false ->
  ws_onmessage (FJson msg) w = w /\
  forall ws, step w (EvMessage ws (FJson msg)) = w.
Proof.
  intros Hc Ht Hid Htr Hne.
  assert (E : ws_onmessage (FJson msg) w = w).
  { unfold ws_onmessage, onmessage_try.
    destruct (get "type" msg) as [type|]; [|reflexivity].
    rewrite Hid. unfold filtered_out. rewrite Hc, Ht, Htr, Hne. reflexivity. }
  split; [exact E|].
  intros ws. unfold step.
  destruct (socket_state ws w) as [[]|]; try reflexivity; exact E.
Qed.

Lemma C2_mismatch_discarded_witness :
  let w := set_taskIdRef (Some "t1") (initial (Some "tok")) in
  ws_onmessage (FJson (Scenario.agent_log "t0")) w = w /\
  forall ws, step w (EvMessage ws (FJson (Scenario.agent_log "t0"))) = w.
Proof.
  cbv zeta.
  apply (C2_mismatch_discarded _ (Scenario.agent_log "t0") "t1" (JStr "t0")); reflexivity.
Defined.

(** C10: with no task bound, or with a notification that has no
    [task_id], the filter lets every frame through, whatever task the
    frame belongs to: an [agent_log] is appended to the event log; a
    [task_completed] sets the result it carries, shows the results and
    clears the running flag; a [task_error] does the same with the error
    object built from the error it carries, whose summary is the text
    "Error: " followed by that error as text.  Both leave no task bound
    and no poll handle held.  A [task_error] whose error does not convert
    to text changes nothing. *)
Theorem C10_filter_bypassed (w : World) (msg : Json) :
  taskIdRef w = None \/ get "task_id" msg = Some JUndef ->
  let w' := ws_onmessage (FJson msg) w in
  (forall log,
      get "type" msg = Some (JStr "agent_log") ->
      get "log" msg = Some log -> get "agent" log <> None ->
      agentLogs w' = agentLogs w ++ [log]) /\
  (forall res,
      get "type" msg = Some (JStr "task_completed") ->
      get "result" msg = Some res ->
      result w' = res /\ showResults w' = true /\ isRunning w' = false /\
      agentLogs w' = agentLogs w /\
      taskIdRef w' = None /\ pollIntervalRef w' = None) /\
  (forall err,
      get "type" msg = Some (JStr "task_error") ->
      get "error" msg = Some err ->
      to_string_throws err = true -> w' = w) /\
  (forall err,
      get "type" msg = Some (JStr "task_error") ->
      get "error" msg = Some err ->
      to_string_throws err = false ->
      result w' = JObj [("error", err);
                        ("status", JStr "error");
                        ("summary", JStr ("Error: " ++ to_js_string err));
                        ("insights", JArr [JStr "An error occurred"]);
                        ("recommendations", JArr [JStr "Please try again"])] /\
      (forall s, err = JStr s ->
                 get "summary" (result w') = Some (JStr ("Error: " ++ s))) /\
      showResults w' = true /\ isRunning w' = false /\
      agentLogs w' = agentLogs w /\
      taskIdRef w' = None /\ pollIntervalRef w' = None).
Proof.
  intros Hby w'.
  assert (Hf : forall task_id, get "task_id" msg = Some task_id ->
                               filtered_out (taskIdRef w) task_id = false).
  { intros task_id Hid. destruct Hby as [Hn | Hu].
    - rewrite Hn. reflexivity.
    - rewrite Hu in Hid. injection Hid as <-.
      now apply filtered_out_falsy_id. }
  subst w'. split; [|split; [|split]].
  - intros log Hty Hlog Hag.
    destruct (get_type_task_id _ _ Hty) as [task_id Hid].
    rewrite (onmessage_agent_log w msg task_id log); auto.
  - intros res Hty Hres.
    destruct (get_type_task_id _ _ Hty) as [task_id Hid].
    rewrite (onmessage_task_completed w msg task_id res); auto.
    destruct (stop_poll_fields
                (set_taskIdRef None
                   (setIsRunning false (setShowResults true (setResult res w)))))
      as (-> & -> & -> & -> & -> & _ & ->).
    repeat split.
  - intros err Hty Herr Hth.
    now apply (onmessage_task_error_throws w msg err).
  - intros err Hty Herr Hth.
    destruct (get_type_task_id _ _ Hty) as [task_id Hid].
    rewrite (onmessage_task_error w msg task_id err); auto.
    destruct (stop_poll_fields
                (set_taskIdRef None
                   (setIsRunning false
                      (setShowResults true (setResult (errorResult err) w)))))
      as (-> & -> & -> & -> & -> & _ & ->).
    repeat split. intros s ->. reflexivity.
Qed.

(** C10 while no task is bound: a progress notification for "t0" is
    logged, and a failure notification without [task_id] whose error is
    the number 10^21 is shown with that number as JavaScript prints it. *)
Lemma C10_filter_bypassed_witness :
  agentLogs (ws_onmessage (FJson (Scenario.agent_log "t0")) (initial (Some "tok")))
  = [Scenario.log1] /\
  get "summary"
      (result (ws_onmessage
                 (FJson (JObj [("type", JStr "task_error");
                               ("error", JNum (10 ^ 21))]))
                 Scenario.awaiting))
  = Some (JStr "Error: 1e+21").
Proof.
  split.
  - apply (proj1 (C10_filter_bypassed (initial (Some "tok"))
                    (Scenario.agent_log "t0") (or_introl eq_refl))
                 Scenario.log1); [reflexivity | reflexivity | discriminate].
  - destruct (proj2 (proj2 (proj2 (C10_filter_bypassed Scenario.awaiting
                              (JObj [("type", JStr "task_error");
                                     ("error", JNum (10 ^ 21))])
                              (or_intror eq_refl))))
                    (JNum (10 ^ 21)) eq_refl eq_refl eq_refl) as (-> & _).
    vm_compute. reflexivity.
Defined.

End Filter.

(** ** Submission (C5, C7) *)

Section Submission.

Variable net : Net.

Lemma uploads_of_no_create (files : list File) (i : nat) :
  forallb (fun e => negb (is_create e)) (uploads_of i files) = true.
Proof.
  revert i. induction files as [|f r IH]; intros i; simpl; auto.
Qed.

Lemma report_progress_shape (name : string) (ps : list Z) (w : World) :
  exists prog, report_progress name ps w = setUploadProgress prog w.
Proof.
  unfold report_progress. revert w.
  induction ps as [|p ps IH]; intros w; simpl.
  - exists (uploadProgress w). destruct w; reflexivity.
  - destruct (IH (setUploadProgress (assoc_set name p (uploadProgress w)) w))
      as [prog ->].
    exists prog. destruct w; reflexivity.
Qed.

(** The loop stops at the first upload that fails: the files before it
    were requested in order, the failing one is named in the alert and
    nothing else has changed but the progress map. *)
Lemma uploadFiles_fail (files : list File) :
  forall i uploaded w k file ps,
    nth_error files k = Some file ->
    upload net (i + k) file = UploadFailed ps ->
    (forall j f, j < k -> nth_error files j = Some f ->
                 exists ps' name, upload net (i + j) f = Uploaded ps' name) ->
    exists prog,
      uploadFiles net i files uploaded w =
      (setIsRunning false
         (setUploadProgress prog
            (set_trace (trace w ++ uploads_of i (firstn (S k) files)
                          ++ [EAlert ("Failed to upload " ++ f_name file)]) w)),
       None).
Proof.
  induction files as [|f rest IH]; intros i uploaded w k file ps Hk Hfail Hok.
  - destruct k; discriminate Hk.
  - destruct k as [|k].
    + injection Hk as ->. rewrite Nat.add_0_r in Hfail.
      cbn [uploadFiles]. rewrite Hfail.
      destruct (report_progress_shape (f_name file) ps (emit (EUpload i file) w))
        as [prog ->].
      exists prog. destruct w; unfold emit; cbn. rewrite <- app_assoc.
      reflexivity.
    + destruct (Hok 0 f (Nat.lt_0_succ k) eq_refl) as (ps' & name & Hup).
      rewrite Nat.add_0_r in Hup.
      cbn [uploadFiles]. rewrite Hup.
      destruct (report_progress_shape (f_name f) ps' (emit (EUpload i f) w))
        as [prog1 ->].
      destruct (IH (S i) (uploaded ++ [name])
                   (setUploadProgress prog1 (emit (EUpload i f) w)) k file ps)
        as [prog ->].
      * exact Hk.
      * now rewrite Nat.add_succ_comm.
      * intros j f' Hj Hn.
        destruct (Hok (S j) f' (proj1 (Nat.succ_lt_mono j k) Hj) Hn)
          as (ps2 & name2 & H2).
        exists ps2, name2. now rewrite Nat.add_succ_comm.
      * exists prog. destruct w; unfold emit; cbn.
        rewrite <- app_assoc. reflexivity.
Qed.

(** When every upload succeeds the loop requests all the files in order
    and returns one name per file. *)
Lemma uploadFiles_ok (files : list File) :
  forall i uploaded w,
    (forall j f, nth_error files j = Some f ->
                 exists ps name, upload net (i + j) f = Uploaded ps name) ->
    exists prog names,
      List.length names = List.length files /\
      uploadFiles net i files uploaded w =
      (setUploadProgress prog (set_trace (trace w ++ uploads_of i files) w),
       Some (uploaded ++ names)).
Proof.
  induction files as [|f rest IH]; intros i uploaded w Hok.
  - exists (uploadProgress w), []. split; [reflexivity|].
    cbn. rewrite !app_nil_r. destruct w; reflexivity.
  - destruct (Hok 0 f eq_refl) as (ps & name & Hup).
    rewrite Nat.add_0_r in Hup. cbn [uploadFiles]. rewrite Hup.
    destruct (report_progress_shape (f_name f) ps (emit (EUpload i f) w))
      as [prog1 ->].
    destruct (IH (S i) (uploaded ++ [name])
                 (setUploadProgress prog1 (emit (EUpload i f) w)))
      as (prog & names & Hlen & ->).
    { intros j f' Hn. destruct (Hok (S j) f' Hn) as (ps2 & name2 & H2).
      exists ps2, name2. now rewrite Nat.add_succ_comm. }
    exists prog, (name :: names). split; [cbn; now rewrite Hlen|].
    destruct w; unfold emit; cbn. rewrite <- !app_assoc. reflexivity.
Qed.

Lemma setupWebSocket_trace (uid : string) (w : World) :
  trace (setupWebSocket uid w) = trace w.
Proof.
  destruct (setupWebSocket_frame uid w) as (ss & r & ->). reflexivity.
Qed.

(** The handler after the uploads: reconnect if the render saw the socket
    down, then the creation request and what follows from its outcome. *)
Lemma create_phase_trace (r : Render) (taskText : string)
    (uploadedFiles : list string) (w : World) :
  let w1 :=
    match r_userId r with
    | Some uid =>
        if negb (r_wsConnected r) && truthy_str uid
        then setupWebSocket uid w else w
    | None => w
    end in
  let w2 := emit (ECreateTask taskText uploadedFiles "medium") w1 in
  let w3 :=
    match createTask net taskText uploadedFiles with
    | Created newTaskId =>
        start_polling r newTaskId (set_taskIdRef (Some newTaskId) w2)
    | CreateNotOk detail =>
        start_failed (creation_error detail) w2
    | CreateThrows message => start_failed message w2
    end in
  exists rest,
    trace w3 = trace w ++ ECreateTask taskText uploadedFiles "medium" :: rest /\
    forall newTaskId,
      createTask net taskText uploadedFiles = Created newTaskId ->
      rest = [] /\ taskIdRef w3 = Some newTaskId /\ isRunning w3 = isRunning w.
Proof.
  intros w1 w2 w3.
  assert (E1 : trace w1 = trace w /\ isRunning w1 = isRunning w).
  { subst w1. destruct (r_userId r) as [uid|]; [|auto].
    destruct (negb (r_wsConnected r) && truthy_str uid); [|auto].
    split; [apply setupWebSocket_trace|].
    destruct (setupWebSocket_frame uid w) as (ss & r0 & ->). reflexivity. }
  destruct E1 as [E1 E1'].
  subst w3. destruct (createTask net taskText uploadedFiles) as [id|detail|m].
  - exists []. split.
    + subst w2. cbn. now rewrite E1.
    + intros id' [= <-]. subst w2. cbn. auto.
  - eexists. split; [|discriminate].
    unfold start_failed.
    destruct (stop_poll_fields
      (setAgentLogs [] (setIsRunning false
         (emit (EAlert (if truthy_str (creation_error detail)
                        then (creation_error detail)
                        else "Failed to start task")) w2))))
      as (_ & _ & _ & _ & _ & -> & _).
    subst w2. cbn. rewrite E1, <- app_assoc. reflexivity.
  - eexists. split; [|discriminate].
    unfold start_failed.
    destruct (stop_poll_fields
      (setAgentLogs [] (setIsRunning false
         (emit (EAlert (if truthy_str m then m else "Failed to start task")) w2))))
      as (_ & _ & _ & _ & _ & -> & _).
    subst w2. cbn. rewrite E1, <- app_assoc. reflexivity.
Qed.

(** C5: the files are requested one after another in list order; when the
    upload of the file at position [k] fails, the run ends there: no
    creation request is made, the running flag is cleared and with it the
    session is back to idle (no task bound, no result shown, no timer
    added), and the alert names the failing file.  With no file at all the
    handler goes on to the creation request, and so it does, with one
    name per file, when every upload succeeds. *)
Theorem C5_upload_failure_aborts (r : Render) (taskText : string)
    (files : list File) (w : World) :
  trim_is_empty taskText = false ->
  truthy_opt (token w) = true ->
  let w' := handleStartTaskWithFiles r net taskText files w in
  (forall k file ps,
      nth_error files k = Some file ->
      upload net k file = UploadFailed ps ->
      (forall j f, j < k -> nth_error files j = Some f ->
                   exists ps' name, upload net j f = Uploaded ps' name) ->
      let added := uploads_of 0 (firstn (S k) files)
                   ++ [EAlert ("Failed to upload " ++ f_name file)] in
      trace w' = trace w ++ added /\
      forallb (fun e => negb (is_create e)) added = true /\
      isRunning w' = false /\ showResults w' = false /\ result w' = JNull /\
      taskIdRef w' = None /\ timers w' = timers w /\
      pollIntervalRef w' = pollIntervalRef w) /\
  ((forall j f, nth_error files j = Some f ->
                exists ps name, upload net j f = Uploaded ps name) ->
   exists names rest,
     List.length names = List.length files /\
     trace w' = trace w ++ uploads_of 0 files
                  ++ ECreateTask taskText names "medium" :: rest /\
     forall newTaskId,
       createTask net taskText names = Created newTaskId ->
       rest = [] /\ taskIdRef w' = Some newTaskId /\ isRunning w' = true) /\
  (files = [] ->
   exists rest, trace w' = trace w ++ ECreateTask taskText [] "medium" :: rest).
Proof.
  intros Htext Htok w'.
  set (w0 := set_taskIdRef None
               (setUploadProgress []
                  (setAgentLogs []
                     (setResult JNull
                        (setShowResults false (setIsRunning true w)))))).
  assert (Hw' : w' = match uploadFiles net 0 files [] w0 with
                     | (w1, None) => w1
                     | (w1, Some uploadedFiles) =>
                         let w1 := setUploadProgress [] w1 in
                         let w2 :=
                           match r_userId r with
                           | Some uid =>
                               if negb (r_wsConnected r) && truthy_str uid
                               then setupWebSocket uid w1 else w1
                           | None => w1
                           end in
                         let w3 := emit (ECreateTask taskText uploadedFiles "medium") w2 in
                         match createTask net taskText uploadedFiles with
                         | Created newTaskId =>
                             start_polling r newTaskId
                               (set_taskIdRef (Some newTaskId) w3)
                         | CreateNotOk detail =>
                             start_failed (creation_error detail) w3
                         | CreateThrows message => start_failed message w3
                         end
                     end).
  { subst w'. unfold handleStartTaskWithFiles. rewrite Htext.
    change (token (set_taskIdRef None _)) with (token w). rewrite Htok.
    reflexivity. }
  assert (Hall : (forall j f, nth_error files j = Some f ->
                    exists ps name, upload net j f = Uploaded ps name) ->
    exists names rest,
     List.length names = List.length files /\
     trace w' = trace w ++ uploads_of 0 files
                  ++ ECreateTask taskText names "medium" :: rest /\
     forall newTaskId,
       createTask net taskText names = Created newTaskId ->
       rest = [] /\ taskIdRef w' = Some newTaskId /\ isRunning w' = true).
  { intros Hok.
    destruct (uploadFiles_ok files 0 [] w0 Hok) as (prog & names & Hlen & E).
    rewrite E in Hw'. cbn [app] in Hw'.
    destruct (create_phase_trace r taskText names
                (setUploadProgress []
                   (setUploadProgress prog
                      (set_trace (trace w0 ++ uploads_of 0 files) w0))))
      as (rest & Htr & Hcr).
    cbv zeta in Htr, Hcr. cbv zeta in Hw'. rewrite <- Hw' in Htr, Hcr.
    exists names, rest. split; [exact Hlen|]. split.
    - rewrite Htr. cbn. now rewrite <- app_assoc.
    - intros id Hid. destruct (Hcr id Hid) as (-> & -> & ->). auto. }
  split; [|split].
  - intros k file ps Hk Hfail Hok added.
    destruct (uploadFiles_fail files 0 [] w0 k file ps Hk Hfail Hok) as [prog E].
    rewrite E in Hw'. rewrite Hw'. subst added.
    split; [reflexivity|]. split; [|repeat split].
    rewrite forallb_app, uploads_of_no_create. reflexivity.
  - exact Hall.
  - intros ->. destruct Hall as (names & rest & Hlen & Htr & _).
    { intros [|j] f; discriminate. }
    destruct names; [|discriminate Hlen]. exists rest. exact Htr.
Qed.

End Submission.

(** C5 at three files with the second upload failing. *)
Lemma C5_upload_failure_aborts_witness :
  let w' := handleStartTaskWithFiles (render Scenario.connected)
              Scenario.net_second_fails "analyse" Scenario.files3
              Scenario.connected in
  trace w' = [EUpload 0 (mkFile "a.csv" 10); EUpload 1 (mkFile "b.csv" 20);
              EAlert "Failed to upload b.csv"] /\
  isRunning w' = false.
Proof.
  destruct (C5_upload_failure_aborts Scenario.net_second_fails
              (render Scenario.connected) "analyse" Scenario.files3
              Scenario.connected eq_refl eq_refl) as (Hfail & _ & _).
  destruct (Hfail 1 (mkFile "b.csv" 20) [40%Z] eq_refl eq_refl)
    as (Htr & _ & Hrun & _).
  - intros [|j] f Hj Hn; [|lia].
    injection Hn as <-. eexists _, _. reflexivity.
  - split; [exact Htr | exact Hrun].
Defined.

(** C7, as stated, fails: the handler has no busy check.  Invoked while
    the first task "t1" is running, it raises no error: it drops the
    event log, rebinds the session to the new task "t2" and issues a
    second creation request. *)
Lemma C7_counterexample :
  let w := step Scenario.awaiting (EvMessage 0 (FJson (Scenario.agent_log "t1"))) in
  let w' := handleStartTaskWithFiles (render w) (Scenario.net_ok "t2")
              "second task" [] w in
  isRunning w = true /\ taskIdRef w = Some "t1" /\
  agentLogs w = [Scenario.log1] /\
  trace w' = trace w ++ [ECreateTask "second task" [] "medium"] /\
  taskIdRef w' = Some "t2" /\ agentLogs w' = [] /\ w' <> w.
Proof.
  vm_compute. repeat split. intros H. discriminate H.
Qed.

(** C7 (amended): the busy check is the start control.  While the session
    runs the button is disabled: a click dispatches nothing, raises no
    error and leaves the world as it is; so does a click with a blank
    description.  When nothing runs and the description is not blank the
    click is the submission.  The handler has no busy check of its own:
    what it does with a description that is not blank is the same whether
    or not a session is running, in the state or in the render it closes
    over. *)
Theorem C7_start_control_gate (net : Net) (task : string)
    (files : list File) (w : World) :
  (isRunning w = true -> click_start net task files w = w) /\
  (trim_is_empty task = true -> click_start net task files w = w) /\
  (isRunning w = false -> trim_is_empty task = false ->
   click_start net task files w =
   handleStartTaskWithFiles (render w) net task files w) /\
  (trim_is_empty task = false ->
   forall (r : Render) (running : bool),
     handleStartTaskWithFiles r net task files (setIsRunning running w)
     = handleStartTaskWithFiles r net task files w /\
     handleStartTaskWithFiles
       (mkRender running (r_showResults r) (r_agentLogs r)
                 (r_wsConnected r) (r_userId r))
       net task files w
     = handleStartTaskWithFiles r net task files w).
Proof.
  split; [|split; [|split]].
  - unfold click_start, TaskInput.click, TaskInput.disabled.
    intros ->. now rewrite orb_true_r.
  - unfold click_start, TaskInput.click, TaskInput.disabled.
    now intros ->.
  - unfold click_start, TaskInput.click, TaskInput.disabled,
      TaskInput.handleStart.
    intros -> ->. reflexivity.
  - intros Hb r running. unfold handleStartTaskWithFiles. rewrite Hb.
    split; reflexivity.
Qed.

(** C7 on the page awaiting "t1" (a click does nothing), on the idle
    page (the click submits "first task"), and on the idle page with a
    description of one no-break space (the button is disabled). *)
Lemma C7_start_control_gate_witness :
  click_start (Scenario.net_ok "t2") "second task" [] Scenario.awaiting
  = Scenario.awaiting /\
  click_start (Scenario.net_ok "t1") "first task" [] Scenario.connected
  = Scenario.awaiting /\
  click_start (Scenario.net_ok "t1") Scenario.nbsp [] Scenario.connected
  = Scenario.connected.
Proof.
  split; [|split].
  - apply (proj1 (C7_start_control_gate (Scenario.net_ok "t2") "second task" []
                    Scenario.awaiting)).
    reflexivity.
  - rewrite (proj1 (proj2 (proj2
               (C7_start_control_gate (Scenario.net_ok "t1") "first task" []
                  Scenario.connected))) eq_refl eq_refl).
    vm_compute. reflexivity.
  - apply (proj1 (proj2 (C7_start_control_gate (Scenario.net_ok "t1")
                           Scenario.nbsp [] Scenario.connected))).
    reflexivity.
Defined.

(** ** Starting the poll cycle (C8) *)

(** [start_polling] adds its interval to whatever is pending. *)
Lemma start_polling_poll_timers (r : Render) (newTaskId : string) (w : World) :
  poll_timers (start_polling r newTaskId w) =
  poll_timers w ++
  [mkTimer (nextTimerId w) 3000 true
     (CbPoll (List.length (pollCounts w)) newTaskId
             (r_showResults r) (r_agentLogs r))].
Proof.
  unfold start_polling, poll_timers. cbn. now rewrite filter_app.
Qed.

(** C8 on the code: the handler run a second time while the first task's
    poll cycle is active.  The first interval (handle 2) is not cancelled:
    two poll timers are pending, the handle of the first is lost, and the
    first still ticks and sends its request for "t1". *)
Theorem C8_second_start_keeps_first_timer :
  let w := Scenario.awaiting in
  let w' := handleStartTaskWithFiles (render w) (Scenario.net_ok "t2")
              "second task" [] w in
  pollIntervalRef w = Some 2 /\ map t_id (poll_timers w) = [2] /\
  map t_id (poll_timers w') = [2; 3] /\ pollIntervalRef w' = Some 3 /\
  trace (step w' (EvTimer 2)) = trace w' ++ [EGetTask "t1"].
Proof. vm_compute. repeat split. Qed.

(** ** The check at the head of the tick (C9) *)

(** The test of the tick reads the closure, not the world. *)
Lemma poll_tick_reads_closure (cycle : nat) (newTaskId : string) (w : World) :
  trace (poll_tick cycle newTaskId false [] w) = trace w ++ [EGetTask newTaskId] /\
  (forall logs, trace (poll_tick cycle newTaskId true logs w) = trace w) /\
  (forall b l logs, trace (poll_tick cycle newTaskId b (l :: logs) w) = trace w).
Proof.
  unfold poll_tick. split; [reflexivity|]. split.
  - intros logs. cbn [orb].
    now destruct (stop_poll_fields
                    (set_pollCounts (update_nth cycle S (pollCounts w)) w))
      as (_ & _ & _ & _ & _ & -> & _).
  - intros b l logs. cbn [List.length Nat.ltb Nat.leb]. rewrite orb_true_r.
    now destruct (stop_poll_fields
                    (set_pollCounts (update_nth cycle S (pollCounts w)) w))
      as (_ & _ & _ & _ & _ & -> & _).
Qed.

(** C9 on the code: a second task submitted from the page that shows the
    first result.  At its first tick the session is running and nothing
    is resolved, yet the tick cancels the cycle without a request: the
    closure still holds [showResults = true] of the render it came from. *)
Theorem C9_tick_uses_stale_render :
  let w := Scenario.second_submission in
  let w' := step w (EvTimer 3) in
  isRunning w = true /\ showResults w = false /\ result w = JNull /\
  taskIdRef w = Some "t2" /\ pollIntervalRef w = Some 3 /\
  map t_cb (poll_timers w) = [CbPoll 1 "t2" true []] /\
  trace w' = trace w /\ poll_timers w' = [] /\ pollIntervalRef w' = None /\
  isRunning w' = true.
Proof. vm_compute. repeat split. Qed.

(** ** Teardown (C4) *)

(** C4 on the code: cleanup while connected, then the close event of the
    socket it closed.  No reconnect handle was held, so the close handler
    schedules a reconnect; when it fires a new socket is opened. *)
Theorem C4_close_after_cleanup_reconnects :
  let w := Scenario.closed_after_cleanup in
  let w' := step w (EvTimer 2) in
  reconnectTimeoutRef (cleanup Scenario.connected) = None /\
  timers (cleanup Scenario.connected) = [] /\
  reconnect_timers w = [mkTimer 2 3000 false (CbReconnect "u1")] /\
  sockets w = [mkSocket "u1" CLOSED] /\
  sockets w' = [mkSocket "u1" CLOSED; mkSocket "u1" CONNECTING] /\
  wsRef w' = Some 1.
Proof. vm_compute. repeat split. Qed.

(** ** Timers that are not pending do not fire *)

Lemma find_none_of_existsb {A : Type} (p : A -> bool) (l : list A) :
  existsb p l = false -> find p l = None.
Proof.
  induction l as [|x l IH]; simpl; [reflexivity|].
  destruct (p x); [discriminate | exact IH].
Qed.

Lemma existsb_of_find {A : Type} (p : A -> bool) (l : list A) (x : A) :
  find p l = Some x -> existsb p l = true.
Proof.
  induction l as [|y l IH]; simpl; [discriminate|].
  destruct (p y); [reflexivity | exact IH].
Qed.

Lemma fire_not_pending (id : nat) (w : World) :
  pending id w = false -> fire id w = w.
Proof.
  unfold pending, fire. intros H.
  now rewrite (find_none_of_existsb _ _ H).
Qed.

Lemma pending_clearTimer (id : nat) (w : World) :
  pending id (clearTimer id w) = false.
Proof.
  unfold pending, clearTimer. cbn.
  induction (timers w) as [|t l IH]; simpl; [reflexivity|].
  destruct (Nat.eqb (t_id t) id) eqn:E; simpl; [exact IH|].
  now rewrite E.
Qed.

(** After [stop_poll] the timer whose handle was held is gone. *)
Lemma stop_poll_cancels (w : World) (id : nat) :
  pollIntervalRef w = Some id ->
  stop_poll w = set_pollIntervalRef None (clearTimer id w) /\
  pending id (stop_poll w) = false.
Proof.
  intros H. unfold stop_poll. rewrite H. split; [reflexivity|].
  apply pending_clearTimer.
Qed.

Lemma stop_poll_idle (w : World) :
  pollIntervalRef w = None -> stop_poll w = w.
Proof. intros H. unfold stop_poll. now rewrite H. Qed.

(** ** The race between push and poll (C1) *)

(** C1, as stated, fails: the first poll tick finds the task failed and
    applies the failure; the push notification of the same failure of
    "t1" arrives afterwards, passes the filter (no task is bound any
    more) and replaces the result that was shown. *)
Lemma C1_counterexample :
  let w := Scenario.failed_by_poll in
  let w' := step w (EvMessage 0 (FJson (Scenario.task_error "t1"))) in
  taskIdRef Scenario.awaiting = Some "t1" /\
  resolved w /\ result w = failedResult /\
  result w' = errorResult (JStr "boom") /\
  get "summary" (result w) = Some (JStr "Task failed") /\
  get "summary" (result w') = Some (JStr "Error: boom") /\
  result w' <> result w.
Proof.
  unfold resolved. vm_compute. repeat split. intros H. discriminate H.
Qed.

(** C1 (amended): a terminal signal leaves the session resolved (results
    shown, not running, no task bound, no poll handle) whichever channel
    applies it, and a push signal for the bound task cancels the poll
    timer, which never fires again.  (A push failure counts when its
    error converts to text; otherwise the handler throws before it sets
    anything and the frame is dropped.)  A later terminal signal on a
    resolved session is applied again.  A push completion replaces the
    result by the result it carries, a push failure by the error object
    built from the error it carries; a poll response below the attempt
    budget replaces it by the result it reports (or, for a failure
    without one, by the default failure object), and a poll completion
    also appends its log entry.  Nothing else changes, so the flags, the
    cleared task and the cancelled timer stay as they are. *)
Theorem C1_later_terminal_signal :
  (forall w msg t,
      taskIdRef w = Some t ->
      get "task_id" msg = Some (JStr t) ->
      get "type" msg = Some (JStr "task_completed") \/
      (get "type" msg = Some (JStr "task_error") /\
       exists err, get "error" msg = Some err /\
                   to_string_throws err = false) ->
      let w' := ws_onmessage (FJson msg) w in
      resolved w' /\
      forall id, pollIntervalRef w = Some id ->
                 pending id w' = false /\ step w' (EvTimer id) = w') /\
  (forall w taskData task status res now,
      get "task" taskData = Some task ->
      get "status" task = Some status ->
      get "result" task = Some res ->
      terminal_status status res ->
      exists w', poll_try (PollOk taskData) now w = Some w' /\
                 resolved w' /\
                 forall id, pollIntervalRef w = Some id -> pending id w' = false) /\
  (forall w msg,
      resolved w ->
      (get "type" msg = Some (JStr "task_completed") ->
       exists res,
         get "result" msg = Some res /\
         ws_onmessage (FJson msg) w = setResult res w) /\
      (get "type" msg = Some (JStr "task_error") ->
       exists err,
         get "error" msg = Some err /\
         (to_string_throws err = false ->
          ws_onmessage (FJson msg) w =
          setResult
            (JObj [("error", err);
                   ("status", JStr "error");
                   ("summary", JStr ("Error: " ++ to_js_string err));
                   ("insights", JArr [JStr "An error occurred"]);
                   ("recommendations", JArr [JStr "Please try again"])]) w) /\
         (to_string_throws err = true -> ws_onmessage (FJson msg) w = w))) /\
  (forall w cycle resp now,
      resolved w ->
      let w' := poll_resume cycle resp now w in
      resolved w' /\
      (exists r logs, w' = setAgentLogs logs (setResult r w)) /\
      (pollCount cycle w < maxPolls ->
       forall taskData task status res,
         resp = PollOk taskData ->
         get "task" taskData = Some task ->
         get "status" task = Some status ->
         get "result" task = Some res ->
         (status = JStr "completed" -> truthy res = true ->
          w' = setAgentLogs
                 (agentLogs w
                  ++ [JObj [("agent", JStr "System");
                            ("action", JStr "completed");
                            ("message",
                             JStr "Task completed (fallback retrieval)");
                            ("timestamp", JStr now)]])
                 (setResult res w)) /\
         (status = JStr "error" ->
          w' = setResult
                 (if truthy res then res
                  else JObj [("error", JStr "Task failed");
                             ("status", JStr "error");
                             ("summary", JStr "Task failed");
                             ("insights", JArr [JStr "Error occurred"]);
                             ("recommendations", JArr [JStr "Try again"])])
                 w))).
Proof.
  split; [|split; [|split]].
  - intros w msg t Ht Hid Hty w'.
    assert (Hf : filtered_out (taskIdRef w) (JStr t) = false)
      by (rewrite Ht; apply filtered_out_same).
    assert (E : exists r,
               w' = stop_poll (set_taskIdRef None
                      (setIsRunning false (setShowResults true (setResult r w))))).
    { subst w'. destruct Hty as [Hty | (Hty & err & Herr & Hth)].
      - destruct msg; try discriminate Hid. eexists.
        exact (onmessage_task_completed w _ (JStr t) _ Hty Hid Hf eq_refl).
      - eexists.
        exact (onmessage_task_error w _ (JStr t) err Hty Hid Hf Herr Hth). }
    destruct E as [r E]. rewrite E. clear E. split.
    + unfold resolved.
      destruct (stop_poll_fields
                  (set_taskIdRef None
                     (setIsRunning false (setShowResults true (setResult r w)))))
        as (-> & -> & _ & _ & -> & _ & ->).
      repeat split.
    + intros id Hp.
      destruct (stop_poll_cancels
                  (set_taskIdRef None
                     (setIsRunning false (setShowResults true (setResult r w))))
                  id Hp) as [_ Hpend].
      split; [exact Hpend|]. now apply fire_not_pending.
  - intros w taskData task status res now Htask Hst Hres Hterm.
    unfold poll_try. rewrite Htask, Hst, Hres.
    destruct Hterm as [[-> Htr] | ->].
    + rewrite Htr. cbn [strict_eq_str String.eqb Ascii.eqb Bool.eqb andb].
      eexists. split; [reflexivity|]. split.
      * unfold resolved. cbn.
        destruct (stop_poll_fields w) as (_ & _ & _ & _ & _ & _ & ->).
        repeat split.
      * intros id Hp. destruct (stop_poll_cancels w id Hp) as [-> Hpend].
        exact (pending_clearTimer id w).
    + replace (strict_eq_str (JStr "error") "completed" && truthy res)
        with false by reflexivity.
      cbn [strict_eq_str String.eqb Ascii.eqb Bool.eqb andb].
      eexists. split; [reflexivity|]. split.
      * unfold resolved. cbn.
        destruct (stop_poll_fields w) as (_ & _ & _ & _ & _ & _ & ->).
        repeat split.
      * intros id Hp. destruct (stop_poll_cancels w id Hp) as [-> Hpend].
        exact (pending_clearTimer id w).
  - intros w msg (Hs & Hr & Ht & Hp).
    assert (Hf : forall task_id, filtered_out (taskIdRef w) task_id = false)
      by (intros; now rewrite Ht).
    assert (Hfix : forall r,
               stop_poll (set_taskIdRef None
                 (setIsRunning false (setShowResults true (setResult r w))))
               = setResult r w).
    { intros r. rewrite stop_poll_idle by exact Hp.
      destruct w; cbn in *; subst; reflexivity. }
    split; intros Hty;
      destruct (get_type_task_id _ _ Hty) as [task_id Hid];
      destruct msg; try discriminate Hty;
      eexists; (split; [reflexivity|]).
    + rewrite (onmessage_task_completed w _ task_id _ Hty Hid (Hf _) eq_refl).
      apply Hfix.
    + split; intros Hth.
      * rewrite (onmessage_task_error w _ task_id _ Hty Hid (Hf _) eq_refl Hth).
        exact (Hfix (errorResult _)).
      * exact (onmessage_task_error_throws w _ _ Hty eq_refl Hth).
  - intros w cycle resp now (Hs & Hr & Ht & Hp) w'.
    assert (Hshape : forall w1 : World,
               (exists r logs, w1 = setAgentLogs logs (setResult r w)) ->
               resolved w1 /\ exists r logs, w1 = setAgentLogs logs (setResult r w)).
    { intros w1 (r & logs & ->). split; [|eauto].
      unfold resolved; cbn; auto. }
    assert (Hid : exists r logs, w = setAgentLogs logs (setResult r w)).
    { exists (result w), (agentLogs w). destruct w; reflexivity. }
    assert (Hold : resolved w' /\
                   exists r logs, w' = setAgentLogs logs (setResult r w)).
    { apply Hshape. subst w'. unfold poll_resume.
      assert (Htry : exists r logs,
                 match poll_try resp now w with Some w1 => w1 | None => w end
                 = setAgentLogs logs (setResult r w)).
      { unfold poll_try. destruct resp as [| |taskData]; try exact Hid.
        destruct (get "task" taskData) as [task|]; [|exact Hid].
        destruct (get "status" task) as [status|]; [|exact Hid].
        destruct (get "result" task) as [res|]; [|exact Hid].
        rewrite (stop_poll_idle w Hp).
        destruct (strict_eq_str status "completed" && truthy res).
        - exists res, (agentLogs w ++ [systemLog now]).
          clear Hshape Hid. destruct w; cbn in *; subst; reflexivity.
        - destruct (strict_eq_str status "error"); [|exact Hid].
          clear Hshape Hid.
          exists (if truthy res then res else failedResult), (agentLogs w).
          destruct w; cbn in *; subst; reflexivity. }
      destruct Htry as (r & logs & ->).
      destruct (maxPolls <=? pollCount cycle _)%nat; [|eauto].
      rewrite stop_poll_idle by exact Hp.
      exists timeoutResult, logs. clear Hshape Hid.
      destruct w; cbn in *; subst; reflexivity. }
    split; [apply Hold|]. split; [apply Hold|].
    intros Hlt taskData task status res -> Htask Hst Hres.
    assert (Hbelow : forall w1 : World,
               pollCounts w1 = pollCounts w ->
               (maxPolls <=? pollCount cycle w1)%nat = false).
    { intros w1 E. unfold pollCount in *. rewrite E.
      now apply Nat.leb_gt. }
    clear Hshape Hid Hold. subst w'. unfold poll_resume, poll_try.
    rewrite Htask, Hst, Hres, (stop_poll_idle w Hp).
    split.
    + intros -> Htr. rewrite Htr.
      cbn [strict_eq_str String.eqb Ascii.eqb Bool.eqb andb].
      rewrite Hbelow by reflexivity.
      destruct w; cbn in *; subst; reflexivity.
    + intros ->.
      replace (strict_eq_str (JStr "error") "completed" && truthy res)
        with false by reflexivity.
      cbn [strict_eq_str String.eqb Ascii.eqb Bool.eqb andb].
      rewrite Hbelow by reflexivity.
      destruct w; cbn in *; subst; reflexivity.
Qed.

Lemma C1_later_terminal_signal_witness :
  (let w := ws_onmessage (FJson (Scenario.task_completed "t1")) Scenario.awaiting in
   resolved w /\ pending 2 w = false /\ step w (EvTimer 2) = w) /\
  result (ws_onmessage (FJson (Scenario.task_error "t1")) Scenario.failed_by_poll)
  = errorResult (JStr "boom").
Proof.
  destruct C1_later_terminal_signal as (Hpush & _ & Hlate & _).
  split.
  - destruct (Hpush Scenario.awaiting (Scenario.task_completed "t1") "t1"
                eq_refl eq_refl (or_introl eq_refl)) as (Hres & Hcancel).
    destruct (Hcancel 2 eq_refl) as (Hpend & Hfire).
    exact (conj Hres (conj Hpend Hfire)).
  - destruct (Hlate Scenario.failed_by_poll (Scenario.task_error "t1"))
      as [_ Herr].
    { unfold resolved. vm_compute. repeat split. }
    destruct (Herr eq_refl) as (err & Hget & E & _).
    injection Hget as <-. rewrite (E eq_refl). reflexivity.
Defined.

(** ** The attempt budget (C6) *)

Section Timeout.

Lemma update_nth_length {A : Type} (f : A -> A) (l : list A) (n : nat) :
  List.length (update_nth n f l) = List.length l.
Proof.
  revert n. induction l as [|x l IH]; intros [|n]; simpl; auto.
Qed.

Lemma nth_update_nth (f : nat -> nat) (l : list nat) (n : nat) :
  n < List.length l -> nth n (update_nth n f l) 0 = f (nth n l 0).
Proof.
  revert n. induction l as [|x l IH]; intros [|n] H; simpl in *.
  - lia.
  - lia.
  - reflexivity.
  - apply IH. lia.
Qed.

Lemma iter_update_length (k n : nat) (l : list nat) :
  List.length (Nat.iter k (update_nth n S) l) = List.length l.
Proof.
  induction k as [|k IH]; simpl; [reflexivity|].
  now rewrite update_nth_length.
Qed.

Lemma nth_iter_update (k n : nat) (l : list nat) :
  n < List.length l ->
  nth n (Nat.iter k (update_nth n S) l) 0 = k + nth n l 0.
Proof.
  intros H. induction k as [|k IH]; simpl; [reflexivity|].
  rewrite nth_update_nth by (now rewrite iter_update_length).
  now rewrite IH.
Qed.

Variables (w : World) (id cycle : nat) (newTaskId : string) (tm : Timer).

Hypothesis Hfind : find (fun t => Nat.eqb (t_id t) id) (timers w) = Some tm.
Hypothesis Hrepeat : t_repeat tm = true.
Hypothesis Hcb : t_cb tm = CbPoll cycle newTaskId false [].
Hypothesis Href : pollIntervalRef w = Some id.
Hypothesis Hcycle : cycle < List.length (pollCounts w).
Hypothesis Hzero : pollCount cycle w = 0.

Lemma pollCount_ticked (k : nat) :
  pollCount cycle (ticked w cycle newTaskId k) = k.
Proof.
  unfold pollCount, ticked. cbn.
  rewrite nth_iter_update by exact Hcycle.
  unfold pollCount in Hzero. rewrite Hzero. apply Nat.add_0_r.
Qed.

Lemma tick_fires (k : nat) :
  step (ticked w cycle newTaskId k) (EvTimer id) =
  emit (EGetTask newTaskId)
       (set_pollCounts
          (update_nth cycle S (pollCounts (ticked w cycle newTaskId k)))
          (ticked w cycle newTaskId k)).
Proof.
  unfold step, fire.
  change (timers (ticked w cycle newTaskId k)) with (timers w).
  rewrite Hfind, Hrepeat, Hcb. reflexivity.
Qed.

Lemma tick_is_ticked (k : nat) :
  step (ticked w cycle newTaskId k) (EvTimer id)
  = ticked w cycle newTaskId (S k).
Proof.
  rewrite tick_fires. unfold ticked, emit. cbn.
  rewrite <- app_assoc, <- repeat_cons. reflexivity.
Qed.

(** A round below the budget leaves nothing behind but the request and
    the counter. *)
Lemma round_below (k : nat) (rn : PollResponse * string) :
  unresolved (fst rn) -> S k < maxPolls ->
  tick_round id cycle (ticked w cycle newTaskId k) rn
  = ticked w cycle newTaskId (S k).
Proof.
  intros Hun Hk. unfold tick_round. rewrite tick_is_ticked.
  unfold step, poll_resume.
  assert (E : match poll_try (fst rn) (snd rn)
                      (ticked w cycle newTaskId (S k)) with
              | Some w' => w'
              | None => ticked w cycle newTaskId (S k)
              end = ticked w cycle newTaskId (S k)).
  { destruct (Hun (snd rn) (ticked w cycle newTaskId (S k))) as [-> | ->];
      reflexivity. }
  rewrite E, pollCount_ticked.
  destruct (Nat.leb_spec maxPolls (S k)); [lia | reflexivity].
Qed.

(** The round that exhausts the budget applies the timeout. *)
Lemma round_last (rn : PollResponse * string) :
  unresolved (fst rn) ->
  tick_round id cycle (ticked w cycle newTaskId (pred maxPolls)) rn =
  setIsRunning false
    (setShowResults true
       (setResult timeoutResult
          (set_pollIntervalRef None
             (clearTimer id (ticked w cycle newTaskId maxPolls))))).
Proof.
  intros Hun. unfold tick_round. rewrite tick_is_ticked.
  change (S (pred maxPolls)) with maxPolls.
  unfold step, poll_resume.
  assert (E : match poll_try (fst rn) (snd rn)
                      (ticked w cycle newTaskId maxPolls) with
              | Some w' => w'
              | None => ticked w cycle newTaskId maxPolls
              end = ticked w cycle newTaskId maxPolls).
  { destruct (Hun (snd rn) (ticked w cycle newTaskId maxPolls)) as [-> | ->];
      reflexivity. }
  rewrite E, pollCount_ticked, Nat.leb_refl.
  unfold stop_poll.
  change (pollIntervalRef (ticked w cycle newTaskId maxPolls))
    with (pollIntervalRef w).
  now rewrite Href.
Qed.

Lemma rounds_below (rns : list (PollResponse * string)) :
  Forall (fun rn => unresolved (fst rn)) rns ->
  List.length rns < maxPolls ->
  fold_left (tick_round id cycle) rns w
  = ticked w cycle newTaskId (List.length rns).
Proof.
  induction rns as [|rn rns IH] using rev_ind; intros Hall Hlen.
  - unfold ticked. cbn. rewrite app_nil_r. destruct w; reflexivity.
  - rewrite length_app in *. cbn [List.length] in *.
    apply Forall_app in Hall. destruct Hall as [Hall Hrn].
    rewrite fold_left_app. cbn [fold_left].
    rewrite IH by (auto; lia).
    rewrite Nat.add_1_r. apply round_below; [|lia].
    now inversion Hrn.
Qed.

Lemma rounds_all (rns : list (PollResponse * string)) :
  Forall (fun rn => unresolved (fst rn)) rns ->
  List.length rns = maxPolls ->
  fold_left (tick_round id cycle) rns w =
  setIsRunning false
    (setShowResults true
       (setResult timeoutResult
          (set_pollIntervalRef None
             (clearTimer id (ticked w cycle newTaskId maxPolls))))).
Proof.
  intros Hall Hlen.
  destruct rns as [|rn rns _] using rev_ind; [discriminate Hlen|].
  rewrite length_app in Hlen. cbn [List.length] in Hlen.
  apply Forall_app in Hall. destruct Hall as [Hall Hrn].
  rewrite fold_left_app. cbn [fold_left].
  rewrite rounds_below by (auto; lia).
  replace (List.length rns) with (pred maxPolls) by lia.
  apply round_last. now inversion Hrn.
Qed.

End Timeout.

(** A tick whose closure saw results or logs cancels the cycle whose
    handle is held; so an interval that survives its first tick has a
    closure that saw neither. *)
Lemma surviving_tick_closure (w : World) (id cycle : nat) (newTaskId : string)
    (b : bool) (logs : list Json) (tm : Timer) :
  find (fun t => Nat.eqb (t_id t) id) (timers w) = Some tm ->
  t_repeat tm = true ->
  t_cb tm = CbPoll cycle newTaskId b logs ->
  pollIntervalRef w = Some id ->
  pending id (step w (EvTimer id)) = true ->
  b = false /\ logs = [].
Proof.
  intros Hfind Hrepeat Hcb Href Hsurv.
  unfold step, fire in Hsurv. rewrite Hfind, Hrepeat, Hcb in Hsurv.
  cbn [run_callback] in Hsurv. unfold poll_tick in Hsurv.
  destruct (b || (0 <? List.length logs)%nat) eqn:E.
  - destruct (stop_poll_cancels
                (set_pollCounts (update_nth cycle S (pollCounts w)) w) id Href)
      as [_ Hp].
    rewrite Hp in Hsurv. discriminate Hsurv.
  - apply orb_false_elim in E. destruct E as [-> E].
    split; [reflexivity|]. destruct logs; [reflexivity | discriminate E].
Qed.

(** The attempt budget on the page state.  A poll cycle is an interval
    of 3000 ms whose counter starts at 0.  For the cycle whose handle is
    held in [pollIntervalRef], if the interval goes on ticking (it
    survives its first tick), every response arrives before the next
    tick and the ticks settle nothing, then the flags and the result are
    left alone while fewer than 30 ticks have run, and the 30th applies
    the timeout: the interval is cancelled and never fires again, and
    the timeout object is set as the result to show, the task staying
    bound. *)
Lemma poll_cycle_times_out (w : World) (id cycle : nat)
    (newTaskId : string) (b : bool) (logs : list Json) (tm : Timer)
    (rns : list (PollResponse * string)) :
  find (fun t => Nat.eqb (t_id t) id) (timers w) = Some tm ->
  t_repeat tm = true ->
  t_cb tm = CbPoll cycle newTaskId b logs ->
  pollIntervalRef w = Some id ->
  cycle < List.length (pollCounts w) ->
  pollCount cycle w = 0 ->
  pending id (step w (EvTimer id)) = true ->
  Forall (fun rn => unresolved (fst rn)) rns ->
  (forall r t w0,
      let w1 := start_polling r t w0 in
      timers w1 = timers w0 ++
                  [mkTimer (nextTimerId w0) 3000 true
                     (CbPoll (List.length (pollCounts w0)) t
                             (r_showResults r) (r_agentLogs r))] /\
      pollIntervalRef w1 = Some (nextTimerId w0) /\
      pollCount (List.length (pollCounts w0)) w1 = 0) /\
  (List.length rns < maxPolls ->
   let w' := fold_left (tick_round id cycle) rns w in
   isRunning w' = isRunning w /\ showResults w' = showResults w /\
   result w' = result w /\ pollIntervalRef w' = Some id /\
   pending id w' = true /\
   trace w' = trace w ++ repeat (EGetTask newTaskId) (List.length rns)) /\
  (List.length rns = maxPolls ->
   let w' := fold_left (tick_round id cycle) rns w in
   result w' = timeoutResult /\ showResults w' = true /\
   isRunning w' = false /\ pollIntervalRef w' = None /\
   pending id w' = false /\ step w' (EvTimer id) = w' /\
   trace w' = trace w ++ repeat (EGetTask newTaskId) maxPolls /\
   taskIdRef w' = taskIdRef w).
Proof.
  intros Hfind Hrepeat Hcb Href Hcycle Hzero Hsurv Hall.
  destruct (surviving_tick_closure w id cycle newTaskId b logs tm
              Hfind Hrepeat Hcb Href Hsurv) as [-> ->].
  split; [|split].
  - intros r t w0 w1. subst w1. unfold start_polling, pollCount. cbn.
    repeat split. now rewrite nth_middle.
  - intros Hlen w'. subst w'.
    rewrite (rounds_below w id cycle newTaskId tm) by assumption.
    unfold ticked, pending. cbn.
    rewrite (existsb_of_find _ _ _ Hfind). auto 10.
  - intros Hlen w'. subst w'.
    rewrite (rounds_all w id cycle newTaskId tm) by assumption.
    assert (Hp : pending id
                   (setIsRunning false
                      (setShowResults true
                         (setResult timeoutResult
                            (set_pollIntervalRef None
                               (clearTimer id (ticked w cycle newTaskId maxPolls))))))
                 = false)
      by exact (pending_clearTimer id (ticked w cycle newTaskId maxPolls)).
    repeat split; try exact Hp.
    now apply fire_not_pending.
Qed.

(** C6: the timeout is applied, but it is not surfaced as the claim says.
    The first task "t1" is polled thirty times and every response says
    the task is still running.  The thirtieth cancels the poll timer and
    sets the object that carries the guidance (the task may still be
    processing, check the History page later).  That object has the
    status [error] and no [error] or [message], so [ResultsPanel] renders
    the card "Task Failed" with the details "Unknown error occurred": the
    guidance is never shown, and the card is the one a failure without an
    error text gets. *)
Theorem C6_timeout_shown_as_failure :
  let rns := repeat (Scenario.status "running", "2024-01-01T00:01:30Z") 30 in
  let w := fold_left (tick_round 2 0) rns Scenario.awaiting in
  let failed :=
    run Scenario.awaiting
        [EvTimer 2;
         EvPollResponse 0
           (PollOk (JObj [("task", JObj [("status", JStr "error");
                                         ("result", JObj [("status", JStr "error")])])]))
           "2024-01-01T00:00:03Z"] in
  trace w = trace Scenario.awaiting ++ repeat (EGetTask "t1") 30 /\
  pending 2 w = false /\ isRunning w = false /\ showResults w = true /\
  result w = JObj [("status", JStr "error");
                   ("summary", JStr "Task taking longer than expected");
                   ("insights", JArr [JStr "May still be processing"]);
                   ("recommendations", JArr [JStr "Check History page later"])] /\
  results_card w = ResultsPanel.TaskFailed (JStr "Unknown error occurred") /\
  results_card failed = results_card w.
Proof.
  vm_compute. repeat split.
Qed.

(** ** Reconnection (C3) *)

Lemma nth_error_update_nth {A : Type} (f : A -> A) (l : list A) (n i : nat) :
  nth_error (update_nth n f l) i =
  if Nat.eqb i n then option_map f (nth_error l i) else nth_error l i.
Proof.
  revert n i. induction l as [|x l IH]; intros [|n] [|i]; cbn; auto.
  now destruct (Nat.eqb i n).
Qed.

(** What [setupWebSocket] does once it has accepted the identity and
    found no open socket: the socket it holds, if still connecting, is
    put to closing and every other socket is left alone; then the new
    socket is appended and held, or, when the constructor throws, no
    socket is held. *)
Lemma setupWebSocket_connects (uid : string) (w : World) :
  invalid_uid uid = false -> ws_is_open w = false ->
  let w' := setupWebSocket uid w in
  (forall i s,
      nth_error (sockets w) i = Some s ->
      exists s',
        nth_error (sockets w') i = Some s' /\ s_uid s' = s_uid s /\
        (readyState s' = readyState s \/
         (wsRef w = Some i /\ readyState s = CONNECTING /\
          readyState s' = CLOSING))) /\
  (has_fragment uid = false ->
   List.length (sockets w') = S (List.length (sockets w)) /\
   nth_error (sockets w') (List.length (sockets w))
   = Some (mkSocket uid CONNECTING) /\
   wsRef w' = Some (List.length (sockets w))) /\
  (has_fragment uid = true ->
   List.length (sockets w') = List.length (sockets w) /\ wsRef w' = None).
Proof.
  intros Hv Hopen w'. subst w'. unfold setupWebSocket. rewrite Hv, Hopen.
  set (w1 := match wsRef w with
             | Some ws => set_wsRef None (socket_close ws w)
             | None => w
             end).
  assert (Hnone : wsRef w1 = None)
    by (subst w1; destruct (wsRef w) eqn:E; [reflexivity | exact E]).
  assert (H1 : List.length (sockets w1) = List.length (sockets w) /\
               forall i s,
                 nth_error (sockets w) i = Some s ->
                 exists s',
                   nth_error (sockets w1) i = Some s' /\ s_uid s' = s_uid s /\
                   (readyState s' = readyState s \/
                    (wsRef w = Some i /\ readyState s = CONNECTING /\
                     readyState s' = CLOSING))).
  { clear Hnone. subst w1. unfold ws_is_open in Hopen.
    destruct (wsRef w) as [ws|]; [|repeat split; eauto].
    unfold socket_close, socket_state in *.
    destruct (nth_error (sockets w) ws) as [s0|] eqn:E0; cbn in *;
      [|repeat split; eauto].
    destruct (readyState s0) eqn:R0; try discriminate Hopen;
      cbn; try (repeat split; eauto; fail).
    rewrite update_nth_length. repeat split; auto.
    intros i s Hi. rewrite nth_error_update_nth, Hi.
    destruct (Nat.eqb_spec i ws) as [->|]; cbn; eauto.
    rewrite E0 in Hi. injection Hi as <-.
    eexists. split; [reflexivity|]. split; [reflexivity|]. right. auto. }
  destruct H1 as (Hlen & Hs). unfold newWebSocket.
  destruct (has_fragment uid).
  - split; [exact Hs|]. split; [discriminate|]. auto.
  - cbn. rewrite length_app, Hlen. cbn. rewrite Nat.add_1_r.
    split; [|split; [|discriminate]].
    + intros i s Hi. destruct (Hs i s Hi) as (s' & Hs' & Hrest).
      exists s'. split; [|exact Hrest].
      rewrite nth_error_app1; [exact Hs'|].
      apply nth_error_Some. congruence.
    + intros _. split; [reflexivity|]. split; [|reflexivity].
      rewrite nth_error_app2 by lia. now rewrite Hlen, Nat.sub_diag.
Qed.

Section Reconnect.

Variable u : string.

(** *** Steps that leave the reconnect machinery alone *)

Lemma quiet_refl (w : World) : quiet w w.
Proof. unfold quiet. repeat split; auto. Qed.

Lemma quiet_trans (w1 w2 w3 : World) :
  quiet w1 w2 -> quiet w2 w3 -> quiet w1 w3.
Proof.
  intros (A1 & B1 & C1 & D1 & E1 & F1) (A2 & B2 & C2 & D2 & E2 & F2).
  unfold quiet. repeat split; try congruence; auto; lia.
Qed.

Lemma quiet_same (w w' : World) :
  reconnectTimeoutRef w' = reconnectTimeoutRef w ->
  userId w' = userId w ->
  sockets w' = sockets w ->
  nextTimerId w' = nextTimerId w ->
  timers w' = timers w ->
  quiet w w'.
Proof.
  intros A B C D E. unfold quiet, reconnect_timers. rewrite E, D.
  repeat split; auto.
Qed.

Lemma filter_length_le' {A : Type} (p : A -> bool) (l : list A) :
  List.length (filter p l) <= List.length l.
Proof.
  induction l as [|x l IH]; simpl; [lia|].
  destruct (p x); simpl; lia.
Qed.

Lemma filter_comm {A : Type} (p q : A -> bool) (l : list A) :
  filter p (filter q l) = filter q (filter p l).
Proof.
  induction l as [|x l IH]; simpl; [reflexivity|].
  destruct (p x) eqn:P, (q x) eqn:Q; simpl; rewrite ?P, ?Q, IH; reflexivity.
Qed.

Lemma reconnect_timers_clearTimer (id : nat) (w : World) :
  reconnect_timers (clearTimer id w) =
  filter (fun t => negb (Nat.eqb (t_id t) id)) (reconnect_timers w).
Proof. unfold reconnect_timers, clearTimer. cbn. apply filter_comm. Qed.

Lemma quiet_clearTimer (id : nat) (w : World) : quiet w (clearTimer id w).
Proof.
  unfold quiet. rewrite reconnect_timers_clearTimer.
  repeat split; auto.
  - intros t Ht. apply filter_In in Ht. tauto.
  - apply filter_length_le'.
Qed.

Lemma quiet_clear_ref (r : option nat) (w : World) :
  quiet w match r with Some id => clearTimer id w | None => w end.
Proof. destruct r; [apply quiet_clearTimer | apply quiet_refl]. Qed.

Lemma quiet_stop_poll (w : World) : quiet w (stop_poll w).
Proof.
  unfold stop_poll. destruct (pollIntervalRef w) as [id|]; [|apply quiet_refl].
  apply (quiet_trans _ (clearTimer id w)); [apply quiet_clearTimer|].
  now apply quiet_same.
Qed.

Lemma quiet_addTimer (delay : Z) (rep : bool) (cb : Callback) (w : World) :
  is_reconnect (mkTimer (nextTimerId w) delay rep cb) = false ->
  quiet w (snd (addTimer delay rep cb w)).
Proof.
  intros H. unfold quiet, reconnect_timers, addTimer. cbn.
  rewrite filter_app. cbn [filter]. rewrite H, app_nil_r.
  repeat split; auto.
Qed.

Lemma quiet_start_polling (r : Render) (t : string) (w : World) :
  quiet w (start_polling r t w).
Proof.
  unfold start_polling.
  apply (quiet_trans _ (set_pollCounts (pollCounts w ++ [0]) w));
    [now apply quiet_same|].
  apply (quiet_trans _ (snd (addTimer 3000 true
           (CbPoll (List.length (pollCounts w)) t (r_showResults r)
                   (r_agentLogs r))
           (set_pollCounts (pollCounts w ++ [0]) w))));
    [now apply quiet_addTimer | now apply quiet_same].
Qed.

Lemma quiet_poll_tick (cycle : nat) (t : string) (b : bool)
    (logs : list Json) (w : World) :
  quiet w (poll_tick cycle t b logs w).
Proof.
  unfold poll_tick.
  apply (quiet_trans _ (set_pollCounts (update_nth cycle S (pollCounts w)) w));
    [now apply quiet_same|].
  destruct (b || _); [apply quiet_stop_poll | now apply quiet_same].
Qed.

Lemma quiet_poll_try (resp : PollResponse) (now : string) (w w' : World) :
  poll_try resp now w = Some w' -> quiet w w'.
Proof.
  unfold poll_try. destruct resp as [| |taskData]; try discriminate.
  - intros [= <-]. apply quiet_refl.
  - destruct (get "task" taskData) as [task|]; [|discriminate].
    destruct (get "status" task) as [status|]; [|discriminate].
    destruct (get "result" task) as [res|]; [|discriminate].
    destruct (strict_eq_str status "completed" && truthy res);
      [|destruct (strict_eq_str status "error")];
      intros [= <-];
      try apply quiet_refl;
      (apply (quiet_trans _ (stop_poll w)); [apply quiet_stop_poll|]);
      now apply quiet_same.
Qed.

Lemma quiet_poll_resume (cycle : nat) (resp : PollResponse) (now : string)
    (w : World) :
  quiet w (poll_resume cycle resp now w).
Proof.
  unfold poll_resume.
  set (w1 := match poll_try resp now w with Some w' => w' | None => w end).
  assert (H1 : quiet w w1).
  { subst w1. destruct (poll_try resp now w) eqn:E; [|apply quiet_refl].
    exact (quiet_poll_try _ _ _ _ E). }
  destruct (maxPolls <=? pollCount cycle w1)%nat; [|exact H1].
  apply (quiet_trans _ w1); [exact H1|].
  apply (quiet_trans _ (stop_poll w1)); [apply quiet_stop_poll|].
  now apply quiet_same.
Qed.

Lemma quiet_ws_onmessage (fr : Frame) (w : World) :
  quiet w (ws_onmessage fr w).
Proof.
  destruct fr as [| |msg]; try apply quiet_refl.
  unfold ws_onmessage, onmessage_try.
  destruct (get "type" msg) as [type|]; [|apply quiet_refl].
  destruct (get "task_id" msg) as [task_id|]; [|apply quiet_refl].
  destruct (filtered_out (taskIdRef w) task_id); [apply quiet_refl|].
  assert (Hterm : forall r w0, quiet w w0 ->
            quiet w (stop_poll (set_taskIdRef None
                       (setIsRunning false (setShowResults true (setResult r w0)))))).
  { intros r w0 H0.
    apply (quiet_trans _ w0); [exact H0|].
    apply (quiet_trans _ (set_taskIdRef None
             (setIsRunning false (setShowResults true (setResult r w0)))));
      [now apply quiet_same | apply quiet_stop_poll]. }
  assert (H1 : forall w1,
            (if strict_eq_str type "agent_log" then on_agent_log msg w
             else Some w) = Some w1 -> quiet w w1).
  { intros w1. destruct (strict_eq_str type "agent_log").
    - unfold on_agent_log. destruct (get "log" msg) as [log|]; [|discriminate].
      destruct (get "agent" log); [|discriminate].
      intros [= <-]. now apply quiet_same.
    - intros [= <-]. apply quiet_refl. }
  destruct (if strict_eq_str type "agent_log" then on_agent_log msg w else Some w)
    as [w1|]; [|apply quiet_refl].
  specialize (H1 w1 eq_refl).
  assert (H2 : forall w2,
            (if strict_eq_str type "task_completed" then on_task_completed msg w1
             else Some w1) = Some w2 -> quiet w w2).
  { intros w2. destruct (strict_eq_str type "task_completed").
    - unfold on_task_completed. destruct (get "result" msg) as [res|];
        [|discriminate].
      intros [= <-]. now apply Hterm.
    - now intros [= <-]. }
  destruct (if strict_eq_str type "task_completed" then on_task_completed msg w1
            else Some w1) as [w2|]; [|apply quiet_refl].
  specialize (H2 w2 eq_refl).
  destruct (strict_eq_str type "task_error"); [|exact H2].
  unfold on_task_error. destruct (get "error" msg) as [err|]; [|apply quiet_refl].
  destruct (to_string_throws err); [apply quiet_refl|].
  now apply Hterm.
Qed.

Lemma quiet_ping_cb (ws : nat) (w : World) : quiet w (ping_cb ws w).
Proof.
  unfold ping_cb. destruct (socket_state ws w) as [[]|];
    try apply quiet_refl; now apply quiet_same.
Qed.

Lemma quiet_uploadFiles (net : Net) (files : list File) :
  forall i uploaded w, quiet w (fst (uploadFiles net i files uploaded w)).
Proof.
  induction files as [|f rest IH]; intros i uploaded w; cbn [uploadFiles].
  - apply quiet_refl.
  - destruct (upload net i f) as [ps name | ps];
      destruct (report_progress_shape (f_name f) ps (emit (EUpload i f) w))
        as [prog ->].
    + apply (quiet_trans _ (setUploadProgress prog (emit (EUpload i f) w)));
        [now apply quiet_same | apply IH].
    + now apply quiet_same.
Qed.

Lemma quiet_start_failed (m : string) (w : World) : quiet w (start_failed m w).
Proof.
  unfold start_failed.
  eapply quiet_trans; [|apply quiet_stop_poll]. now apply quiet_same.
Qed.

(** *** The invariant *)

Lemma inv_quiet (w w' : World) :
  reconnect_inv u w -> quiet w w' -> reconnect_inv u w'.
Proof.
  intros (I1 & I2 & I3 & I4 & I5) (A & B & C & D & E & F).
  assert (H5 : reconnect_timers w' <> [] ->
               invalid_uid u = false /\ has_fragment u = false).
  { intros Hne. apply I5. intros Hw.
    destruct (reconnect_timers w') as [|t l]; [contradiction|].
    specialize (E t (or_introl eq_refl)). now rewrite Hw in E. }
  unfold reconnect_inv. rewrite A, B, C.
  split; [intros t Ht; now apply I1, E|].
  split; [lia|]. auto.
Qed.

(** A change of the sockets that keeps their identities. *)
Lemma inv_sockets (w w' : World) :
  reconnect_inv u w ->
  reconnectTimeoutRef w' = reconnectTimeoutRef w ->
  userId w' = userId w ->
  timers w' = timers w ->
  Forall (fun s => s_uid s = u /\ invalid_uid u = false /\
                   has_fragment u = false) (sockets w') ->
  reconnect_inv u w'.
Proof.
  intros (I1 & I2 & I3 & I4 & I5) A B C D.
  unfold reconnect_inv, reconnect_timers in *. rewrite A, B, C. auto 6.
Qed.

Lemma Forall_update_nth {A : Type} (P : A -> Prop) (f : A -> A) (l : list A)
    (n : nat) :
  (forall x, P x -> P (f x)) -> Forall P l -> Forall P (update_nth n f l).
Proof.
  intros Hf H. revert n. induction H as [|x l Hx Hl IH]; intros [|n]; simpl;
    constructor; auto.
Qed.

Lemma inv_set_readyState (ws : nat) (rs : ReadyState) (w : World) :
  reconnect_inv u w -> reconnect_inv u (set_readyState ws rs w).
Proof.
  intros I. apply (inv_sockets w); auto.
  apply Forall_update_nth; [auto | apply I].
Qed.

Lemma inv_socket_close (ws : nat) (w : World) :
  reconnect_inv u w -> reconnect_inv u (socket_close ws w).
Proof.
  intros I. unfold socket_close.
  destruct (socket_state ws w) as [[]|]; auto using inv_set_readyState.
Qed.

Lemma invalid_uid_truthy (uid : string) :
  invalid_uid uid = false -> truthy_str uid = true.
Proof.
  unfold invalid_uid. destruct (truthy_str uid); [reflexivity | discriminate].
Qed.

Lemma inv_setupWebSocket (w : World) :
  reconnect_inv u w -> reconnect_inv u (setupWebSocket u w).
Proof.
  intros I. unfold setupWebSocket.
  destruct (invalid_uid u) eqn:Hu; [exact I|].
  destruct (ws_is_open w); [exact I|].
  set (w1 := match wsRef w with
             | Some ws => set_wsRef None (socket_close ws w)
             | None => w
             end).
  assert (I1 : reconnect_inv u w1).
  { subst w1. destruct (wsRef w) as [ws|]; [|exact I].
    apply (inv_quiet (socket_close ws w)); [now apply inv_socket_close|].
    now apply quiet_same. }
  unfold newWebSocket. destruct (has_fragment u) eqn:Hf; [exact I1|].
  apply (inv_sockets w1); auto. cbn.
  apply Forall_app. split; [apply I1|].
  constructor; [|constructor]. auto.
Qed.

(** With the handle of the pending reconnect timer held, clearing that
    handle leaves no reconnect timer. *)
Lemma inv_clear_held (w : World) (id : nat) :
  reconnect_inv u w -> reconnectTimeoutRef w = Some id ->
  reconnect_timers (clearTimer id w) = [].
Proof.
  intros (I1 & _) H. rewrite reconnect_timers_clearTimer.
  destruct (filter _ (reconnect_timers w)) as [|t l] eqn:E; [reflexivity|].
  assert (Hin : In t (filter (fun t => negb (Nat.eqb (t_id t) id))
                             (reconnect_timers w)))
    by (rewrite E; now left).
  apply filter_In in Hin. destruct Hin as [Hin Hne].
  destruct (I1 t Hin) as [Href _]. rewrite H in Href. injection Href as ->.
  now rewrite Nat.eqb_refl in Hne.
Qed.

Lemma inv_no_handle (w : World) :
  reconnect_inv u w -> reconnectTimeoutRef w = None -> reconnect_timers w = [].
Proof.
  intros (I1 & _) H. destruct (reconnect_timers w) as [|t l]; [reflexivity|].
  destruct (I1 t (or_introl eq_refl)) as [Href _]. congruence.
Qed.

Lemma inv_empty (w w' : World) :
  reconnect_inv u w ->
  reconnect_timers w' = [] -> sockets w' = sockets w -> userId w' = userId w ->
  reconnect_inv u w'.
Proof.
  intros (_ & _ & I3 & I4 & _) A B C. unfold reconnect_inv.
  rewrite A, B, C. cbn. repeat split; auto; contradiction.
Qed.

Lemma inv_ws_onopen (ws : nat) (w : World) :
  reconnect_inv u w -> reconnect_inv u (ws_onopen ws w).
Proof.
  intros I. unfold ws_onopen.
  set (w1 := match reconnectTimeoutRef (setWsConnected true w) with
             | Some id => set_reconnectTimeoutRef None
                            (clearTimer id (setWsConnected true w))
             | None => setWsConnected true w
             end).
  assert (I1 : reconnect_inv u w1).
  { subst w1. change (reconnectTimeoutRef (setWsConnected true w))
      with (reconnectTimeoutRef w).
    destruct (reconnectTimeoutRef w) as [id|] eqn:E.
    - apply (inv_empty w); auto.
      exact (inv_clear_held (setWsConnected true w) id
               (inv_quiet w _ I (quiet_same w _ eq_refl eq_refl eq_refl
                                   eq_refl eq_refl)) E).
    - apply (inv_quiet w); [exact I | now apply quiet_same]. }
  fold w1.
  set (w2 := match pingIntervalRef w1 with
             | Some id => clearTimer id w1
             | None => w1
             end).
  assert (I2 : reconnect_inv u w2)
    by (apply (inv_quiet w1); [exact I1 | apply quiet_clear_ref]).
  apply (inv_quiet w2); [exact I2|].
  apply (quiet_trans _ (snd (addTimer 30000 true (CbPing ws) w2)));
    [now apply quiet_addTimer | now apply quiet_same].
Qed.

(** What [ws.onclose] does to the timers, by whether a reconnect handle
    is held. *)
Lemma ws_onclose_scheduled (uid : string) (w : World) :
  let w1 := match pingIntervalRef w with
            | Some id => set_pingIntervalRef None (clearTimer id w)
            | None => w
            end in
  match reconnectTimeoutRef w with
  | Some _ =>
      nextTimerId (ws_onclose uid w) = nextTimerId w /\
      timers (ws_onclose uid w) = timers w1 /\
      reconnectTimeoutRef (ws_onclose uid w) = reconnectTimeoutRef w
  | None =>
      truthy_str uid = true ->
      timers (ws_onclose uid w) =
      timers w1 ++ [mkTimer (nextTimerId w) 3000 false (CbReconnect uid)] /\
      reconnectTimeoutRef (ws_onclose uid w) = Some (nextTimerId w)
  end.
Proof.
  unfold ws_onclose. cbn.
  destruct (pingIntervalRef w) as [pid|]; cbn;
    destruct (reconnectTimeoutRef w) as [rid|] eqn:E; cbn;
    try (repeat split; auto; fail);
    intros ->; cbn; split; reflexivity.
Qed.

Lemma inv_ws_onclose (w : World) :
  reconnect_inv u w -> invalid_uid u = false -> has_fragment u = false ->
  reconnect_inv u (ws_onclose u w).
Proof.
  intros I Hv Hfr. pose proof (invalid_uid_truthy u Hv) as Hu.
  unfold ws_onclose.
  set (w0 := setWsConnected false (set_wsRef None w)).
  set (w1 := match pingIntervalRef w0 with
             | Some id => set_pingIntervalRef None (clearTimer id w0)
             | None => w0
             end).
  assert (I1 : reconnect_inv u w1).
  { apply (inv_quiet w); [exact I|]. subst w1 w0.
    apply (quiet_trans _ (setWsConnected false (set_wsRef None w)));
      [now apply quiet_same|].
    destruct (pingIntervalRef _) as [id|]; [|apply quiet_refl].
    eapply quiet_trans; [apply quiet_clearTimer | now apply quiet_same]. }
  destruct (reconnectTimeoutRef w1) eqn:E; [exact I1|].
  rewrite Hu.
  pose proof (inv_no_handle w1 I1 E) as Hnone.
  destruct I1 as (_ & _ & I3 & I4 & _).
  unfold reconnect_inv, reconnect_timers in *. cbn.
  rewrite filter_app, Hnone. cbn.
  split; [|split; [|split; [|split]]]; auto.
  intros x [<- | []]. split; reflexivity.
Qed.

Lemma inv_cleanup (w : World) : reconnect_inv u w -> reconnect_inv u (cleanup w).
Proof.
  intros I. unfold cleanup.
  set (w1 := match reconnectTimeoutRef w with
             | Some id => clearTimer id w | None => w end).
  set (w2 := match pingIntervalRef w1 with
             | Some id => clearTimer id w1 | None => w1 end).
  set (w3 := match pollIntervalRef w2 with
             | Some id => clearTimer id w2 | None => w2 end).
  assert (I3 : reconnect_inv u w3).
  { apply (inv_quiet w); [exact I|].
    apply (quiet_trans _ w1); [apply quiet_clear_ref|].
    apply (quiet_trans _ w2); apply quiet_clear_ref. }
  destruct (wsRef w3) as [ws|]; [|exact I3].
  apply (inv_quiet (socket_close ws w3)); [now apply inv_socket_close|].
  now apply quiet_same.
Qed.

Lemma inv_fire (id : nat) (w : World) :
  reconnect_inv u w -> reconnect_inv u (fire id w).
Proof.
  intros I. unfold fire.
  destruct (find _ (timers w)) as [t|] eqn:E; [|exact I].
  apply find_some in E. destruct E as [Hin Hid]. apply Nat.eqb_eq in Hid.
  set (w1 := if t_repeat t then w else clearTimer id w).
  assert (Q1 : quiet w w1)
    by (subst w1; destruct (t_repeat t);
        [apply quiet_refl | apply quiet_clearTimer]).
  destruct (t_cb t) as [uid | ws | cycle tid b logs] eqn:Ecb; cbn.
  - (* the reconnect closure *)
    assert (Hrt : In t (reconnect_timers w)).
    { apply filter_In. split; [exact Hin|]. unfold is_reconnect.
      now rewrite Ecb. }
    destruct (proj1 I t Hrt) as [Href Ht].
    assert (Hrep : t_repeat t = false) by (rewrite Ht; reflexivity).
    assert (Huid : uid = u) by (rewrite Ht in Ecb; now injection Ecb).
    subst uid w1. rewrite Hrep. unfold reconnect_cb.
    apply inv_setupWebSocket. rewrite Hid in Href.
    apply (inv_empty w); [exact I | | reflexivity | reflexivity].
    exact (inv_clear_held w id I Href).
  - apply (inv_quiet w); [exact I|].
    apply (quiet_trans _ w1); [exact Q1 | apply quiet_ping_cb].
  - apply (inv_quiet w); [exact I|].
    apply (quiet_trans _ w1); [exact Q1 | apply quiet_poll_tick].
Qed.

Lemma inv_fetchUser (o : AuthOutcome) (w : World) :
  (forall u', o = AuthUser u' -> u' = u) ->
  reconnect_inv u w -> reconnect_inv u (fetchUser o w).
Proof.
  intros Hu I. unfold fetchUser.
  destruct (negb (truthy_opt (token w))).
  { apply (inv_quiet w); [exact I | now apply quiet_same]. }
  destruct o as [| |u'];
    try (apply (inv_quiet w); [exact I | now apply quiet_same]).
  rewrite (Hu u' eq_refl).
  destruct (invalid_uid u).
  { apply (inv_quiet w); [exact I | now apply quiet_same]. }
  apply inv_setupWebSocket.
  destruct I as (I1 & I2 & I3 & I4 & I5).
  split; [exact I1|]. split; [exact I2|]. split; [exact I3|].
  split; [now right | exact I5].
Qed.

Lemma inv_handleStartTaskWithFiles (r : Render) (net : Net) (taskText : string)
    (files : list File) (w : World) :
  r_userId r = None \/ r_userId r = Some u ->
  reconnect_inv u w ->
  reconnect_inv u (handleStartTaskWithFiles r net taskText files w).
Proof.
  intros Hr I. unfold handleStartTaskWithFiles.
  destruct (trim_is_empty taskText).
  { apply (inv_quiet w); [exact I | now apply quiet_same]. }
  set (w0 := set_taskIdRef None _).
  assert (I0 : reconnect_inv u w0)
    by (apply (inv_quiet w); [exact I | now apply quiet_same]).
  destruct (negb (truthy_opt (token w0))).
  { apply (inv_quiet w0); [exact I0 | now apply quiet_same]. }
  pose proof (quiet_uploadFiles net files 0 [] w0) as Qu.
  destruct (uploadFiles net 0 files [] w0) as [w1 [uploaded|]]; cbn [fst] in Qu.
  2: { now apply (inv_quiet w0). }
  set (w2 := match r_userId r with
             | Some uid =>
                 if negb (r_wsConnected r) && truthy_str uid
                 then setupWebSocket uid (setUploadProgress [] w1)
                 else setUploadProgress [] w1
             | None => setUploadProgress [] w1
             end).
  assert (I1 : reconnect_inv u (setUploadProgress [] w1)).
  { apply (inv_quiet w0); [exact I0|].
    apply (quiet_trans _ w1); [exact Qu | now apply quiet_same]. }
  assert (I2 : reconnect_inv u w2).
  { subst w2. destruct Hr as [-> | ->]; [exact I1|].
    destruct (negb (r_wsConnected r) && truthy_str u); [|exact I1].
    now apply inv_setupWebSocket. }
  apply (inv_quiet w2); [exact I2|].
  apply (quiet_trans _ (emit (ECreateTask taskText uploaded "medium") w2));
    [now apply quiet_same|].
  destruct (createTask net taskText uploaded) as [tid | detail | m].
  - eapply quiet_trans; [|apply quiet_start_polling]. now apply quiet_same.
  - apply quiet_start_failed.
  - apply quiet_start_failed.
Qed.

Lemma inv_step (w : World) (e : Event) :
  (forall u', e = EvMount (AuthUser u') -> u' = u) ->
  reconnect_inv u w -> reconnect_inv u (step w e).
Proof.
  intros He I. destruct e as [o|ws|ws fr|ws|ws|id|cycle resp now|net task files|];
    cbn [step].
  - apply inv_fetchUser; [|exact I]. intros u' ->. now apply He.
  - destruct (socket_state ws w) as [[]|]; auto.
    now apply inv_ws_onopen, inv_set_readyState.
  - destruct (socket_state ws w) as [[]|]; auto;
      (apply (inv_quiet w); [exact I | apply quiet_ws_onmessage]).
  - destruct (socket_state ws w) as [[]|]; auto;
      (apply (inv_quiet w); [exact I | now apply quiet_same]).
  - destruct (nth_error (sockets w) ws) as [s|] eqn:E; [|exact I].
    assert (Hs : s_uid s = u /\ invalid_uid u = false /\
                 has_fragment u = false).
    { destruct I as (_ & _ & I3 & _).
      rewrite Forall_forall in I3. apply I3. eapply nth_error_In, E. }
    destruct Hs as (-> & Hv & Hfr).
    destruct (readyState s); auto;
      now apply inv_ws_onclose; [apply inv_set_readyState| |].
  - now apply inv_fire.
  - apply (inv_quiet w); [exact I | apply quiet_poll_resume].
  - unfold click_start, TaskInput.click, TaskInput.handleStart.
    destruct (TaskInput.disabled task (isRunning w)); [exact I|].
    destruct (trim_is_empty task).
    + apply (inv_quiet w); [exact I | now apply quiet_same].
    + apply inv_handleStartTaskWithFiles; [|exact I].
      destruct I as (_ & _ & _ & I4 & _). exact I4.
  - now apply inv_cleanup.
Qed.

Lemma inv_initial (tok : option string) : reconnect_inv u (initial tok).
Proof.
  unfold reconnect_inv. cbn. repeat split; auto; contradiction.
Qed.

Lemma inv_run (evs : list Event) :
  forall w, single_identity u evs -> reconnect_inv u w ->
            reconnect_inv u (run w evs).
Proof.
  induction evs as [|e evs IH]; intros w Hid I; [exact I|].
  cbn. apply IH.
  - intros u' Hin. apply Hid. now right.
  - apply inv_step; [|exact I]. intros u' ->. apply Hid. now left.
Qed.

End Reconnect.

(** *** Timer handles *)

Section Handles.

(** A pending timer is the one its handle finds. *)
Lemma find_pending (w : World) (t : Timer) :
  handles_inv w -> In t (timers w) ->
  find (fun x => Nat.eqb (t_id x) (t_id t)) (timers w) = Some t.
Proof.
  intros [Huniq _] Hin.
  destruct (find (fun x => Nat.eqb (t_id x) (t_id t)) (timers w)) as [x|] eqn:E.
  - apply find_some in E. destruct E as [Hx Heq].
    apply Nat.eqb_eq in Heq. f_equal. now apply Huniq.
  - pose proof (find_none _ _ E t Hin) as Hno. cbn in Hno.
    now rewrite Nat.eqb_refl in Hno.
Qed.

Lemma handles_same (w w' : World) :
  timers w' = timers w -> nextTimerId w' = nextTimerId w ->
  handles_inv w -> handles_inv w'.
Proof. unfold handles_inv. now intros -> ->. Qed.

Lemma handles_clearTimer (id : nat) (w : World) :
  handles_inv w -> handles_inv (clearTimer id w).
Proof.
  intros [Huniq Hlt]. split; cbn.
  - intros t t' Hin Hin'. apply filter_In in Hin, Hin'.
    apply Huniq; tauto.
  - apply Forall_forall. intros t Hin. apply filter_In in Hin.
    rewrite Forall_forall in Hlt. now apply Hlt.
Qed.

Lemma handles_clear_ref (r : option nat) (w : World) :
  handles_inv w ->
  handles_inv match r with Some id => clearTimer id w | None => w end.
Proof. destruct r; [apply handles_clearTimer | auto]. Qed.

Lemma handles_stop_poll (w : World) :
  handles_inv w -> handles_inv (stop_poll w).
Proof.
  intros H. unfold stop_poll. destruct (pollIntervalRef w) as [id|]; [|exact H].
  apply (handles_same (clearTimer id w)); [reflexivity | reflexivity|].
  now apply handles_clearTimer.
Qed.

Lemma handles_addTimer (delay : Z) (rep : bool) (cb : Callback) (w : World) :
  handles_inv w -> handles_inv (snd (addTimer delay rep cb w)).
Proof.
  intros [Huniq Hlt]. rewrite Forall_forall in Hlt. split; cbn.
  - intros t t' Hin Hin' E. apply in_app_iff in Hin, Hin'. cbn in Hin, Hin'.
    destruct Hin as [Hin | [<- | []]], Hin' as [Hin' | [<- | []]].
    + now apply Huniq.
    + specialize (Hlt t Hin). cbn in E. lia.
    + specialize (Hlt t' Hin'). cbn in E. lia.
    + reflexivity.
  - apply Forall_app. split.
    + apply Forall_forall. intros t Hin. specialize (Hlt t Hin). lia.
    + constructor; [cbn; lia | constructor].
Qed.

Lemma handles_setupWebSocket (uid : string) (w : World) :
  handles_inv w -> handles_inv (setupWebSocket uid w).
Proof.
  destruct (setupWebSocket_frame uid w) as (ss & r & ->).
  now apply handles_same.
Qed.

Lemma handles_ws_onopen (ws : nat) (w : World) :
  handles_inv w -> handles_inv (ws_onopen ws w).
Proof.
  intros H. unfold ws_onopen.
  set (w1 := match reconnectTimeoutRef (setWsConnected true w) with
             | Some id => set_reconnectTimeoutRef None
                            (clearTimer id (setWsConnected true w))
             | None => setWsConnected true w
             end).
  assert (H1 : handles_inv w1).
  { subst w1. change (reconnectTimeoutRef (setWsConnected true w))
      with (reconnectTimeoutRef w).
    destruct (reconnectTimeoutRef w) as [id|].
    - apply (handles_same (clearTimer id w)); [reflexivity | reflexivity|].
      now apply handles_clearTimer.
    - now apply (handles_same w). }
  fold w1.
  set (w2 := match pingIntervalRef w1 with
             | Some id => clearTimer id w1
             | None => w1
             end).
  assert (H2 : handles_inv w2) by now apply handles_clear_ref.
  apply (handles_same (snd (addTimer 30000 true (CbPing ws) w2)));
    [reflexivity | reflexivity|].
  now apply handles_addTimer.
Qed.

Lemma handles_ws_onclose (uid : string) (w : World) :
  handles_inv w -> handles_inv (ws_onclose uid w).
Proof.
  intros H. unfold ws_onclose.
  set (w0 := setWsConnected false (set_wsRef None w)).
  set (w1 := match pingIntervalRef w0 with
             | Some id => set_pingIntervalRef None (clearTimer id w0)
             | None => w0
             end).
  assert (H0 : handles_inv w0) by now apply (handles_same w).
  assert (H1 : handles_inv w1).
  { subst w1. destruct (pingIntervalRef w0) as [id|]; [|exact H0].
    apply (handles_same (clearTimer id w0)); [reflexivity | reflexivity|].
    now apply handles_clearTimer. }
  destruct (reconnectTimeoutRef w1); [exact H1|].
  destruct (truthy_str uid); [|exact H1].
  apply (handles_same (snd (addTimer 3000 false (CbReconnect uid) w1)));
    [reflexivity | reflexivity|].
  now apply handles_addTimer.
Qed.

Lemma handles_resolve (r : Json) (w : World) :
  handles_inv w ->
  handles_inv (stop_poll (set_taskIdRef None
                 (setIsRunning false (setShowResults true (setResult r w))))).
Proof.
  intros H. apply handles_stop_poll. now apply (handles_same w).
Qed.

Lemma handles_ws_onmessage (fr : Frame) (w : World) :
  handles_inv w -> handles_inv (ws_onmessage fr w).
Proof.
  intros H. destruct fr as [| |msg]; try exact H.
  unfold ws_onmessage, onmessage_try.
  destruct (get "type" msg) as [type|]; [|exact H].
  destruct (get "task_id" msg) as [task_id|]; [|exact H].
  destruct (filtered_out (taskIdRef w) task_id); [exact H|].
  assert (H1 : forall w1,
            (if strict_eq_str type "agent_log" then on_agent_log msg w
             else Some w) = Some w1 -> handles_inv w1).
  { intros w1. destruct (strict_eq_str type "agent_log").
    - unfold on_agent_log. destruct (get "log" msg) as [log|]; [|discriminate].
      destruct (get "agent" log); [|discriminate].
      intros [= <-]. now apply (handles_same w).
    - now intros [= <-]. }
  destruct (if strict_eq_str type "agent_log" then on_agent_log msg w else Some w)
    as [w1|]; [|exact H].
  specialize (H1 w1 eq_refl).
  assert (H2 : forall w2,
            (if strict_eq_str type "task_completed" then on_task_completed msg w1
             else Some w1) = Some w2 -> handles_inv w2).
  { intros w2. destruct (strict_eq_str type "task_completed").
    - unfold on_task_completed. destruct (get "result" msg) as [res|];
        [|discriminate].
      intros [= <-]. now apply handles_resolve.
    - now intros [= <-]. }
  destruct (if strict_eq_str type "task_completed" then on_task_completed msg w1
            else Some w1) as [w2|]; [|exact H].
  specialize (H2 w2 eq_refl).
  destruct (strict_eq_str type "task_error"); [|exact H2].
  unfold on_task_error. destruct (get "error" msg) as [err|]; [|exact H].
  destruct (to_string_throws err); [exact H|].
  now apply handles_resolve.
Qed.

Lemma handles_poll_tick (cycle : nat) (t : string) (b : bool)
    (logs : list Json) (w : World) :
  handles_inv w -> handles_inv (poll_tick cycle t b logs w).
Proof.
  intros H. unfold poll_tick.
  destruct (b || _).
  - apply handles_stop_poll. now apply (handles_same w).
  - now apply (handles_same w).
Qed.

Lemma handles_poll_resume (cycle : nat) (resp : PollResponse) (now : string)
    (w : World) :
  handles_inv w -> handles_inv (poll_resume cycle resp now w).
Proof.
  intros H. unfold poll_resume.
  set (w1 := match poll_try resp now w with Some w' => w' | None => w end).
  assert (H1 : handles_inv w1).
  { subst w1. unfold poll_try. destruct resp as [| |taskData]; try exact H.
    destruct (get "task" taskData) as [task|]; [|exact H].
    destruct (get "status" task) as [status|]; [|exact H].
    destruct (get "result" task) as [res|]; [|exact H].
    destruct (strict_eq_str status "completed" && truthy res);
      [|destruct (strict_eq_str status "error")];
      try exact H;
      (apply (handles_same (stop_poll w)); [reflexivity | reflexivity|]);
      now apply handles_stop_poll. }
  destruct (maxPolls <=? pollCount cycle w1)%nat; [|exact H1].
  apply (handles_same (stop_poll w1)); [reflexivity | reflexivity|].
  now apply handles_stop_poll.
Qed.

Lemma handles_uploadFiles (net : Net) (files : list File) :
  forall i uploaded w,
    handles_inv w -> handles_inv (fst (uploadFiles net i files uploaded w)).
Proof.
  induction files as [|f rest IH]; intros i uploaded w H; cbn [uploadFiles].
  - exact H.
  - destruct (upload net i f) as [ps name | ps];
      destruct (report_progress_shape (f_name f) ps (emit (EUpload i f) w))
        as [prog ->].
    + apply IH. now apply (handles_same w).
    + cbn [fst]. now apply (handles_same w).
Qed.

Lemma handles_start_failed (m : string) (w : World) :
  handles_inv w -> handles_inv (start_failed m w).
Proof.
  intros H. unfold start_failed. apply handles_stop_poll.
  now apply (handles_same w).
Qed.

Lemma handles_start_polling (r : Render) (t : string) (w : World) :
  handles_inv w -> handles_inv (start_polling r t w).
Proof.
  intros H. unfold start_polling.
  apply (handles_same (snd (addTimer 3000 true
           (CbPoll (List.length (pollCounts w)) t (r_showResults r)
                   (r_agentLogs r))
           (set_pollCounts (pollCounts w ++ [0]) w))));
    [reflexivity | reflexivity|].
  apply handles_addTimer. now apply (handles_same w).
Qed.

Lemma handles_handleStartTaskWithFiles (r : Render) (net : Net)
    (taskText : string) (files : list File) (w : World) :
  handles_inv w ->
  handles_inv (handleStartTaskWithFiles r net taskText files w).
Proof.
  intros H. unfold handleStartTaskWithFiles.
  destruct (trim_is_empty taskText); [now apply (handles_same w)|].
  set (w0 := set_taskIdRef None _).
  assert (H0 : handles_inv w0) by now apply (handles_same w).
  destruct (negb (truthy_opt (token w0))); [now apply (handles_same w0)|].
  pose proof (handles_uploadFiles net files 0 [] w0 H0) as Hu.
  destruct (uploadFiles net 0 files [] w0) as [w1 [uploaded|]]; cbn [fst] in Hu.
  2: { exact Hu. }
  set (w2 := match r_userId r with
             | Some uid =>
                 if negb (r_wsConnected r) && truthy_str uid
                 then setupWebSocket uid (setUploadProgress [] w1)
                 else setUploadProgress [] w1
             | None => setUploadProgress [] w1
             end).
  assert (H1 : handles_inv (setUploadProgress [] w1))
    by now apply (handles_same w1).
  assert (H2 : handles_inv w2).
  { subst w2. destruct (r_userId r) as [uid|]; [|exact H1].
    destruct (negb (r_wsConnected r) && truthy_str uid); [|exact H1].
    now apply handles_setupWebSocket. }
  assert (H3 : handles_inv (emit (ECreateTask taskText uploaded "medium") w2))
    by now apply (handles_same w2).
  destruct (createTask net taskText uploaded) as [tid | detail | m].
  - apply handles_start_polling. now apply (handles_same w2).
  - now apply handles_start_failed.
  - now apply handles_start_failed.
Qed.

Lemma handles_fetchUser (o : AuthOutcome) (w : World) :
  handles_inv w -> handles_inv (fetchUser o w).
Proof.
  intros H. unfold fetchUser.
  destruct (negb (truthy_opt (token w))); [now apply (handles_same w)|].
  destruct o as [| |uid]; try now apply (handles_same w).
  destruct (invalid_uid uid); [now apply (handles_same w)|].
  apply handles_setupWebSocket. now apply (handles_same w).
Qed.

Lemma handles_cleanup (w : World) :
  handles_inv w -> handles_inv (cleanup w).
Proof.
  intros H. unfold cleanup.
  set (w1 := match reconnectTimeoutRef w with
             | Some id => clearTimer id w | None => w end).
  set (w2 := match pingIntervalRef w1 with
             | Some id => clearTimer id w1 | None => w1 end).
  set (w3 := match pollIntervalRef w2 with
             | Some id => clearTimer id w2 | None => w2 end).
  assert (H3 : handles_inv w3)
    by (subst w3 w2 w1; now repeat apply handles_clear_ref).
  destruct (wsRef w3) as [ws|]; [|exact H3].
  unfold socket_close. destruct (socket_state ws w3) as [[]|];
    now apply (handles_same w3).
Qed.

Lemma handles_fire (id : nat) (w : World) :
  handles_inv w -> handles_inv (fire id w).
Proof.
  intros H. unfold fire.
  destruct (find _ (timers w)) as [t|]; [|exact H].
  set (w1 := if t_repeat t then w else clearTimer id w).
  assert (H1 : handles_inv w1)
    by (subst w1; destruct (t_repeat t); [exact H | now apply handles_clearTimer]).
  destruct (t_cb t) as [uid | ws | cycle tid b logs]; cbn [run_callback].
  - unfold reconnect_cb. apply handles_setupWebSocket.
    now apply (handles_same w1).
  - unfold ping_cb. destruct (socket_state ws w1) as [[]|];
      now apply (handles_same w1).
  - now apply handles_poll_tick.
Qed.

Lemma handles_step (w : World) (e : Event) :
  handles_inv w -> handles_inv (step w e).
Proof.
  intros H.
  destruct e as [o|ws|ws fr|ws|ws|id|cycle resp now|net task files|];
    cbn [step].
  - now apply handles_fetchUser.
  - destruct (socket_state ws w) as [[]|]; auto.
    apply handles_ws_onopen. now apply (handles_same w).
  - destruct (socket_state ws w) as [[]|]; auto;
      now apply handles_ws_onmessage.
  - destruct (socket_state ws w) as [[]|]; auto;
      now apply (handles_same w).
  - destruct (nth_error (sockets w) ws) as [s|]; [|exact H].
    destruct (readyState s); auto;
      apply handles_ws_onclose; now apply (handles_same w).
  - now apply handles_fire.
  - now apply handles_poll_resume.
  - unfold click_start, TaskInput.click, TaskInput.handleStart.
    destruct (TaskInput.disabled task (isRunning w)); [exact H|].
    destruct (trim_is_empty task); [now apply (handles_same w)|].
    now apply handles_handleStartTaskWithFiles.
  - now apply handles_cleanup.
Qed.

Lemma handles_run (evs : list Event) :
  forall w, handles_inv w -> handles_inv (run w evs).
Proof.
  induction evs as [|e evs IH]; intros w H; [exact H|].
  cbn. apply IH. now apply handles_step.
Qed.

Lemma handles_initial (tok : option string) : handles_inv (initial tok).
Proof. split; cbn; [intros t t' [] | constructor]. Qed.

End Handles.

(** C3: in every world the page can reach, whatever the events and
    however they interleave, at most one reconnect timer is pending; it
    is a timeout of 3000 ms that reconnects with the identity the page
    mounted with, and its handle is held in [reconnectTimeoutRef]; every
    socket, those opened by a reconnect included, is opened for that
    identity.  A close event while a reconnect timer is pending schedules
    no timer; a close event of a live socket while no handle is held
    schedules exactly one.  When the pending reconnect timer fires, the
    handle is dropped, no reconnect timer is left, and, unless the socket
    held by then is open, a new socket for that same identity is opened
    in state connecting and held. *)
Theorem C3_single_reconnect_timer (tok : option string) (u : string)
    (evs : list Event) :
  single_identity u evs ->
  let w := run (initial tok) evs in
  List.length (reconnect_timers w) <= 1 /\
  (forall t, In t (reconnect_timers w) ->
             t_delay t = 3000%Z /\ t_repeat t = false /\
             t_cb t = CbReconnect u /\
             reconnectTimeoutRef w = Some (t_id t)) /\
  Forall (fun s => s_uid s = u) (sockets w) /\
  (forall ws,
      reconnect_timers w <> [] ->
      let w' := step w (EvClose ws) in
      nextTimerId w' = nextTimerId w /\
      forall t, In t (timers w') -> In t (timers w)) /\
  (forall ws s,
      nth_error (sockets w) ws = Some s ->
      readyState s <> CLOSED ->
      reconnectTimeoutRef w = None ->
      reconnect_timers (step w (EvClose ws))
      = [mkTimer (nextTimerId w) 3000 false (CbReconnect u)]) /\
  (forall t,
      In t (reconnect_timers w) ->
      let w' := step w (EvTimer (t_id t)) in
      reconnectTimeoutRef w' = None /\
      reconnect_timers w' = [] /\
      pending (t_id t) w' = false /\
      (ws_is_open w = true -> sockets w' = sockets w /\ wsRef w' = wsRef w) /\
      (ws_is_open w = false ->
       List.length (sockets w') = S (List.length (sockets w)) /\
       nth_error (sockets w') (List.length (sockets w))
       = Some (mkSocket u CONNECTING) /\
       wsRef w' = Some (List.length (sockets w)))).
Proof.
  intros Hid w.
  assert (I : reconnect_inv u w)
    by (apply inv_run; [exact Hid | apply inv_initial]).
  split; [apply I|]. split; [|split; [|split; [|split]]].
  - intros t Ht. destruct (proj1 I t Ht) as [Href ->]. cbn. auto.
  - destruct I as (_ & _ & I3 & _).
    eapply Forall_impl; [|exact I3]. cbn. tauto.
  - intros ws Hne w'. subst w'. cbn [step].
    destruct (nth_error (sockets w) ws) as [s|]; [|auto].
    assert (Href : exists rid, reconnectTimeoutRef w = Some rid).
    { destruct (reconnect_timers w) as [|t l] eqn:E; [contradiction|].
      exists (t_id t). apply (proj1 I t). rewrite E. now left. }
    destruct Href as [rid Href].
    assert (Hclose :
              nextTimerId (ws_onclose (s_uid s) (set_readyState ws CLOSED w))
              = nextTimerId w /\
              forall t,
                In t (timers (ws_onclose (s_uid s)
                                (set_readyState ws CLOSED w))) ->
                In t (timers w)).
    { pose proof (ws_onclose_scheduled (s_uid s)
                    (set_readyState ws CLOSED w)) as H.
      cbv zeta in H.
      change (reconnectTimeoutRef (set_readyState ws CLOSED w))
        with (reconnectTimeoutRef w) in H.
      rewrite Href in H. destruct H as (Hn & Ht & _).
      split; [exact Hn|]. rewrite Ht.
      change (pingIntervalRef (set_readyState ws CLOSED w))
        with (pingIntervalRef w).
      destruct (pingIntervalRef w) as [pid|]; cbn; [|auto].
      intros t Hin. apply filter_In in Hin. tauto. }
    destruct (readyState s); auto.
  - intros ws s Hs Hopen Href. cbn [step]. rewrite Hs.
    assert (Hu : s_uid s = u /\ truthy_str u = true).
    { destruct I as (_ & _ & I3 & _).
      rewrite Forall_forall in I3.
      destruct (I3 s (nth_error_In _ _ Hs)) as (Hsu & Hv & _).
      split; [exact Hsu | now apply invalid_uid_truthy]. }
    destruct Hu as [Hsu Hu]. rewrite Hsu.
    assert (E : reconnect_timers (ws_onclose u (set_readyState ws CLOSED w))
                = [mkTimer (nextTimerId w) 3000 false (CbReconnect u)]).
    { pose proof (ws_onclose_scheduled u (set_readyState ws CLOSED w)) as H.
      cbv zeta in H.
      change (reconnectTimeoutRef (set_readyState ws CLOSED w))
        with (reconnectTimeoutRef w) in H.
      rewrite Href in H. destruct (H Hu) as [Ht _].
      unfold reconnect_timers at 1. rewrite Ht, filter_app.
      change (pingIntervalRef (set_readyState ws CLOSED w))
        with (pingIntervalRef w).
      pose proof (inv_no_handle u w I Href) as Hnone.
      assert (Hq : filter is_reconnect
                     (timers match pingIntervalRef w with
                             | Some id =>
                                 set_pingIntervalRef None
                                   (clearTimer id (set_readyState ws CLOSED w))
                             | None => set_readyState ws CLOSED w
                             end) = []).
      { destruct (pingIntervalRef w) as [pid|]; [|exact Hnone].
        change (filter is_reconnect
                  (timers (set_pingIntervalRef None
                             (clearTimer pid (set_readyState ws CLOSED w)))))
          with (reconnect_timers (clearTimer pid w)).
        now rewrite reconnect_timers_clearTimer, Hnone. }
      rewrite Hq. reflexivity. }
    destruct (readyState s); try exact E. contradiction.
  - intros t Hrt w'. subst w'. cbn [step]. unfold fire.
    assert (Hin : In t (timers w)) by (apply filter_In in Hrt; tauto).
    rewrite (find_pending w t) by
      (try exact Hin; apply handles_run, handles_initial).
    set (id := t_id t).
    destruct (proj1 I t Hrt) as [Href Ht]. fold id in Href.
    assert (Hrep : t_repeat t = false) by (rewrite Ht; reflexivity).
    assert (Hcb : t_cb t = CbReconnect u) by (rewrite Ht; reflexivity).
    assert (Hvalid : invalid_uid u = false /\ has_fragment u = false).
    { apply I. intros E. rewrite E in Hrt. contradiction. }
    destruct Hvalid as [Hv Hfr].
    rewrite Hrep, Hcb. cbn [run_callback]. unfold reconnect_cb.
    set (w0 := set_reconnectTimeoutRef None (clearTimer id w)).
    assert (Hnone : reconnect_timers w0 = [])
      by exact (inv_clear_held u w id I Href).
    assert (Hpend : pending id w0 = false) by exact (pending_clearTimer id w).
    destruct (setupWebSocket_frame u w0) as (ss & r & E).
    split; [rewrite E; reflexivity|].
    split; [rewrite E; exact Hnone|].
    split; [rewrite E; exact Hpend|].
    split.
    + intros Hop. unfold setupWebSocket. rewrite Hv.
      change (ws_is_open w0) with (ws_is_open w). rewrite Hop.
      split; reflexivity.
    + intros Hop.
      destruct (setupWebSocket_connects u w0 Hv Hop) as (_ & Hnew & _).
      exact (Hnew Hfr).
Qed.

(** C3 on a run in which the socket closes twice in a row, the reconnect
    fires, and the new socket closes as well; and on the run up to the
    first close, where the reconnect timer, firing, opens the second
    socket for the same user. *)
Lemma C3_single_reconnect_timer_witness :
  (let w := run (initial (Some "tok"))
              [EvMount (AuthUser "u1"); EvOpen 0; EvClose 0; EvClose 0;
               EvTimer 2; EvClose 1] in
   List.length (reconnect_timers w) <= 1 /\
   (forall t, In t (reconnect_timers w) ->
              t_delay t = 3000%Z /\ t_repeat t = false /\
              t_cb t = CbReconnect "u1" /\
              reconnectTimeoutRef w = Some (t_id t)) /\
   Forall (fun s => s_uid s = "u1") (sockets w)) /\
  (let w := run (initial (Some "tok"))
              [EvMount (AuthUser "u1"); EvOpen 0; EvClose 0] in
   let w' := step w (EvTimer 2) in
   reconnect_timers w = [mkTimer 2 3000 false (CbReconnect "u1")] /\
   reconnect_timers w' = [] /\
   nth_error (sockets w') 1 = Some (mkSocket "u1" CONNECTING) /\
   wsRef w' = Some 1).
Proof.
  assert (Hone : forall evs,
             (forall e, In e evs ->
                        e = EvMount (AuthUser "u1") \/
                        forall u', e <> EvMount (AuthUser u')) ->
             single_identity "u1" evs).
  { intros evs H u' Hin. destruct (H _ Hin) as [E | E].
    - now injection E as <-.
    - now destruct (E u'). }
  split.
  - intros w.
    destruct (C3_single_reconnect_timer (Some "tok") "u1"
                [EvMount (AuthUser "u1"); EvOpen 0; EvClose 0; EvClose 0;
                 EvTimer 2; EvClose 1]) as (H1 & H2 & H3 & _).
    + apply Hone. intros e Hin. simpl in Hin.
      destruct Hin as [<- | Hin]; [now left|].
      repeat (destruct Hin as [<- | Hin]; [right; discriminate|]).
      contradiction.
    + exact (conj H1 (conj H2 H3)).
  - intros w w'.
    destruct (C3_single_reconnect_timer (Some "tok") "u1"
                [EvMount (AuthUser "u1"); EvOpen 0; EvClose 0])
      as (_ & _ & _ & _ & _ & Hfire).
    + apply Hone. intros e Hin. simpl in Hin.
      destruct Hin as [<- | Hin]; [now left|].
      repeat (destruct Hin as [<- | Hin]; [right; discriminate|]).
      contradiction.
    + destruct (Hfire (mkTimer 2 3000 false (CbReconnect "u1")))
        as (_ & Hnone & _ & _ & Hnew);
        [vm_compute; left; reflexivity |].
      destruct Hnew as (_ & Hsock & Href); [vm_compute; reflexivity|].
      split; [vm_compute; reflexivity|].
      split; [exact Hnone|]. split; [exact Hsock | exact Href].
Defined.

(** * Further properties of the page *)

(** ** Inbound frames *)

(** A frame resolves the session when it is a [task_completed] or a
    [task_error]: what it leaves behind, by its payload [r]. *)
Lemma onmessage_effects (fr : Frame) (w : World) :
  ws_onmessage fr w = w \/
  (exists log, ws_onmessage fr w = setAgentLogs (agentLogs w ++ [log]) w) \/
  (exists r, ws_onmessage fr w =
             stop_poll (set_taskIdRef None
                          (setIsRunning false
                             (setShowResults true (setResult r w))))).
Proof.
  destruct fr as [| |msg]; [now left | now left |].
  unfold ws_onmessage, onmessage_try.
  destruct (get "type" msg) as [type|]; [|now left].
  destruct (get "task_id" msg) as [task_id|]; [|now left].
  destruct (filtered_out (taskIdRef w) task_id); [now left|].
  destruct type as [| | | |s| |]; try (now left).
  cbn [strict_eq_str].
  destruct (String.eqb s "agent_log") eqn:E1.
  - apply String.eqb_eq in E1. subst s. cbn.
    unfold on_agent_log. destruct (get "log" msg) as [log|]; [|now left].
    destruct (get "agent" log); [|now left].
    right. left. now exists log.
  - destruct (String.eqb s "task_completed") eqn:E2.
    + apply String.eqb_eq in E2. subst s. cbn.
      unfold on_task_completed. destruct (get "result" msg) as [res|];
        [|now left].
      right. right. now exists res.
    + destruct (String.eqb s "task_error") eqn:E3; [|now left].
      unfold on_task_error. destruct (get "error" msg) as [err|]; [|now left].
      destruct (to_string_throws err); [now left|].
      right. right. now exists (errorResult err).
Qed.

(** X1: a frame does exactly one of three things: nothing, append one
    entry to the event log, or resolve the session (result set, results
    shown, not running, no task bound, poll handle dropped).  Whatever
    the frame, the handler leaves the connection alone (sockets, socket
    handle, connected flag, reconnect and heartbeat handles), schedules no
    timer, performs no externally visible action and keeps the upload
    progress, the user and the token; the only timer it can remove is the
    one whose handle is held in [pollIntervalRef]. *)
Theorem onmessage_touches_session_only (fr : Frame) (w : World) :
  let w' := ws_onmessage fr w in
  (w' = w \/
   (exists log, w' = setAgentLogs (agentLogs w ++ [log]) w) \/
   (exists r, result w' = r /\ resolved w' /\ agentLogs w' = agentLogs w)) /\
  connection_of w' = connection_of w /\
  nextTimerId w' = nextTimerId w /\
  trace w' = trace w /\
  uploadProgress w' = uploadProgress w /\
  userId w' = userId w /\ token w' = token w /\
  pollCounts w' = pollCounts w /\
  (forall t, In t (timers w') -> In t (timers w)) /\
  (forall t, In t (timers w) -> pollIntervalRef w <> Some (t_id t) ->
             In t (timers w')).
Proof.
  intros w'. subst w'.
  assert (Hstop : forall w0,
            connection_of (stop_poll w0) = connection_of w0 /\
            nextTimerId (stop_poll w0) = nextTimerId w0 /\
            uploadProgress (stop_poll w0) = uploadProgress w0 /\
            userId (stop_poll w0) = userId w0 /\
            token (stop_poll w0) = token w0 /\
            pollCounts (stop_poll w0) = pollCounts w0 /\
            (forall t, In t (timers (stop_poll w0)) -> In t (timers w0)) /\
            (forall t, In t (timers w0) ->
                       pollIntervalRef w0 <> Some (t_id t) ->
                       In t (timers (stop_poll w0)))).
  { intros w0. unfold stop_poll.
    destruct (pollIntervalRef w0) as [id|]; cbn; repeat split; auto.
    - intros t Hin. apply filter_In in Hin. tauto.
    - intros t Hin Hne. apply filter_In. split; [exact Hin|].
      destruct (Nat.eqb_spec (t_id t) id) as [E|E];
        [elim Hne; now rewrite E | reflexivity]. }
  destruct (onmessage_effects fr w) as [-> | [[log ->] | [r ->]]].
  - split; [now left|]. repeat split; auto.
  - split; [right; left; now exists log|]. repeat split; auto.
  - set (w0 := set_taskIdRef None
                 (setIsRunning false (setShowResults true (setResult r w)))).
    destruct (Hstop w0) as (H1 & H2 & H3 & H4 & H5 & H6 & H7 & H8).
    destruct (stop_poll_fields w0) as (F1 & F2 & F3 & F4 & F5 & F6 & F7).
    split.
    + right. right. exists r. unfold resolved.
      rewrite F1, F2, F3, F4, F5, F7. repeat split.
    + rewrite H1, H2, H3, H4, H5, H6, F6. repeat split; auto.
Qed.

(** X2: frames the page ignores.  A [pong], a text that does not parse,
    a parsed [null], a message whose [type] is none of the three known
    ones (a message without [type] included) and an [agent_log] whose
    [log] is missing or null all leave the world exactly as it is. *)
Theorem onmessage_ignored_frames (w : World) :
  ws_onmessage FPong w = w /\
  ws_onmessage FUnparsable w = w /\
  (forall msg, get "type" msg = None -> ws_onmessage (FJson msg) w = w) /\
  (forall msg type,
      get "type" msg = Some type ->
      strict_eq_str type "agent_log" = false ->
      strict_eq_str type "task_completed" = false ->
      strict_eq_str type "task_error" = false ->
      ws_onmessage (FJson msg) w = w) /\
  (forall msg log,
      get "type" msg = Some (JStr "agent_log") ->
      get "log" msg = Some log -> get "agent" log = None ->
      ws_onmessage (FJson msg) w = w).
Proof.
  split; [reflexivity|]. split; [reflexivity|]. split; [|split].
  - intros msg H. unfold ws_onmessage, onmessage_try. now rewrite H.
  - intros msg type Hty H1 H2 H3.
    destruct (get_type_task_id _ _ Hty) as [task_id Hid].
    unfold ws_onmessage, onmessage_try. rewrite Hty, Hid, H1, H2, H3.
    now destruct (filtered_out (taskIdRef w) task_id).
  - intros msg log Hty Hlog Hag.
    destruct (get_type_task_id _ _ Hty) as [task_id Hid].
    unfold ws_onmessage, onmessage_try. rewrite Hty, Hid.
    destruct (filtered_out (taskIdRef w) task_id); [reflexivity|].
    cbn. unfold on_agent_log. now rewrite Hlog, Hag.
Qed.

Lemma onmessage_ignored_frames_witness :
  ws_onmessage (FJson JNull) Scenario.awaiting = Scenario.awaiting /\
  ws_onmessage (FJson (JObj [("type", JStr "hello"); ("task_id", JStr "t1")]))
               Scenario.awaiting = Scenario.awaiting /\
  ws_onmessage (FJson (JObj [("type", JStr "agent_log"); ("log", JNull)]))
               Scenario.awaiting = Scenario.awaiting.
Proof.
  destruct (onmessage_ignored_frames Scenario.awaiting)
    as (_ & _ & Hnull & Hunknown & Hnolog).
  split; [|split].
  - apply Hnull. reflexivity.
  - apply (Hunknown _ (JStr "hello")); reflexivity.
  - apply (Hnolog _ JNull); reflexivity.
Defined.

(** X3: the event log is append-only and keeps the arrival order.  A
    batch of [agent_log] notifications for the bound task appends their
    [log] objects in the order received and changes nothing else. *)
Theorem agent_logs_in_arrival_order (t : string) (msgs logs : list Json) :
  Forall2 (fun msg log =>
             get "type" msg = Some (JStr "agent_log") /\
             get "task_id" msg = Some (JStr t) /\
             get "log" msg = Some log /\ get "agent" log <> None)
          msgs logs ->
  forall w,
    taskIdRef w = Some t ->
    fold_left (fun w msg => ws_onmessage (FJson msg) w) msgs w
    = setAgentLogs (agentLogs w ++ logs) w.
Proof.
  induction 1 as [|msg log msgs logs (Hty & Hid & Hlog & Hag) _ IH];
    intros w Ht; cbn [fold_left].
  - rewrite app_nil_r. destruct w; reflexivity.
  - rewrite (onmessage_agent_log w msg (JStr t) log Hty Hid
               (eq_ind_r (fun c => filtered_out c (JStr t) = false)
                         (filtered_out_same t) Ht) Hlog Hag).
    rewrite IH by exact Ht. cbn. rewrite <- app_assoc. reflexivity.
Qed.

Lemma agent_logs_in_arrival_order_witness :
  fold_left (fun w msg => ws_onmessage (FJson msg) w)
            [Scenario.agent_log "t1"; Scenario.agent_log "t1"] Scenario.awaiting
  = setAgentLogs [Scenario.log1; Scenario.log1] Scenario.awaiting.
Proof.
  apply (agent_logs_in_arrival_order "t1"
           [Scenario.agent_log "t1"; Scenario.agent_log "t1"]
           [Scenario.log1; Scenario.log1]).
  - repeat constructor; discriminate.
  - reflexivity.
Defined.

(** ** Opening and closing the push channel *)

(** [stop_poll] leaves everything but the poll handle and the timers. *)
Lemma stop_poll_frame (w : World) :
  connection_of (stop_poll w) = connection_of w /\
  nextTimerId (stop_poll w) = nextTimerId w /\
  pollCounts (stop_poll w) = pollCounts w /\
  uploadProgress (stop_poll w) = uploadProgress w /\
  userId (stop_poll w) = userId w /\
  token (stop_poll w) = token w.
Proof.
  unfold stop_poll. destruct (pollIntervalRef w); repeat split.
Qed.

Lemma invalid_uid_spec (uid : string) :
  invalid_uid uid = true <->
  uid = "undefined" \/ uid = "null" \/ trim_is_empty uid = true.
Proof.
  unfold invalid_uid, truthy_str. split.
  - intros H. repeat (apply orb_true_iff in H; destruct H as [H | H]).
    + right. right. apply negb_true_iff, negb_false_iff in H.
      apply String.eqb_eq in H. now subst uid.
    + left. now apply String.eqb_eq.
    + right. left. now apply String.eqb_eq.
    + now right; right.
  - intros [-> | [-> | H]]; [reflexivity | reflexivity |].
    rewrite H. now rewrite !orb_true_r.
Qed.

(** X4: [setupWebSocket] does nothing for an identity that is the text
    "undefined" or "null" or that is empty or all white space (as
    [trim] sees it, U+00A0 and the like included), and nothing when the
    socket it holds is open.  Otherwise the socket held before, if it was
    still connecting, is put to closing, and every other socket, every
    timer and the action log are untouched; then exactly one new socket
    is opened for that identity, in state connecting, and held.  When the
    constructor throws (an identity with a [#]) no socket is opened and
    none is held. *)
Theorem setupWebSocket_opens_one_socket (uid : string) (w : World) :
  let w' := setupWebSocket uid w in
  (invalid_uid uid = true <->
   uid = "undefined" \/ uid = "null" \/ trim_is_empty uid = true) /\
  (invalid_uid uid = true \/ ws_is_open w = true -> w' = w) /\
  (invalid_uid uid = false -> ws_is_open w = false ->
   timers w' = timers w /\ nextTimerId w' = nextTimerId w /\
   trace w' = trace w /\
   (forall i s,
      nth_error (sockets w) i = Some s ->
      exists s',
        nth_error (sockets w') i = Some s' /\ s_uid s' = s_uid s /\
        (readyState s' = readyState s \/
         (wsRef w = Some i /\ readyState s = CONNECTING /\
          readyState s' = CLOSING))) /\
   (has_fragment uid = false ->
    sockets w' <> sockets w /\
    List.length (sockets w') = S (List.length (sockets w)) /\
    nth_error (sockets w') (List.length (sockets w))
    = Some (mkSocket uid CONNECTING) /\
    wsRef w' = Some (List.length (sockets w))) /\
   (has_fragment uid = true ->
    List.length (sockets w') = List.length (sockets w) /\
    wsRef w' = None)).
Proof.
  intros w'. subst w'. split; [apply invalid_uid_spec|]. split.
  - unfold setupWebSocket. intros [-> | H]; [reflexivity|].
    rewrite H. now destruct (invalid_uid uid).
  - intros Hv Hopen.
    destruct (setupWebSocket_connects uid w Hv Hopen) as (Hold & Hnew & Hthrow).
    destruct (setupWebSocket_frame uid w) as (ss & r & E).
    split; [now rewrite E|]. split; [now rewrite E|]. split; [now rewrite E|].
    split; [exact Hold|]. split; [|exact Hthrow].
    intros Hfr. destruct (Hnew Hfr) as (Hlen & Hnth & Href).
    split; [|auto].
    intros Heq. rewrite Heq in Hlen. lia.
Qed.

Lemma setupWebSocket_opens_one_socket_witness :
  setupWebSocket "   " Scenario.connected = Scenario.connected /\
  setupWebSocket Scenario.nbsp (initial (Some "tok")) = initial (Some "tok") /\
  List.length (sockets (setupWebSocket "u1" (initial (Some "tok")))) = 1 /\
  sockets (setupWebSocket "a#b" (initial (Some "tok"))) = [].
Proof.
  split; [|split; [|split]].
  - apply (proj1 (proj2 (setupWebSocket_opens_one_socket "   " Scenario.connected))).
    left. reflexivity.
  - apply (proj1 (proj2 (setupWebSocket_opens_one_socket Scenario.nbsp
                           (initial (Some "tok"))))).
    left. reflexivity.
  - apply (proj2 (proj2 (setupWebSocket_opens_one_socket "u1" (initial (Some "tok"))))
             eq_refl eq_refl).
    reflexivity.
  - destruct (proj2 (proj2 (setupWebSocket_opens_one_socket "a#b"
                              (initial (Some "tok")))) eq_refl eq_refl)
      as (_ & _ & _ & _ & _ & Hthrow).
    destruct (Hthrow eq_refl) as [Hlen _].
    destruct (sockets (setupWebSocket "a#b" (initial (Some "tok"))));
      [reflexivity | discriminate Hlen].
Defined.

(** One event of the connection and the session. *)
Lemma connection_step_session (w : World) :
  (forall ws, session_of (step w (EvOpen ws)) = session_of w) /\
  (forall ws, session_of (step w (EvError ws)) = session_of w) /\
  (forall ws, session_of (step w (EvClose ws)) = session_of w) /\
  (forall id t,
      find (fun t => Nat.eqb (t_id t) id) (timers w) = Some t ->
      is_poll t = false ->
      session_of (step w (EvTimer id)) = session_of w).
Proof.
  split; [|split; [|split]].
  - intros ws. cbn [step].
    destruct (socket_state ws w) as [[]|]; try reflexivity.
    unfold ws_onopen. cbn.
    destruct (reconnectTimeoutRef w); cbn; destruct (pingIntervalRef w);
      reflexivity.
  - intros ws. cbn [step].
    destruct (socket_state ws w) as [[]|]; reflexivity.
  - intros ws. cbn [step].
    destruct (nth_error (sockets w) ws) as [s|]; [|reflexivity].
    destruct (readyState s); try reflexivity;
      unfold ws_onclose; cbn;
      destruct (pingIntervalRef w); cbn;
      destruct (reconnectTimeoutRef w); cbn;
      destruct (truthy_str (s_uid s)); reflexivity.
  - intros id t Hfind Hpoll. cbn [step]. unfold fire. rewrite Hfind.
    unfold is_poll in Hpoll.
    destruct (t_cb t) as [uid | ws | c n b l]; [| |discriminate Hpoll];
      cbn [run_callback].
    + unfold reconnect_cb.
      destruct (setupWebSocket_frame uid
                  (set_reconnectTimeoutRef None
                     (if t_repeat t then w else clearTimer id w)))
        as (ss & r & ->).
      now destruct (t_repeat t).
    + unfold ping_cb.
      destruct (socket_state ws _) as [[]|]; now destruct (t_repeat t).
Qed.

(** X5: the connection never touches the task session.  Opening a
    socket, an open, an error or a close event, and a reconnect or
    heartbeat timer that fires leave the flags, the result, the event log,
    the bound task, the poll handle, the poll counters and the upload
    progress as they are: a task in flight survives any number of
    disconnections and reconnections. *)
Theorem connection_events_keep_session (w : World) :
  (forall uid, session_of (setupWebSocket uid w) = session_of w) /\
  (forall ws, session_of (step w (EvOpen ws)) = session_of w /\
              trace (step w (EvOpen ws)) = trace w) /\
  (forall ws, session_of (step w (EvError ws)) = session_of w /\
              trace (step w (EvError ws)) = trace w) /\
  (forall ws, session_of (step w (EvClose ws)) = session_of w /\
              trace (step w (EvClose ws)) = trace w) /\
  (forall id t,
      find (fun t => Nat.eqb (t_id t) id) (timers w) = Some t ->
      is_poll t = false ->
      session_of (step w (EvTimer id)) = session_of w).
Proof.
  destruct (connection_step_session w) as (Ho & He & Hc & Ht).
  split; [|split; [|split; [|split]]].
  - intros uid. destruct (setupWebSocket_frame uid w) as (ss & r & ->).
    reflexivity.
  - intros ws. split; [apply Ho|]. cbn [step].
    destruct (socket_state ws w) as [[]|]; try reflexivity.
    unfold ws_onopen. cbn.
    destruct (reconnectTimeoutRef w); cbn; destruct (pingIntervalRef w);
      reflexivity.
  - intros ws. split; [apply He|]. cbn [step].
    destruct (socket_state ws w) as [[]|]; reflexivity.
  - intros ws. split; [apply Hc|]. cbn [step].
    destruct (nth_error (sockets w) ws) as [s|]; [|reflexivity].
    destruct (readyState s); try reflexivity;
      unfold ws_onclose; cbn;
      destruct (pingIntervalRef w); cbn;
      destruct (reconnectTimeoutRef w); cbn;
      destruct (truthy_str (s_uid s)); reflexivity.
  - exact Ht.
Qed.

Lemma connection_events_keep_session_witness :
  session_of (step Scenario.closed_after_cleanup (EvTimer 2))
  = session_of Scenario.closed_after_cleanup.
Proof.
  apply (proj2 (proj2 (proj2 (proj2
           (connection_events_keep_session Scenario.closed_after_cleanup))))
           2 (mkTimer 2 3000 false (CbReconnect "u1"))); reflexivity.
Defined.

(** X6: what the page does on mount.  With no token, or when the request
    fails, it goes to the login page; a response that is not ok also
    removes the token; an identity that is not valid ([trim] included)
    raises the alert and goes to the login page.  In none of these cases
    is a socket opened or the user set.  For a valid identity nothing is
    shown: the user is set and a socket for that identity is opened and
    held, unless the constructor throws, where the user is set all the
    same and no socket is held.  The task session and the timers are
    never touched. *)
Theorem fetchUser_outcomes (o : AuthOutcome) (w : World) :
  let w' := fetchUser o w in
  let login := ENavigate "/login" in
  let unconnected :=
    connection_of w' = connection_of w /\ userId w' = userId w in
  session_of w' = session_of w /\ timers w' = timers w /\
  (truthy_opt (token w) = false \/ o = AuthRejected ->
   trace w' = trace w ++ [login] /\ token w' = token w /\ unconnected) /\
  (truthy_opt (token w) = true -> o = AuthNotOk ->
   trace w' = trace w ++ [login] /\ token w' = None /\ unconnected) /\
  (forall uid,
      truthy_opt (token w) = true -> o = AuthUser uid ->
      invalid_uid uid = true ->
      trace w' = trace w
                 ++ [EAlert "Failed to get user ID. Please login again."; login] /\
      token w' = token w /\ unconnected) /\
  (forall uid,
      truthy_opt (token w) = true -> o = AuthUser uid ->
      invalid_uid uid = false ->
      userId w' = Some uid /\ trace w' = trace w /\ token w' = token w /\
      (ws_is_open w = true -> sockets w' = sockets w /\ wsRef w' = wsRef w) /\
      (ws_is_open w = false -> has_fragment uid = false ->
       List.length (sockets w') = S (List.length (sockets w)) /\
       nth_error (sockets w') (List.length (sockets w))
       = Some (mkSocket uid CONNECTING) /\
       wsRef w' = Some (List.length (sockets w))) /\
      (ws_is_open w = false -> has_fragment uid = true ->
       List.length (sockets w') = List.length (sockets w) /\
       wsRef w' = None)).
Proof.
  intros w' login unconnected. subst w' login unconnected. unfold fetchUser.
  split; [|split; [|split; [|split; [|split]]]].
  - destruct (truthy_opt (token w)); cbn [negb]; [|reflexivity].
    destruct o as [| |uid]; try reflexivity.
    destruct (invalid_uid uid); [reflexivity|].
    destruct (setupWebSocket_frame uid (setUserId (Some uid) w))
      as (ss & r & ->). reflexivity.
  - destruct (truthy_opt (token w)); cbn [negb]; [|reflexivity].
    destruct o as [| |uid]; try reflexivity.
    destruct (invalid_uid uid); [reflexivity|].
    destruct (setupWebSocket_frame uid (setUserId (Some uid) w))
      as (ss & r & ->). reflexivity.
  - intros [-> | ->]; cbn [negb]; [repeat split|].
    destruct (truthy_opt (token w)); repeat split.
  - intros -> ->. cbn [negb]. repeat split.
  - intros uid -> -> ->. cbn [negb]. repeat split. cbn.
    now rewrite <- app_assoc.
  - intros uid -> -> Hv. cbn [negb]. rewrite Hv.
    set (w0 := setUserId (Some uid) w).
    destruct (setupWebSocket_frame uid w0) as (ss & r & E).
    split; [now rewrite E|]. split; [now rewrite E|]. split; [now rewrite E|].
    split; [|split].
    + intros Hop. unfold setupWebSocket. rewrite Hv.
      change (ws_is_open w0) with (ws_is_open w). rewrite Hop.
      split; reflexivity.
    + intros Hop Hfr.
      destruct (setupWebSocket_connects uid w0 Hv Hop) as (_ & Hnew & _).
      exact (Hnew Hfr).
    + intros Hop Hfr.
      destruct (setupWebSocket_connects uid w0 Hv Hop) as (_ & _ & Hthrow).
      exact (Hthrow Hfr).
Qed.

(** ** Cleanup *)

Lemma pending_clearTimer_mono (id j : nat) (w : World) :
  pending id w = false -> pending id (clearTimer j w) = false.
Proof.
  unfold pending, clearTimer. cbn.
  induction (timers w) as [|t l IH]; cbn; [auto|].
  intros H. apply orb_false_elim in H. destruct H as [H1 H2].
  destruct (negb (Nat.eqb (t_id t) j)); cbn; [rewrite H1|]; auto.
Qed.

(** X7: the cleanup cancels every timer whose handle the page holds
    (reconnect, heartbeat and poll), schedules nothing, closes the socket
    it holds and drops its handle.  It leaves the three timer handles and
    the task session as they were and performs no visible action. *)
Theorem cleanup_cancels_held_timers (w : World) :
  let w' := cleanup w in
  (forall id,
      reconnectTimeoutRef w = Some id \/ pingIntervalRef w = Some id \/
      pollIntervalRef w = Some id ->
      pending id w' = false) /\
  (forall t, In t (timers w') -> In t (timers w)) /\
  nextTimerId w' = nextTimerId w /\
  wsRef w' = None /\
  (forall ws, wsRef w = Some ws ->
              socket_state ws w = Some OPEN \/
              socket_state ws w = Some CONNECTING ->
              socket_state ws w' = Some CLOSING) /\
  reconnectTimeoutRef w' = reconnectTimeoutRef w /\
  pingIntervalRef w' = pingIntervalRef w /\
  session_of w' = session_of w /\
  trace w' = trace w.
Proof.
  intros w'. subst w'. unfold cleanup.
  set (w1 := match reconnectTimeoutRef w with
             | Some id => clearTimer id w | None => w end).
  set (w2 := match pingIntervalRef w1 with
             | Some id => clearTimer id w1 | None => w1 end).
  set (w3 := match pollIntervalRef w2 with
             | Some id => clearTimer id w2 | None => w2 end).
  assert (Hclr : forall (r : option nat) (w0 : World),
            let w0' := match r with Some id => clearTimer id w0 | None => w0 end in
            (forall id, r = Some id -> pending id w0' = false) /\
            (forall id, pending id w0 = false -> pending id w0' = false) /\
            (forall t, In t (timers w0') -> In t (timers w0)) /\
            nextTimerId w0' = nextTimerId w0 /\ wsRef w0' = wsRef w0 /\
            sockets w0' = sockets w0 /\
            reconnectTimeoutRef w0' = reconnectTimeoutRef w0 /\
            pingIntervalRef w0' = pingIntervalRef w0 /\
            session_of w0' = session_of w0 /\ trace w0' = trace w0).
  { intros [id|] w0; cbn; repeat split; auto; try discriminate.
    - intros id' [= <-]. apply pending_clearTimer.
    - intros id'. apply pending_clearTimer_mono.
    - intros t Hin. apply filter_In in Hin. tauto. }
  destruct (Hclr (reconnectTimeoutRef w) w)
    as (A1 & A2 & A3 & A4 & A5 & A6 & A7 & A8 & A9 & A10).
  destruct (Hclr (pingIntervalRef w1) w1)
    as (B1 & B2 & B3 & B4 & B5 & B6 & B7 & B8 & B9 & B10).
  destruct (Hclr (pollIntervalRef w2) w2)
    as (C1 & C2 & C3 & C4 & C5 & C6 & C7 & C8 & C9 & C10).
  cbv zeta in *. fold w1 in A1, A2, A3, A4, A5, A6, A7, A8, A9, A10.
  fold w2 in B1, B2, B3, B4, B5, B6, B7, B8, B9, B10.
  fold w3 in C1, C2, C3, C4, C5, C6, C7, C8, C9, C10.
  assert (Hpoll : pollIntervalRef w2 = pollIntervalRef w).
  { apply (f_equal (fun x => snd (fst (fst x)))) in A9, B9. cbn in A9, B9.
    congruence. }
  assert (Hfin : forall w4,
            timers w4 = timers w3 -> nextTimerId w4 = nextTimerId w3 ->
            reconnectTimeoutRef w4 = reconnectTimeoutRef w3 ->
            pingIntervalRef w4 = pingIntervalRef w3 ->
            session_of w4 = session_of w3 -> trace w4 = trace w3 ->
            (forall id,
                reconnectTimeoutRef w = Some id \/ pingIntervalRef w = Some id \/
                pollIntervalRef w = Some id -> pending id w4 = false) /\
            (forall t, In t (timers w4) -> In t (timers w)) /\
            nextTimerId w4 = nextTimerId w /\
            reconnectTimeoutRef w4 = reconnectTimeoutRef w /\
            pingIntervalRef w4 = pingIntervalRef w /\
            session_of w4 = session_of w /\ trace w4 = trace w).
  { intros w4 E1 E2 E3 E4 E5 E6.
    assert (Hp4 : forall id, pending id w4 = pending id w3)
      by (intros id; unfold pending; now rewrite E1).
    rewrite E1. repeat split; try congruence.
    - intros id [H | [H | H]]; rewrite Hp4.
      + apply C2, B2, A1, H.
      + apply C2, B1. now rewrite A8.
      + apply C1. now rewrite Hpoll.
    - intros t Hin. apply A3, B3, C3, Hin. }
  assert (Hws : wsRef w3 = wsRef w /\ sockets w3 = sockets w)
    by (split; congruence).
  destruct Hws as [Hws Hss]. rewrite Hws.
  destruct (wsRef w) as [ws|] eqn:Ew.
  - destruct (Hfin (set_wsRef None (socket_close ws w3)))
      as (F1 & F2 & F3 & F4 & F5 & F6 & F7);
      try (unfold socket_close; destruct (socket_state ws w3) as [[]|];
           reflexivity).
    repeat split; auto.
    intros ws' [= <-] Hst. unfold socket_close, socket_state in *.
    rewrite Hss. cbn.
    destruct (nth_error (sockets w) ws) as [s|] eqn:Es; cbn in *;
      [|destruct Hst; discriminate].
    destruct Hst as [Hst | Hst]; injection Hst as ->; cbn;
      rewrite Hss, nth_error_update_nth, Nat.eqb_refl, Es; reflexivity.
  - destruct (Hfin w3) as (F1 & F2 & F3 & F4 & F5 & F6 & F7); auto.
    repeat split; auto. discriminate.
Qed.

Lemma cleanup_cancels_held_timers_witness :
  pending 2 (cleanup Scenario.awaiting) = false /\
  socket_state 0 (cleanup Scenario.awaiting) = Some CLOSING.
Proof.
  destruct (cleanup_cancels_held_timers Scenario.awaiting)
    as (Hp & _ & _ & _ & Hs & _).
  split.
  - apply Hp. right. right. reflexivity.
  - apply Hs; [reflexivity | left; reflexivity].
Defined.

(** ** The heartbeat *)

Section Heartbeat.

Lemma calm_refl (w : World) : calm w w.
Proof. unfold calm. repeat split; auto. Qed.

Lemma calm_trans (w1 w2 w3 : World) : calm w1 w2 -> calm w2 w3 -> calm w1 w3.
Proof.
  intros (A1 & B1 & C1 & D1) (A2 & B2 & C2 & D2).
  unfold calm. repeat split; try congruence; auto; lia.
Qed.

Lemma calm_same (w w' : World) :
  pingIntervalRef w' = pingIntervalRef w ->
  timers w' = timers w ->
  trace w' = trace w ->
  calm w w'.
Proof.
  intros A B C. unfold calm, ping_timers, sends. rewrite A, B, C.
  repeat split; auto.
Qed.

(** An action other than a write to a socket. *)
Lemma calm_emit (e : Effect) (w : World) :
  is_send e = false -> calm w (emit e w).
Proof.
  intros H. unfold calm, sends, emit. cbn.
  rewrite filter_app. cbn. rewrite H, app_nil_r. repeat split; auto.
Qed.

Lemma ping_timers_clearTimer (id : nat) (w : World) :
  ping_timers (clearTimer id w) =
  filter (fun t => negb (Nat.eqb (t_id t) id)) (ping_timers w).
Proof. unfold ping_timers, clearTimer. cbn. apply filter_comm. Qed.

Lemma calm_clearTimer (id : nat) (w : World) : calm w (clearTimer id w).
Proof.
  unfold calm. rewrite ping_timers_clearTimer. repeat split; auto.
  - intros t Ht. apply filter_In in Ht. tauto.
  - apply filter_length_le'.
Qed.

Lemma calm_clear_ref (r : option nat) (w : World) :
  calm w match r with Some id => clearTimer id w | None => w end.
Proof. destruct r; [apply calm_clearTimer | apply calm_refl]. Qed.

Lemma calm_stop_poll (w : World) : calm w (stop_poll w).
Proof.
  unfold stop_poll. destruct (pollIntervalRef w) as [id|]; [|apply calm_refl].
  apply (calm_trans _ (clearTimer id w)); [apply calm_clearTimer|].
  now apply calm_same.
Qed.

Lemma calm_addTimer (delay : Z) (rep : bool) (cb : Callback) (w : World) :
  is_ping (mkTimer (nextTimerId w) delay rep cb) = false ->
  calm w (snd (addTimer delay rep cb w)).
Proof.
  intros H. unfold calm, ping_timers, addTimer. cbn.
  rewrite filter_app. cbn [filter]. rewrite H, app_nil_r.
  repeat split; auto.
Qed.

Lemma calm_setupWebSocket (uid : string) (w : World) :
  calm w (setupWebSocket uid w).
Proof.
  destruct (setupWebSocket_frame uid w) as (ss & r & ->).
  now apply calm_same.
Qed.

Lemma calm_start_polling (r : Render) (t : string) (w : World) :
  calm w (start_polling r t w).
Proof.
  unfold start_polling.
  apply (calm_trans _ (set_pollCounts (pollCounts w ++ [0]) w));
    [now apply calm_same|].
  apply (calm_trans _ (snd (addTimer 3000 true
           (CbPoll (List.length (pollCounts w)) t (r_showResults r)
                   (r_agentLogs r))
           (set_pollCounts (pollCounts w ++ [0]) w))));
    [now apply calm_addTimer | now apply calm_same].
Qed.

Lemma calm_poll_tick (cycle : nat) (t : string) (b : bool)
    (logs : list Json) (w : World) :
  calm w (poll_tick cycle t b logs w).
Proof.
  unfold poll_tick.
  apply (calm_trans _ (set_pollCounts (update_nth cycle S (pollCounts w)) w));
    [now apply calm_same|].
  destruct (b || _); [apply calm_stop_poll | now apply calm_emit].
Qed.

Lemma calm_poll_resume (cycle : nat) (resp : PollResponse) (now : string)
    (w : World) :
  calm w (poll_resume cycle resp now w).
Proof.
  unfold poll_resume.
  set (w1 := match poll_try resp now w with Some w' => w' | None => w end).
  assert (H1 : calm w w1).
  { subst w1. unfold poll_try. destruct resp as [| |taskData];
      try apply calm_refl.
    destruct (get "task" taskData) as [task|]; [|apply calm_refl].
    destruct (get "status" task) as [status|]; [|apply calm_refl].
    destruct (get "result" task) as [res|]; [|apply calm_refl].
    destruct (strict_eq_str status "completed" && truthy res);
      [|destruct (strict_eq_str status "error")];
      try apply calm_refl;
      (apply (calm_trans _ (stop_poll w)); [apply calm_stop_poll|]);
      now apply calm_same. }
  destruct (maxPolls <=? pollCount cycle w1)%nat; [|exact H1].
  apply (calm_trans _ w1); [exact H1|].
  apply (calm_trans _ (stop_poll w1)); [apply calm_stop_poll|].
  now apply calm_same.
Qed.

Lemma calm_ws_onmessage (fr : Frame) (w : World) : calm w (ws_onmessage fr w).
Proof.
  destruct (onmessage_effects fr w) as [-> | [[log ->] | [r ->]]].
  - apply calm_refl.
  - now apply calm_same.
  - eapply calm_trans; [|apply calm_stop_poll]. now apply calm_same.
Qed.

Lemma calm_uploadFiles (net : Net) (files : list File) :
  forall i uploaded w, calm w (fst (uploadFiles net i files uploaded w)).
Proof.
  induction files as [|f rest IH]; intros i uploaded w; cbn [uploadFiles].
  - apply calm_refl.
  - apply (calm_trans _ (emit (EUpload i f) w)); [now apply calm_emit|].
    destruct (upload net i f) as [ps name | ps];
      destruct (report_progress_shape (f_name f) ps (emit (EUpload i f) w))
        as [prog ->].
    + apply (calm_trans _ (setUploadProgress prog (emit (EUpload i f) w)));
        [now apply calm_same | apply IH].
    + cbn [fst].
      apply (calm_trans _ (emit (EAlert ("Failed to upload " ++ f_name f))
                             (setUploadProgress prog (emit (EUpload i f) w))));
        [|now apply calm_same].
      apply (calm_trans _ (setUploadProgress prog (emit (EUpload i f) w)));
        [now apply calm_same | now apply calm_emit].
Qed.

Lemma calm_start_failed (m : string) (w : World) : calm w (start_failed m w).
Proof.
  unfold start_failed.
  eapply calm_trans; [|apply calm_stop_poll].
  apply (calm_trans _ (emit (EAlert (if truthy_str m then m
                                     else "Failed to start task")) w));
    [now apply calm_emit | now apply calm_same].
Qed.

Lemma calm_handleStartTaskWithFiles (r : Render) (net : Net)
    (taskText : string) (files : list File) (w : World) :
  calm w (handleStartTaskWithFiles r net taskText files w).
Proof.
  unfold handleStartTaskWithFiles.
  destruct (trim_is_empty taskText); [now apply calm_emit|].
  set (w0 := set_taskIdRef None _).
  assert (Q0 : calm w w0) by now apply calm_same.
  destruct (negb (truthy_opt (token w0))).
  { apply (calm_trans _ w0); [exact Q0 | now apply calm_emit]. }
  pose proof (calm_uploadFiles net files 0 [] w0) as Qu.
  destruct (uploadFiles net 0 files [] w0) as [w1 [uploaded|]]; cbn [fst] in Qu.
  2: { now apply (calm_trans _ w0). }
  set (w2 := match r_userId r with
             | Some uid =>
                 if negb (r_wsConnected r) && truthy_str uid
                 then setupWebSocket uid (setUploadProgress [] w1)
                 else setUploadProgress [] w1
             | None => setUploadProgress [] w1
             end).
  assert (Q1 : calm w (setUploadProgress [] w1)).
  { apply (calm_trans _ w0); [exact Q0|].
    apply (calm_trans _ w1); [exact Qu | now apply calm_same]. }
  assert (Q2 : calm w w2).
  { subst w2. destruct (r_userId r) as [uid|]; [|exact Q1].
    destruct (negb (r_wsConnected r) && truthy_str uid); [|exact Q1].
    eapply calm_trans; [exact Q1 | apply calm_setupWebSocket]. }
  apply (calm_trans _ w2); [exact Q2|].
  apply (calm_trans _ (emit (ECreateTask taskText uploaded "medium") w2));
    [now apply calm_emit|].
  destruct (createTask net taskText uploaded) as [tid | detail | m].
  - eapply calm_trans; [|apply calm_start_polling]. now apply calm_same.
  - apply calm_start_failed.
  - apply calm_start_failed.
Qed.

Lemma calm_fetchUser (o : AuthOutcome) (w : World) : calm w (fetchUser o w).
Proof.
  unfold fetchUser.
  destruct (negb (truthy_opt (token w))); [now apply calm_emit|].
  destruct o as [| |uid]; [now apply calm_emit | |].
  - apply (calm_trans _ (set_token None w));
      [now apply calm_same | now apply calm_emit].
  - destruct (invalid_uid uid).
    + apply (calm_trans _ (emit (EAlert "Failed to get user ID. Please login again.") w));
        now apply calm_emit.
    + eapply calm_trans; [|apply calm_setupWebSocket]. now apply calm_same.
Qed.

Lemma calm_cleanup (w : World) : calm w (cleanup w).
Proof.
  unfold cleanup.
  set (w1 := match reconnectTimeoutRef w with
             | Some id => clearTimer id w | None => w end).
  set (w2 := match pingIntervalRef w1 with
             | Some id => clearTimer id w1 | None => w1 end).
  set (w3 := match pollIntervalRef w2 with
             | Some id => clearTimer id w2 | None => w2 end).
  assert (Q3 : calm w w3).
  { apply (calm_trans _ w1); [apply calm_clear_ref|].
    apply (calm_trans _ w2); apply calm_clear_ref. }
  destruct (wsRef w3) as [ws|]; [|exact Q3].
  apply (calm_trans _ w3); [exact Q3|].
  unfold socket_close. destruct (socket_state ws w3) as [[]|];
    now apply calm_same.
Qed.

(** *** The invariant *)

Lemma ping_inv_calm (w w' : World) : ping_inv w -> calm w w' -> ping_inv w'.
Proof.
  intros (I1 & I2) (A & B & C & _). unfold ping_inv. rewrite A.
  split; [|lia]. intros t Ht. now apply I1, B.
Qed.

Lemma ping_inv_clear_held (w : World) (id : nat) :
  ping_inv w -> pingIntervalRef w = Some id ->
  ping_timers (clearTimer id w) = [].
Proof.
  intros (I1 & _) H. rewrite ping_timers_clearTimer.
  destruct (filter _ (ping_timers w)) as [|t l] eqn:E; [reflexivity|].
  assert (Hin : In t (filter (fun t => negb (Nat.eqb (t_id t) id))
                             (ping_timers w)))
    by (rewrite E; now left).
  apply filter_In in Hin. destruct Hin as [Hin Hne].
  destruct (I1 t Hin) as [Href _]. rewrite H in Href. injection Href as ->.
  now rewrite Nat.eqb_refl in Hne.
Qed.

Lemma ping_inv_no_handle (w : World) :
  ping_inv w -> pingIntervalRef w = None -> ping_timers w = [].
Proof.
  intros (I1 & _) H. destruct (ping_timers w) as [|t l]; [reflexivity|].
  destruct (I1 t (or_introl eq_refl)) as [Href _]. congruence.
Qed.

Lemma ping_inv_empty (w : World) : ping_timers w = [] -> ping_inv w.
Proof.
  intros H. unfold ping_inv. rewrite H. cbn. split; [contradiction | lia].
Qed.

(** [ws.onopen] replaces the heartbeat: the interval whose handle was
    held is cleared and a new one is started and held. *)
Lemma ping_inv_ws_onopen (ws : nat) (w : World) :
  ping_inv w -> ping_inv (ws_onopen ws w) /\ sends (ws_onopen ws w) = sends w.
Proof.
  intros I. unfold ws_onopen.
  set (w1 := match reconnectTimeoutRef (setWsConnected true w) with
             | Some id => set_reconnectTimeoutRef None
                            (clearTimer id (setWsConnected true w))
             | None => setWsConnected true w
             end).
  assert (Q1 : calm w w1).
  { subst w1. cbn. destruct (reconnectTimeoutRef w) as [id|];
      [|now apply calm_same].
    apply (calm_trans _ (clearTimer id w)); [apply calm_clearTimer|].
    now apply calm_same. }
  pose proof (ping_inv_calm w w1 I Q1) as I1.
  set (w2 := match pingIntervalRef w1 with
             | Some id => clearTimer id w1
             | None => w1
             end).
  assert (H2 : ping_timers w2 = [] /\ sends w2 = sends w1).
  { subst w2. destruct (pingIntervalRef w1) as [id|] eqn:E.
    - split; [now apply ping_inv_clear_held | reflexivity].
    - split; [now apply ping_inv_no_handle | reflexivity]. }
  destruct H2 as [H2 S2].
  split.
  - unfold ping_inv, ping_timers in *. cbn. rewrite filter_app, H2. cbn.
    split; [|lia]. intros t [<- | []]. cbn. auto.
  - unfold sends in *. cbn. rewrite S2. apply Q1.
Qed.

(** [ws.onclose] stops the heartbeat whose handle is held. *)
Lemma ping_inv_ws_onclose (uid : string) (w : World) :
  ping_inv w -> ping_inv (ws_onclose uid w) /\ sends (ws_onclose uid w) = sends w.
Proof.
  intros I. unfold ws_onclose.
  set (w0 := setWsConnected false (set_wsRef None w)).
  assert (I0 : ping_inv w0) by (apply (ping_inv_calm w); auto;
                                now apply calm_same).
  set (w1 := match pingIntervalRef w0 with
             | Some id => set_pingIntervalRef None (clearTimer id w0)
             | None => w0
             end).
  assert (H1 : ping_timers w1 = [] /\ sends w1 = sends w).
  { subst w1. destruct (pingIntervalRef w0) as [id|] eqn:E.
    - split; [exact (ping_inv_clear_held w0 id I0 E) | reflexivity].
    - split; [now apply ping_inv_no_handle | reflexivity]. }
  destruct H1 as (H1 & S1).
  destruct (reconnectTimeoutRef w1); [|destruct (truthy_str uid)].
  - split; [now apply ping_inv_empty | exact S1].
  - split; [|exact S1].
    apply ping_inv_empty. unfold ping_timers in *. cbn.
    rewrite filter_app, H1. reflexivity.
  - split; [now apply ping_inv_empty | exact S1].
Qed.

Lemma ping_inv_set_readyState (ws : nat) (rs : ReadyState) (w : World) :
  ping_inv w -> ping_inv (set_readyState ws rs w).
Proof. intros I. apply (ping_inv_calm w); auto. now apply calm_same. Qed.

(** What one event does to the heartbeat and to what was sent. *)
Lemma ping_inv_step (w : World) (e : Event) :
  ping_inv w ->
  ping_inv (step w e) /\ sends (step w e) = sends w ++ heartbeat_of w e.
Proof.
  intros I.
  assert (Hcalm : forall w', calm w w' -> heartbeat_of w e = [] ->
                             ping_inv w' /\ sends w' = sends w ++ heartbeat_of w e).
  { intros w' Q ->. rewrite app_nil_r. split; [now apply (ping_inv_calm w)|].
    apply Q. }
  destruct e as [o|ws|ws fr|ws|ws|id|cycle resp now|net task files|];
    cbn [step].
  - apply Hcalm; [apply calm_fetchUser | reflexivity].
  - destruct (socket_state ws w) as [[]|];
      try (apply Hcalm; [apply calm_refl | reflexivity]).
    cbn [heartbeat_of]. rewrite app_nil_r.
    apply (ping_inv_ws_onopen ws (set_readyState ws OPEN w)).
    now apply ping_inv_set_readyState.
  - destruct (socket_state ws w) as [[]|];
      (apply Hcalm; [|reflexivity]);
      try apply calm_refl; apply calm_ws_onmessage.
  - destruct (socket_state ws w) as [[]|];
      (apply Hcalm; [|reflexivity]);
      try apply calm_refl; now apply calm_same.
  - destruct (nth_error (sockets w) ws) as [s|];
      [|apply Hcalm; [apply calm_refl | reflexivity]].
    cbn [heartbeat_of]. rewrite app_nil_r.
    destruct (readyState s);
      try (apply (ping_inv_ws_onclose (s_uid s) (set_readyState ws CLOSED w));
           now apply ping_inv_set_readyState).
    split; [exact I | reflexivity].
  - unfold fire. cbn [heartbeat_of].
    destruct (find _ (timers w)) as [t|] eqn:E;
      [|rewrite app_nil_r; split; [exact I | reflexivity]].
    set (w1 := if t_repeat t then w else clearTimer id w).
    assert (Q1 : calm w w1)
      by (subst w1; destruct (t_repeat t);
          [apply calm_refl | apply calm_clearTimer]).
    destruct (t_cb t) as [uid | ws | c n b l]; cbn [run_callback].
    + rewrite app_nil_r.
      assert (Q : calm w (reconnect_cb uid w1)).
      { apply (calm_trans _ w1); [exact Q1|]. unfold reconnect_cb.
        eapply calm_trans; [|apply calm_setupWebSocket]. now apply calm_same. }
      split; [now apply (ping_inv_calm w) | apply Q].
    + unfold ping_cb.
      assert (Hst : socket_state ws w1 = socket_state ws w)
        by (subst w1; now destruct (t_repeat t)).
      rewrite Hst.
      destruct (socket_state ws w) as [[]|];
        try (rewrite app_nil_r;
             split; [now apply (ping_inv_calm w) | apply Q1]).
      split.
      * exact (ping_inv_calm w w1 I Q1).
      * unfold sends, emit. cbn. rewrite filter_app. cbn.
        f_equal. apply Q1.
    + rewrite app_nil_r.
      assert (Q : calm w (poll_tick c n b l w1))
        by (apply (calm_trans _ w1); [exact Q1 | apply calm_poll_tick]).
      split; [now apply (ping_inv_calm w) | apply Q].
  - apply Hcalm; [apply calm_poll_resume | reflexivity].
  - apply Hcalm; [|reflexivity].
    unfold click_start, TaskInput.click, TaskInput.handleStart.
    destruct (TaskInput.disabled task (isRunning w)); [apply calm_refl|].
    destruct (trim_is_empty task);
      [now apply calm_emit | apply calm_handleStartTaskWithFiles].
  - apply Hcalm; [apply calm_cleanup | reflexivity].
Qed.

Lemma heartbeat_of_ping (w : World) (e : Event) :
  Forall (fun x => exists ws, x = ESend ws "ping" /\
                              socket_state ws w = Some OPEN)
         (heartbeat_of w e).
Proof.
  destruct e; cbn; try constructor.
  destruct (find _ (timers w)) as [t|]; [|constructor].
  destruct (t_cb t) as [| ws |]; try constructor.
  destruct (socket_state ws w) as [[]|] eqn:E; repeat constructor.
  now exists ws.
Qed.

Lemma ping_inv_run (evs : list Event) :
  forall w,
    ping_inv w ->
    Forall (fun x => exists ws, x = ESend ws "ping") (sends w) ->
    ping_inv (run w evs) /\
    Forall (fun x => exists ws, x = ESend ws "ping") (sends (run w evs)).
Proof.
  induction evs as [|e evs IH]; intros w I S; [now split|].
  cbn. destruct (ping_inv_step w e I) as [I' S'].
  apply IH; [exact I'|]. rewrite S'. apply Forall_app. split; [exact S|].
  eapply Forall_impl; [|apply heartbeat_of_ping].
  intros x (ws & -> & _). now exists ws.
Qed.

End Heartbeat.

(** X8: the heartbeat.  In every world the page can reach at most one
    heartbeat interval is pending; it ticks every 30000 ms and its handle
    is the one held in [pingIntervalRef].  The only thing the page ever
    writes to a socket is the text [ping], and one event writes it only
    when that event is a heartbeat timer firing for a socket whose state
    is open: nothing is sent to a socket that is connecting, closing or
    closed, and no other handler sends anything. *)
Theorem heartbeat_single_interval (tok : option string) (evs : list Event) :
  let w := run (initial tok) evs in
  List.length (ping_timers w) <= 1 /\
  (forall t, In t (ping_timers w) ->
             t_delay t = 30000%Z /\ t_repeat t = true /\
             pingIntervalRef w = Some (t_id t)) /\
  Forall (fun x => exists ws, x = ESend ws "ping") (sends w) /\
  (forall e, sends (step w e) = sends w ++ heartbeat_of w e) /\
  (forall e, Forall (fun x => exists ws, x = ESend ws "ping" /\
                                         socket_state ws w = Some OPEN)
                    (heartbeat_of w e)).
Proof.
  intros w.
  destruct (ping_inv_run evs (initial tok)) as [I S].
  { apply ping_inv_empty. reflexivity. }
  { constructor. }
  fold w in I, S.
  split; [apply I|]. split; [|split; [exact S|split]].
  - intros t Ht. destruct (proj1 I t Ht) as (H1 & H2 & H3). auto.
  - intros e. now apply ping_inv_step.
  - intros e. apply heartbeat_of_ping.
Qed.

(** ** Submission, once the uploads are through *)

Section SubmissionOutcomes.

Variable net : Net.

Lemma uploadFiles_success (files : list File) :
  forall i uploaded w names,
    returned_names net i files = Some names ->
    exists prog,
      uploadFiles net i files uploaded w =
      (setUploadProgress prog (set_trace (trace w ++ uploads_of i files) w),
       Some (uploaded ++ names)).
Proof.
  induction files as [|f rest IH]; intros i uploaded w names Hn;
    cbn [returned_names uploadFiles] in *.
  - injection Hn as <-. exists (uploadProgress w).
    cbn. rewrite !app_nil_r. destruct w; reflexivity.
  - destruct (upload net i f) as [ps name | ps]; [|discriminate Hn].
    destruct (returned_names net (S i) rest) as [names'|] eqn:E;
      [|discriminate Hn].
    injection Hn as <-.
    destruct (report_progress_shape (f_name f) ps (emit (EUpload i f) w))
      as [prog1 ->].
    destruct (IH (S i) (uploaded ++ [name])
                 (setUploadProgress prog1 (emit (EUpload i f) w)) names' E)
      as [prog ->].
    exists prog. destruct w; unfold emit; cbn. rewrite <- !app_assoc.
    reflexivity.
Qed.

(** The handler from the creation request on, for a non-blank description
    with a token stored and uploads that all succeeded. *)
Lemma handler_after_uploads (r : Render) (taskText : string)
    (files : list File) (w : World) (names : list string) :
  trim_is_empty taskText = false ->
  truthy_opt (token w) = true ->
  returned_names net 0 files = Some names ->
  exists ss ref,
    let w2 := emit (ECreateTask taskText names "medium")
                (set_wsRef ref
                   (set_sockets ss
                      (set_trace (trace w ++ uploads_of 0 files)
                                 (reset_session w)))) in
    handleStartTaskWithFiles r net taskText files w =
    match createTask net taskText names with
    | Created newTaskId =>
        start_polling r newTaskId (set_taskIdRef (Some newTaskId) w2)
    | CreateNotOk detail =>
        start_failed (creation_error detail) w2
    | CreateThrows message => start_failed message w2
    end.
Proof.
  intros Htext Htok Hn. unfold handleStartTaskWithFiles. rewrite Htext.
  fold (reset_session w).
  change (token (reset_session w)) with (token w). rewrite Htok. cbn [negb].
  destruct (uploadFiles_success files 0 [] (reset_session w) names Hn)
    as [prog ->].
  cbn [app].
  set (w1 := setUploadProgress [] _).
  assert (E1 : w1 = set_trace (trace w ++ uploads_of 0 files) (reset_session w))
    by (subst w1; destruct w; vm_compute; reflexivity).
  rewrite E1. clear E1 w1.
  set (w1 := set_trace _ _).
  assert (Hsetup : exists ss ref,
             match r_userId r with
             | Some uid =>
                 if negb (r_wsConnected r) && truthy_str uid
                 then setupWebSocket uid w1 else w1
             | None => w1
             end = set_wsRef ref (set_sockets ss w1)).
  { assert (Hid : exists ss ref, w1 = set_wsRef ref (set_sockets ss w1))
      by (exists (sockets w1), (wsRef w1); subst w1; destruct w;
          vm_compute; reflexivity).
    destruct (r_userId r) as [uid|]; [|exact Hid].
    destruct (negb (r_wsConnected r) && truthy_str uid); [|exact Hid].
    apply setupWebSocket_frame. }
  destruct Hsetup as (ss & ref & ->). exists ss, ref. reflexivity.
Qed.

Lemma creation_alert_not_empty (c : CreateOutcome) :
  (forall id, c <> Created id) -> creation_alert c <> "".
Proof.
  intros Hc. destruct c as [id | detail | m]; cbn.
  - now elim (Hc id).
  - destruct (truthy detail); [|discriminate].
    destruct (to_string_throws detail); [discriminate|].
    destruct (truthy_str (to_js_string detail)) eqn:E; [|discriminate].
    intros H. rewrite H in E. discriminate E.
  - destruct (truthy_str m) eqn:E; [|discriminate].
    intros H. rewrite H in E. discriminate E.
Qed.

(** X9: a failed task creation returns the page to idle.  After the
    uploads, when the creation request is answered with an error or
    throws, exactly one alert follows the request; its text is the
    server's detail when there is one and is never empty.  The page is
    not running, shows no result, has an empty event log and no task
    bound; no timer was scheduled, and a poll interval whose handle was
    still held is cancelled. *)
Theorem creation_failure_returns_to_idle (r : Render) (taskText : string)
    (files : list File) (w : World) (names : list string) :
  trim_is_empty taskText = false ->
  truthy_opt (token w) = true ->
  returned_names net 0 files = Some names ->
  (forall id, createTask net taskText names <> Created id) ->
  let w' := handleStartTaskWithFiles r net taskText files w in
  let alert := creation_alert (createTask net taskText names) in
  trace w' = trace w ++ uploads_of 0 files
               ++ [ECreateTask taskText names "medium"; EAlert alert] /\
  alert <> "" /\
  isRunning w' = false /\ showResults w' = false /\ result w' = JNull /\
  agentLogs w' = [] /\ uploadProgress w' = [] /\
  taskIdRef w' = None /\ pollIntervalRef w' = None /\
  nextTimerId w' = nextTimerId w /\
  (forall t, In t (timers w') -> In t (timers w)) /\
  (forall id, pollIntervalRef w = Some id -> pending id w' = false).
Proof.
  intros Htext Htok Hn Hc w' alert. subst w' alert.
  destruct (handler_after_uploads r taskText files w names Htext Htok Hn)
    as (ss & ref & ->).
  cbv zeta. set (w2 := emit _ _).
  split; [|split; [now apply creation_alert_not_empty|]].
  - assert (Hfail : forall m,
              trace (start_failed m w2) =
              trace w ++ uploads_of 0 files
                ++ [ECreateTask taskText names "medium";
                    EAlert (if truthy_str m then m else "Failed to start task")]).
    { intros m. unfold start_failed.
      destruct (stop_poll_fields
                  (setAgentLogs [] (setIsRunning false
                     (emit (EAlert (if truthy_str m then m
                                    else "Failed to start task")) w2))))
        as (_ & _ & _ & _ & _ & -> & _).
      subst w2. cbn. rewrite <- !app_assoc. reflexivity. }
    destruct (createTask net taskText names) as [id | detail | m].
    + now elim (Hc id).
    + rewrite Hfail. cbn [creation_alert]. unfold creation_error.
      destruct (truthy detail); [|reflexivity].
      now destruct (to_string_throws detail).
    + rewrite Hfail. reflexivity.
  - assert (Hfail : forall m,
              let w' := start_failed m w2 in
              isRunning w' = false /\ showResults w' = false /\
              result w' = JNull /\ agentLogs w' = [] /\
              uploadProgress w' = [] /\ taskIdRef w' = None /\
              pollIntervalRef w' = None /\ nextTimerId w' = nextTimerId w /\
              (forall t, In t (timers w') -> In t (timers w)) /\
              (forall id, pollIntervalRef w = Some id -> pending id w' = false)).
    { intros m w'. subst w'. unfold start_failed.
      set (w3 := setAgentLogs [] _).
      destruct (stop_poll_fields w3) as (-> & -> & -> & -> & -> & _ & ->).
      destruct (stop_poll_frame w3) as (_ & -> & _ & -> & _).
      repeat split.
      - unfold stop_poll. destruct (pollIntervalRef w3); cbn; [|auto].
        intros t Hin. apply filter_In in Hin. tauto.
      - intros id Hid.
        exact (proj2 (stop_poll_cancels w3 id Hid)). }
    destruct (createTask net taskText names) as [id | detail | m].
    + now elim (Hc id).
    + apply Hfail.
    + apply Hfail.
Qed.

(** X10: a successful submission.  The creation request carries the
    description, priority [medium] and the document names the upload
    endpoint returned, in the order of the files.  The task returned is
    bound, the session is reset and running, and exactly one timer is
    added: a poll interval of 3000 ms with a counter of its own at 0,
    whose handle is held, and whose closure keeps the [showResults] and
    [agentLogs] of the render the handler came from. *)
Theorem submission_binds_task_and_starts_poll (r : Render)
    (taskText : string) (files : list File) (w : World)
    (names : list string) (newTaskId : string) :
  trim_is_empty taskText = false ->
  truthy_opt (token w) = true ->
  returned_names net 0 files = Some names ->
  createTask net taskText names = Created newTaskId ->
  let w' := handleStartTaskWithFiles r net taskText files w in
  trace w' = trace w ++ uploads_of 0 files
               ++ [ECreateTask taskText names "medium"] /\
  List.length names = List.length files /\
  taskIdRef w' = Some newTaskId /\
  isRunning w' = true /\ showResults w' = false /\ result w' = JNull /\
  agentLogs w' = [] /\ uploadProgress w' = [] /\
  timers w' = timers w ++
              [mkTimer (nextTimerId w) 3000 true
                 (CbPoll (List.length (pollCounts w)) newTaskId
                         (r_showResults r) (r_agentLogs r))] /\
  pollIntervalRef w' = Some (nextTimerId w) /\
  pollCounts w' = pollCounts w ++ [0] /\
  pollCount (List.length (pollCounts w)) w' = 0.
Proof.
  intros Htext Htok Hn Hc w'. subst w'.
  destruct (handler_after_uploads r taskText files w names Htext Htok Hn)
    as (ss & ref & ->).
  cbv zeta. rewrite Hc. unfold start_polling, pollCount. cbn.
  rewrite <- !app_assoc, nth_middle.
  repeat split.
  clear Hc. revert names Hn. generalize 0.
  induction files as [|f rest IH]; intros i names Hn; cbn in Hn.
  - now injection Hn as <-.
  - destruct (upload net i f); [|discriminate Hn].
    destruct (returned_names net (S i) rest) as [names'|] eqn:E;
      [|discriminate Hn].
    injection Hn as <-. cbn. f_equal. now apply (IH (S i)).
Qed.

End SubmissionOutcomes.

Lemma creation_failure_returns_to_idle_witness :
  let net := {| upload := fun _ f => Uploaded [] (f_name f);
                createTask := fun _ _ =>
                  CreateNotOk (JStr "Quota exceeded") |} in
  let w' := handleStartTaskWithFiles (render Scenario.connected) net
              "analyse" [mkFile "a.csv" 10] Scenario.connected in
  trace w' = [EUpload 0 (mkFile "a.csv" 10);
              ECreateTask "analyse" ["a.csv"] "medium";
              EAlert "Quota exceeded"] /\
  isRunning w' = false.
Proof.
  intros net w'.
  destruct (creation_failure_returns_to_idle net (render Scenario.connected)
              "analyse" [mkFile "a.csv" 10] Scenario.connected ["a.csv"]
              eq_refl eq_refl eq_refl) as (Htr & _ & Hrun & _).
  - intros id. discriminate.
  - split; [exact Htr | exact Hrun].
Defined.

Lemma submission_binds_task_and_starts_poll_witness :
  let w' := handleStartTaskWithFiles (render Scenario.connected)
              (Scenario.net_ok "t1") "analyse" Scenario.files3
              Scenario.connected in
  trace w' = [EUpload 0 (mkFile "a.csv" 10); EUpload 1 (mkFile "b.csv" 20);
              EUpload 2 (mkFile "c.csv" 30);
              ECreateTask "analyse" ["a.csv"; "b.csv"; "c.csv"] "medium"] /\
  taskIdRef w' = Some "t1" /\ pollIntervalRef w' = Some 2.
Proof.
  intros w'.
  destruct (submission_binds_task_and_starts_poll (Scenario.net_ok "t1")
              (render Scenario.connected) "analyse" Scenario.files3
              Scenario.connected ["a.csv"; "b.csv"; "c.csv"] "t1"
              eq_refl eq_refl eq_refl eq_refl)
    as (Htr & _ & Hid & _ & _ & _ & _ & _ & _ & Hp & _).
  exact (conj Htr (conj Hid Hp)).
Defined.

(** ** Poll responses *)

Lemma strict_eq_str_spec (j : Json) (s : string) :
  strict_eq_str j s = true <-> j = JStr s.
Proof.
  destruct j; cbn; try (split; [discriminate | discriminate]).
  rewrite String.eqb_eq. split; [now intros -> | now intros [= ->]].
Qed.

(** The guard of the two terminal branches of the poll, as one test. *)
Lemma terminal_status_test (status res : Json) :
  terminal_status status res <->
  (strict_eq_str status "completed" && truthy res
   || strict_eq_str status "error") = true.
Proof.
  unfold terminal_status.
  rewrite orb_true_iff, andb_true_iff, !strict_eq_str_spec. tauto.
Qed.

(** X11: the poll responses that settle nothing.  A rejected request, a
    response that is not ok and a body without [task] leave the world as
    it is; a body with a [task] does so exactly when its status is not
    [error] and is not [completed] with a truthy result: in particular
    [pending], [running] and a [completed] task whose result is missing
    or falsy are all treated as not yet done. *)
Theorem poll_responses_that_settle_nothing :
  unresolved PollRejected /\
  unresolved PollNotOk /\
  (forall taskData task,
      get "task" taskData = None \/
      (get "task" taskData = Some task /\ get "status" task = None) ->
      unresolved (PollOk taskData)) /\
  (forall taskData task status res,
      get "task" taskData = Some task ->
      get "status" task = Some status ->
      get "result" task = Some res ->
      (unresolved (PollOk taskData) <-> ~ terminal_status status res)).
Proof.
  split; [intros now w; now left|].
  split; [intros now w; now right|].
  split.
  - intros taskData task [H | [H1 H2]] now w; left; unfold poll_try.
    + now rewrite H.
    + now rewrite H1, H2.
  - intros taskData task status res Ht Hs Hr.
    rewrite terminal_status_test. split.
    + intros Hun Hterm.
      destruct (Hun "" (initial None)) as [H | H];
        unfold poll_try in H; rewrite Ht, Hs, Hr in H.
      * destruct (strict_eq_str status "completed" && truthy res);
          [discriminate H|].
        destruct (strict_eq_str status "error"); discriminate H.
      * destruct (strict_eq_str status "completed" && truthy res).
        { apply (f_equal (option_map showResults)) in H.
          vm_compute in H. discriminate H. }
        cbn in Hterm. rewrite Hterm in H.
        apply (f_equal (option_map showResults)) in H.
        vm_compute in H. discriminate H.
    + intros Hnt now w. right. unfold poll_try. rewrite Ht, Hs, Hr.
      destruct (strict_eq_str status "completed" && truthy res);
        [now elim Hnt|].
      destruct (strict_eq_str status "error"); [now elim Hnt | reflexivity].
Qed.

Lemma poll_responses_that_settle_nothing_witness :
  unresolved (PollOk (JObj [("error", JStr "no task")])) /\
  unresolved (PollOk (JObj [("task", JObj [("status", JStr "completed");
                                            ("result", JNull)])])).
Proof.
  destruct poll_responses_that_settle_nothing as (_ & _ & Hno & Hiff).
  split.
  - apply (Hno _ JUndef). right. split; reflexivity.
  - apply (Hiff _ (JObj [("status", JStr "completed"); ("result", JNull)])
                (JStr "completed") JNull); try reflexivity.
    intros [[_ H] | H]; discriminate H.
Defined.

(** X12: a terminal poll response that arrives while the counter of its
    cycle is below 30 is applied as it is.  A completion shows its
    result and appends the fallback entry of agent [System] with the
    current time to the event log; a failure shows the task's result
    when it has one and the default failure object otherwise, and leaves
    the event log alone.  Either way the page stops running, unbinds the
    task, cancels the poll interval whose handle is held, and touches no
    socket, no connection timer and no request. *)
Theorem poll_terminal_response_applied (w : World) (cycle : nat)
    (taskData task status res : Json) (now : string) :
  get "task" taskData = Some task ->
  get "status" task = Some status ->
  get "result" task = Some res ->
  terminal_status status res ->
  pollCount cycle w < maxPolls ->
  let w' := poll_resume cycle (PollOk taskData) now w in
  (if strict_eq_str status "completed" && truthy res
   then result w' = res /\ agentLogs w' = agentLogs w ++ [systemLog now]
   else result w' = (if truthy res then res else failedResult) /\
        agentLogs w' = agentLogs w) /\
  resolved w' /\
  (forall id, pollIntervalRef w = Some id -> pending id w' = false) /\
  connection_of w' = connection_of w /\
  nextTimerId w' = nextTimerId w /\
  trace w' = trace w.
Proof.
  intros Ht Hs Hr Hterm Hlt w'. subst w'.
  apply terminal_status_test in Hterm.
  unfold poll_resume, poll_try. rewrite Ht, Hs, Hr.
  destruct (stop_poll_fields w) as (F1 & F2 & F3 & F4 & F5 & F6 & F7).
  destruct (stop_poll_frame w) as (G1 & G2 & G3 & _).
  assert (Hp : forall id, pollIntervalRef w = Some id ->
                          pending id (stop_poll w) = false)
    by (intros id Hid; exact (proj2 (stop_poll_cancels w id Hid))).
  destruct (strict_eq_str status "completed" && truthy res) eqn:E.
  - cbn [pollCount].
    change (pollCount cycle (setAgentLogs _ _)) with (pollCount cycle (stop_poll w)).
    unfold pollCount. rewrite G3. fold (pollCount cycle w).
    destruct (Nat.leb_spec maxPolls (pollCount cycle w)); [lia|].
    unfold resolved. cbn. rewrite F4, F7. repeat split; auto.
  - cbn in Hterm. rewrite Hterm.
    change (pollCount cycle (set_taskIdRef _ _)) with (pollCount cycle (stop_poll w)).
    unfold pollCount. rewrite G3. fold (pollCount cycle w).
    destruct (Nat.leb_spec maxPolls (pollCount cycle w)); [lia|].
    unfold resolved. cbn. rewrite F4, F7. repeat split; auto.
Qed.

Lemma poll_terminal_response_applied_witness :
  let w' := poll_resume 0
              (PollOk (JObj [("task", JObj [("status", JStr "completed");
                                            ("result", Scenario.done)])]))
              "2024-01-01T00:00:03Z" Scenario.awaiting in
  result w' = Scenario.done /\
  agentLogs w' = [systemLog "2024-01-01T00:00:03Z"] /\ resolved w'.
Proof.
  intros w'.
  destruct (poll_terminal_response_applied Scenario.awaiting 0
              (JObj [("task", JObj [("status", JStr "completed");
                                    ("result", Scenario.done)])])
              (JObj [("status", JStr "completed"); ("result", Scenario.done)])
              (JStr "completed") Scenario.done "2024-01-01T00:00:03Z"
              eq_refl eq_refl eq_refl)
    as ((Hr & Hl) & Hres & _).
  - left. split; reflexivity.
  - unfold maxPolls. vm_compute. lia.
  - exact (conj Hr (conj Hl Hres)).
Defined.

(** The rest of the tick once the counter has reached the budget. *)
Lemma poll_try_frame (w : World) (resp : PollResponse) (now : string) :
  let w1 := match poll_try resp now w with Some w' => w' | None => w end in
  pollCounts w1 = pollCounts w /\ trace w1 = trace w /\
  (taskIdRef w1 = taskIdRef w \/ taskIdRef w1 = None) /\
  (agentLogs w1 = agentLogs w \/
   agentLogs w1 = agentLogs w ++ [systemLog now]) /\
  (forall id, pollIntervalRef w = Some id ->
              pending id w1 = false \/ pollIntervalRef w1 = Some id).
Proof.
  intros w1. subst w1. unfold poll_try.
  assert (Hid : pollCounts w = pollCounts w /\ trace w = trace w /\
                (taskIdRef w = taskIdRef w \/ taskIdRef w = None) /\
                (agentLogs w = agentLogs w \/
                 agentLogs w = agentLogs w ++ [systemLog now]) /\
                (forall id, pollIntervalRef w = Some id ->
                            pending id w = false \/
                            pollIntervalRef w = Some id))
    by (repeat split; auto).
  destruct resp as [| |taskData]; try exact Hid.
  destruct (get "task" taskData) as [task|]; [|exact Hid].
  destruct (get "status" task) as [status|]; [|exact Hid].
  destruct (get "result" task) as [res|]; [|exact Hid].
  destruct (stop_poll_fields w) as (F1 & F2 & F3 & F4 & F5 & F6 & F7).
  destruct (stop_poll_frame w) as (G1 & G2 & G3 & _).
  destruct (strict_eq_str status "completed" && truthy res);
    [|destruct (strict_eq_str status "error"); [|exact Hid]];
    cbn; rewrite ?F4, ?F6, ?G3; repeat split; auto;
    intros id Hp; left; exact (proj2 (stop_poll_cancels w id Hp)).
Qed.

Lemma poll_resume_at_budget (w : World) (cycle : nat)
    (resp : PollResponse) (now : string) :
  maxPolls <= pollCount cycle w ->
  result (poll_resume cycle resp now w) = timeoutResult /\
  showResults (poll_resume cycle resp now w) = true.
Proof.
  intros Hge. unfold poll_resume.
  destruct (poll_try_frame w resp now) as (P1 & _).
  set (w1 := match poll_try resp now w with Some w' => w' | None => w end)
    in *.
  unfold pollCount in *. rewrite P1.
  destruct (Nat.leb_spec maxPolls (nth cycle (pollCounts w) 0)); [|lia].
  split; reflexivity.
Qed.

(** X13: once the counter of a cycle has reached 30, whatever response
    arrives ends in the timeout: the timeout object is the result shown,
    the page is not running and no poll handle is held.  This holds for a
    response that reports the task completed or failed as well: it is
    applied first (the task is unbound, a completion still appends its
    log entry) and its result is then replaced by the timeout object. *)
Theorem poll_response_at_budget_times_out (w : World) (cycle : nat)
    (resp : PollResponse) (now : string) :
  maxPolls <= pollCount cycle w ->
  let w' := poll_resume cycle resp now w in
  result w' = timeoutResult /\ showResults w' = true /\
  isRunning w' = false /\ pollIntervalRef w' = None /\
  (forall id, pollIntervalRef w = Some id -> pending id w' = false) /\
  (taskIdRef w' = taskIdRef w \/ taskIdRef w' = None) /\
  (agentLogs w' = agentLogs w \/ agentLogs w' = agentLogs w ++ [systemLog now]) /\
  trace w' = trace w.
Proof.
  intros Hge w'. subst w'. unfold poll_resume.
  destruct (poll_try_frame w resp now) as (P1 & P2 & P3 & P4 & P5).
  set (w1 := match poll_try resp now w with Some w' => w' | None => w end)
    in *.
  unfold pollCount in *. rewrite P1.
  destruct (Nat.leb_spec maxPolls (nth cycle (pollCounts w) 0)); [|lia].
  destruct (stop_poll_fields w1) as (F1 & F2 & F3 & F4 & F5 & F6 & F7).
  cbn. rewrite F4, F5, F6, F7, P2. repeat split; auto.
  intros id Hp. destruct (P5 id Hp) as [Hpend | Href].
  - unfold stop_poll. destruct (pollIntervalRef w1) as [j|]; cbn.
    + now apply pending_clearTimer_mono.
    + exact Hpend.
  - exact (proj2 (stop_poll_cancels w1 id Href)).
Qed.

Lemma poll_response_at_budget_times_out_witness :
  let w := ticked Scenario.awaiting 0 "t1" 30 in
  result (poll_resume 0
            (PollOk (JObj [("task", JObj [("status", JStr "completed");
                                          ("result", Scenario.done)])]))
            "2024-01-01T00:01:30Z" w)
  = timeoutResult.
Proof.
  intros w.
  apply (poll_response_at_budget_times_out w 0
           (PollOk (JObj [("task", JObj [("status", JStr "completed");
                                         ("result", Scenario.done)])]))
           "2024-01-01T00:01:30Z").
  vm_compute. apply le_n.
Defined.

(** ** The file list of [TaskInput] *)

Section FileList.

Import TaskInputFiles.

Lemma filter_from_out_of_range (files : list File) :
  forall i index, index < i -> filter_from i index files = files.
Proof.
  induction files as [|f r IH]; intros i index H; cbn; [reflexivity|].
  destruct (Nat.eqb_spec i index); [lia|]. cbn. f_equal. apply IH. lia.
Qed.

Lemma filter_from_split (files : list File) :
  forall i k, filter_from i (i + k) files
              = firstn k files ++ skipn (S k) files.
Proof.
  induction files as [|f r IH]; intros i k; cbn.
  - now destruct k.
  - destruct k as [|k].
    + rewrite Nat.add_0_r, Nat.eqb_refl. cbn.
      apply filter_from_out_of_range. lia.
    + destruct (Nat.eqb_spec i (i + S k)); [lia|]. cbn. f_equal.
      rewrite <- Nat.add_succ_comm. apply IH.
Qed.

(** X14: removing a file from the list.  [removeFile index] drops the
    file at that position and keeps all the others in order; an index
    past the end changes nothing; the list gets shorter by exactly one
    when the index is in range.  Removing the position of a file that
    was just attached to the end gives the list back. *)
Theorem removeFile_drops_one_position (index : nat) (files : list File) :
  removeFile index files = firstn index files ++ skipn (S index) files /\
  (List.length files <= index -> removeFile index files = files) /\
  (index < List.length files ->
   S (List.length (removeFile index files)) = List.length files) /\
  (forall f, removeFile (List.length files) (onFileChange (Some [f]) files)
             = files) /\
  onFileChange None files = files /\
  onFileChange (Some []) files = files /\
  (forall selected, onFileChange (Some selected) files = files ++ selected).
Proof.
  assert (E : removeFile index files
              = firstn index files ++ skipn (S index) files)
    by exact (filter_from_split files 0 index).
  split; [exact E|]. split; [|split; [|split; [|split; [|split]]]].
  - intros H. rewrite E, firstn_all2, skipn_all2 by lia. apply app_nil_r.
  - intros H. rewrite E, length_app, length_firstn, length_skipn. lia.
  - intros f. unfold removeFile. cbn [onFileChange].
    pose proof (filter_from_split (files ++ [f]) 0 (List.length files)) as H.
    cbn [Nat.add] in H. rewrite H. clear H.
    rewrite firstn_app, firstn_all, Nat.sub_diag, skipn_all2
      by (rewrite length_app; cbn; lia).
    cbn. now rewrite !app_nil_r.
  - reflexivity.
  - reflexivity.
  - intros [|f l]; cbn; [now rewrite app_nil_r | reflexivity].
Qed.

Lemma removeFile_drops_one_position_witness :
  removeFile 5 Scenario.files3 = Scenario.files3 /\
  List.length (removeFile 1 Scenario.files3) = 2.
Proof.
  destruct (removeFile_drops_one_position 5 Scenario.files3) as (_ & H5 & _).
  destruct (removeFile_drops_one_position 1 Scenario.files3)
    as (_ & _ & H1 & _).
  split.
  - apply H5. cbn. lia.
  - apply eq_add_S, H1. cbn. lia.
Defined.

Lemma progress_of_assoc_set (name k : string) (v : Z)
    (up : list (string * Z)) :
  progress_of name (assoc_set k v up) =
  if String.eqb name k then Some v else progress_of name up.
Proof.
  induction up as [|[k' v'] r IH]; cbn.
  - reflexivity.
  - destruct (String.eqb k k') eqn:E; cbn.
    + apply String.eqb_eq in E. subst k'.
      now destruct (String.eqb name k).
    + rewrite IH. destruct (String.eqb name k') eqn:E'; [|reflexivity].
      apply String.eqb_eq in E'. subst k'.
      destruct (String.eqb name k) eqn:E''; [|reflexivity].
      apply String.eqb_eq in E''. subst k. rewrite String.eqb_refl in E.
      discriminate E.
Qed.

(** X15: the progress row of a file.  After the progress events of an
    upload have been reported under a file's name, the row of that name
    shows the last percentage reported, and the bar under it is there
    exactly while that percentage is below 100; the rows of files with
    another name show what they showed before; nothing but the progress
    map is written. *)
Theorem progress_row_shows_last_report (name : string) (ps : list Z)
    (p : Z) (w : World) :
  let w' := report_progress name (ps ++ [p]) w in
  progress_of name (uploadProgress w') = Some p /\
  shows_bar name (uploadProgress w') = Z.ltb p 100 /\
  (forall other, String.eqb other name = false ->
                 progress_of other (uploadProgress w')
                 = progress_of other (uploadProgress w)) /\
  (exists prog, w' = setUploadProgress prog w).
Proof.
  intros w'. subst w'.
  assert (Hother : forall qs w0 other,
            String.eqb other name = false ->
            progress_of other (uploadProgress (report_progress name qs w0))
            = progress_of other (uploadProgress w0)).
  { induction qs as [|q qs IH]; intros w0 other Hne; [reflexivity|].
    unfold report_progress in *. cbn [fold_left]. rewrite IH by exact Hne.
    cbn. now rewrite progress_of_assoc_set, Hne. }
  assert (Hlast : progress_of name
                    (uploadProgress (report_progress name (ps ++ [p]) w))
                  = Some p).
  { unfold report_progress. rewrite fold_left_app. cbn.
    now rewrite progress_of_assoc_set, String.eqb_refl. }
  split; [exact Hlast|]. split; [|split].
  - unfold shows_bar. now rewrite Hlast.
  - intros other Hne. now apply Hother.
  - apply report_progress_shape.
Qed.

End FileList.

(** ** What the results panel shows for the page's outcomes *)

Section Panel.

Import ResultsPanel.

Lemma view_error_object (showResults : bool) (err : Json) :
  view true (errorResult err)
  = TaskFailed (if truthy err then err else JStr "Unknown error occurred").
Proof. unfold view, js_or. cbn. now destruct (truthy err). Qed.

(** X16: what the user is shown.  While [showResults] is false the panel
    is the empty card whatever the result.  The results of a failure
    reported by push show the failed card with the error (or with
    "Unknown error occurred" when the error is falsy); when the error
    does not convert to text the frame is dropped and the card stays as
    it was.  The default
    failure object of the poll shows it with "Task failed".  The timeout
    object has status [error] and neither [error] nor [message], so
    every response that arrives at the attempt budget ends in the failed
    card with "Unknown error occurred": the summary and the
    recommendation of the timeout object are not on that card. *)
Theorem results_card_of_outcomes (w : World) :
  (showResults w = false -> results_card w = NoResultsYet) /\
  (forall msg task_id err,
      get "type" msg = Some (JStr "task_error") ->
      get "task_id" msg = Some task_id ->
      filtered_out (taskIdRef w) task_id = false ->
      get "error" msg = Some err ->
      results_card (ws_onmessage (FJson msg) w)
      = if to_string_throws err then results_card w
        else TaskFailed (if truthy err then err
                         else JStr "Unknown error occurred")) /\
  view true failedResult = TaskFailed (JStr "Task failed") /\
  view true timeoutResult = TaskFailed (JStr "Unknown error occurred") /\
  (forall cycle resp now,
      maxPolls <= pollCount cycle w ->
      results_card (poll_resume cycle resp now w)
      = TaskFailed (JStr "Unknown error occurred")).
Proof.
  split; [|split; [|split; [|split]]].
  - unfold results_card, view. now intros ->.
  - intros msg task_id err Hty Hid Hf Herr.
    destruct (to_string_throws err) eqn:Hth.
    { now rewrite (onmessage_task_error_throws w msg err Hty Herr Hth). }
    unfold results_card.
    rewrite (onmessage_task_error w msg task_id err Hty Hid Hf Herr Hth).
    destruct (stop_poll_fields
                (set_taskIdRef None
                   (setIsRunning false
                      (setShowResults true (setResult (errorResult err) w)))))
      as (_ & -> & -> & _).
    apply (view_error_object true).
  - reflexivity.
  - reflexivity.
  - intros cycle resp now Hge. unfold results_card.
    destruct (poll_resume_at_budget w cycle resp now Hge)
      as (-> & ->).
    reflexivity.
Qed.

Lemma results_card_of_outcomes_witness :
  results_card (initial (Some "tok")) = NoResultsYet /\
  results_card (step Scenario.awaiting
                     (EvMessage 0 (FJson (Scenario.task_error "t1"))))
  = TaskFailed (JStr "boom").
Proof.
  destruct (results_card_of_outcomes (initial (Some "tok"))) as (H1 & _).
  destruct (results_card_of_outcomes Scenario.awaiting) as (_ & H2 & _).
  split.
  - apply H1. reflexivity.
  - apply (H2 (Scenario.task_error "t1") (JStr "t1") (JStr "boom"));
      reflexivity.
Defined.

(** X17: the completed card and its defaults.  A result that is shown
    and has neither status [error] nor a truthy [error] renders the
    completed card; each field that is missing or falsy is replaced by
    its default (the stock summary, empty lists, zero counts), and a
    result of [null] gives the card with every default. *)
Theorem completed_card_defaults (result : Json) :
  strict_eq_str (opt_get "status" result) "error" = false ->
  truthy (opt_get "error" result) = false ->
  exists summary insights recommendations agents files,
    view true result
    = TaskCompleted summary insights recommendations agents files
                    (opt_get "timestamp" result) /\
    (summary = opt_get "summary" result /\ truthy summary = true \/
     summary = JStr "The AI has completed processing your task." /\
     truthy (opt_get "summary" result) = false) /\
    (insights = opt_get "insights" result /\ truthy insights = true \/
     insights = JArr [] /\ truthy (opt_get "insights" result) = false) /\
    (recommendations = opt_get "recommendations" result /\
     truthy recommendations = true \/
     recommendations = JArr [] /\
     truthy (opt_get "recommendations" result) = false) /\
    (agents = opt_get "agents_involved" result /\ truthy agents = true \/
     agents = JNum 0 /\ truthy (opt_get "agents_involved" result) = false) /\
    (files = opt_get "files_processed" result /\ truthy files = true \/
     files = JNum 0 /\ truthy (opt_get "files_processed" result) = false).
Proof.
  intros Hs He. unfold view. rewrite Hs, He. cbn [negb orb].
  eexists _, _, _, _, _. split; [reflexivity|].
  unfold js_or.
  repeat split;
    match goal with
    | |- context [truthy ?x] => destruct (truthy x) eqn:?; auto
    end.
Qed.

Lemma completed_card_defaults_witness :
  view true JNull
  = TaskCompleted (JStr "The AI has completed processing your task.")
                  (JArr []) (JArr []) (JNum 0) (JNum 0) JUndef.
Proof.
  destruct (completed_card_defaults JNull eq_refl eq_refl)
    as (s & i & r & a & f & -> & Hs & Hi & Hr & Ha & Hf).
  destruct Hs as [[-> H] | [-> _]]; [discriminate H|].
  destruct Hi as [[-> H] | [-> _]]; [discriminate H|].
  destruct Hr as [[-> H] | [-> _]]; [discriminate H|].
  destruct Ha as [[-> H] | [-> _]]; [discriminate H|].
  destruct Hf as [[-> H] | [-> _]]; [discriminate H|].
  reflexivity.
Defined.

End Panel.

(** ** The loaders of statistics and workflows *)

Lemma ok_not_401 (status : Z) : ok status = true -> Z.eqb status 401 = false.
Proof.
  unfold ok. intros H. apply andb_true_iff in H. destruct H as [_ H].
  apply Z.leb_le in H. apply Z.eqb_neq. lia.
Qed.

(** X18: the statistics loader never leaves the cards loading and never
    shows stale data as new: whatever happens (no token, a rejected
    request, a response that is not ok, a body that does not parse) the
    loading flag ends false; the statistics change only when a token is
    stored and the response is ok with a body, and then they are that
    body; without a token no request is made; the loader never
    navigates and never alerts. *)
Theorem fetchStats_outcomes (token : option string) (resp : Response)
    (s : StatsOverview.State) :
  let s' := fst (StatsOverview.fetchStats token resp s) in
  let acts := snd (StatsOverview.fetchStats token resp s) in
  StatsOverview.loading s' = false /\
  ((exists status data,
       truthy_opt token = true /\ resp = Responded status (Some data) /\
       ok status = true /\ StatsOverview.stats s' = data) \/
   StatsOverview.stats s' = StatsOverview.stats s) /\
  (truthy_opt token = false -> acts = []) /\
  (truthy_opt token = true -> acts = [AFetch "GET" "/api/stats" JUndef]).
Proof.
  unfold StatsOverview.fetchStats, StatsOverview.fetchStats_try.
  destruct (truthy_opt token); cbn [negb];
    [|cbn; repeat split; auto; discriminate].
  destruct resp as [|status body]; [cbn; repeat split; auto; discriminate|].
  destruct (ok status) eqn:E; cbn [negb].
  - destruct body as [data|]; cbn; repeat split; auto; try discriminate.
    left. now exists status, data.
  - destruct (Z.eqb status 401); cbn; repeat split; auto; discriminate.
Qed.

Section Workflows.

Import WorkflowsPage.

Variable env : Env.

(** X19: the workflow list loader.  The loading flag is false when it
    returns, in every case, the early returns included.  The list is
    replaced only by an ok response whose body has a truthy [workflows],
    and then by exactly that value; otherwise the list shown before is
    kept.  The loader goes to the login page exactly when no token is
    stored or the response has status 401, requests nothing without a
    token, and never alerts. *)
Theorem fetchWorkflows_outcomes (s : State) :
  let s' := fst (fetchWorkflows env s) in
  let acts := snd (fetchWorkflows env s) in
  loading s' = false /\
  ((exists status data,
       truthy_opt (token env) = true /\
       list_response env = Responded status (Some data) /\
       ok status = true /\
       truthy (ResultsPanel.opt_get "workflows" data) = true /\
       workflows s' = ResultsPanel.opt_get "workflows" data) \/
   workflows s' = workflows s) /\
  (In (ANavigate "/login") acts <->
   truthy_opt (token env) = false \/
   exists body, list_response env = Responded 401 body) /\
  (In list_request acts <-> truthy_opt (token env) = true) /\
  (forall m, ~ In (AAlert m) acts).
Proof.
  unfold fetchWorkflows, fetchWorkflows_try, list_request.
  destruct (truthy_opt (token env)); cbn [negb].
  2: { cbn. repeat split; auto; try tauto.
       - intros [H | []]. discriminate H.
       - discriminate.
       - intros m [H | []]. discriminate H. }
  destruct (list_response env) as [|status body] eqn:R.
  { cbn. repeat split; auto.
    - intros [H | []]. discriminate H.
    - intros [H | (body & H)]; discriminate H.
    - intros m [H | []]. discriminate H. }
  destruct (Z.eqb_spec status 401) as [-> | Hne].
  { cbn. repeat split; auto.
    - intros _. right. now exists body.
    - intros m [H | [H | []]]; discriminate H. }
  assert (Hnav : forall b : option Json,
            Responded status body = Responded 401 b -> False)
    by (intros b [= H _]; contradiction).
  destruct (ok status) eqn:E; cbn [negb].
  - destruct body as [data|].
    + destruct (truthy (ResultsPanel.opt_get "workflows" data)) eqn:T; cbn.
      * split; [reflexivity|]. split; [left; now exists status, data|].
        repeat split; auto.
        -- intros [H | []]. discriminate H.
        -- intros [H | (b & H)]; [discriminate H | now elim (Hnav b)].
        -- intros m [H | []]. discriminate H.
      * repeat split; auto.
        -- intros [H | []]. discriminate H.
        -- intros [H | (b & H)]; [discriminate H | now elim (Hnav b)].
        -- intros m [H | []]. discriminate H.
    + cbn. repeat split; auto.
      * intros [H | []]. discriminate H.
      * intros [H | (b & H)]; [discriminate H | now elim (Hnav b)].
      * intros m [H | []]. discriminate H.
  - cbn. repeat split; auto.
    + intros [H | []]. discriminate H.
    + intros [H | (b & H)]; [discriminate H | now elim (Hnav b)].
    + intros m [H | []]. discriminate H.
Qed.

(** What a refetch leaves: never an alert, never a request to delete or
    to patch. *)
Lemma fetchWorkflows_actions (s : State) :
  forall a, In a (snd (fetchWorkflows env s)) ->
            a = list_request \/ a = ANavigate "/login".
Proof.
  unfold fetchWorkflows, fetchWorkflows_try.
  destruct (truthy_opt (token env)); cbn [negb];
    [|cbn; intros a [<- | []]; auto].
  destruct (list_response env) as [|status body];
    [cbn; intros a [<- | []]; auto|].
  destruct (Z.eqb status 401); [cbn; intros a [<- | [<- | []]]; auto|].
  destruct (ok status); cbn [negb]; [|cbn; intros a [<- | []]; auto].
  destruct body as [data|]; [|cbn; intros a [<- | []]; auto].
  destruct (truthy _); cbn; intros a [<- | []]; auto.
Qed.

(** X20: deleting a workflow.  The user is always asked first, with the
    workflow's name in the question.  The delete request is sent only
    when the user confirmed and a token is stored.  The list is loaded
    again exactly when the request was sent and answered ok; the alert
    "Failed to delete workflow" is shown exactly when it was sent and
    either rejected or answered with a status that is neither ok nor
    401; in every case but the reload the state is untouched. *)
Theorem handleDelete_outcomes (workflowId workflowName : string) (s : State) :
  let s' := fst (handleDelete env workflowId workflowName s) in
  let acts := snd (handleDelete env workflowId workflowName s) in
  let sent := confirms env (delete_prompt workflowName)
              && truthy_opt (token env) in
  let answered_ok :=
    match delete_response env workflowId with
    | Responded status _ => ok status
    | FetchRejected => false
    end in
  let unauthorised :=
    match delete_response env workflowId with
    | Responded status _ => Z.eqb status 401
    | FetchRejected => false
    end in
  hd_error acts = Some (AConfirm (delete_prompt workflowName)) /\
  (In (delete_request workflowId) acts <-> sent = true) /\
  (sent && answered_ok = true ->
   s' = fst (fetchWorkflows env s) /\
   acts = AConfirm (delete_prompt workflowName) :: delete_request workflowId
            :: snd (fetchWorkflows env s)) /\
  (sent && answered_ok = false -> s' = s) /\
  (In (AAlert "Failed to delete workflow") acts <->
   sent && negb answered_ok && negb unauthorised = true).
Proof.
  unfold handleDelete, delete_request.
  destruct (confirms env (delete_prompt workflowName)); cbn [negb andb].
  2: { cbn. repeat split; auto; try discriminate.
       - intros [H | []]. discriminate H.
       - intros [H | []]. discriminate H. }
  destruct (truthy_opt (token env)); cbn [negb andb].
  2: { cbn. repeat split; auto; try discriminate.
       - intros [H | [H | []]]; discriminate H.
       - intros [H | [H | []]]; discriminate H. }
  destruct (delete_response env workflowId) as [|status body].
  { cbn. repeat split; auto; try discriminate. }
  destruct (Z.eqb status 401) eqn:E401.
  { assert (Hok : ok status = false).
    { destruct (ok status) eqn:E; [|reflexivity].
      rewrite (ok_not_401 _ E) in E401. discriminate E401. }
    rewrite Hok. cbn. repeat split; auto; try discriminate.
    intros [H | [H | [H | []]]]; discriminate H. }
  destruct (ok status) eqn:E; cbn [negb andb].
  - destruct (fetchWorkflows env s) as [s1 acts1] eqn:F. cbn.
    repeat split; auto; try discriminate.
    intros [H | [H | H]]; try discriminate H.
    destruct (fetchWorkflows_actions s (AAlert "Failed to delete workflow"))
      as [H' | H']; [rewrite F; exact H | discriminate H' | discriminate H'].
  - cbn. repeat split; auto; try discriminate.
Qed.

(** X21: pausing or activating a workflow.  The request asks for the
    negation of the status shown.  The list is loaded again exactly when
    a token is stored and the request is answered ok; in every other
    case the state is untouched; a failure is never reported to the
    user by an alert. *)
Theorem handleToggleActive_outcomes (workflowId : string)
    (currentStatus : Json) (s : State) :
  let s' := fst (handleToggleActive env workflowId currentStatus s) in
  let acts := snd (handleToggleActive env workflowId currentStatus s) in
  let answered_ok :=
    match patch_response env workflowId
            (JBool (negb (truthy currentStatus))) with
    | Responded status _ => ok status
    | FetchRejected => false
    end in
  (truthy_opt (token env) = true ->
   hd_error acts
   = Some (AFetch "PATCH" ("/api/workflows/" ++ workflowId)
                  (JObj [("is_active", JBool (negb (truthy currentStatus)))]))) /\
  (truthy_opt (token env) = false -> acts = [ANavigate "/login"] /\ s' = s) /\
  (truthy_opt (token env) && answered_ok = true ->
   s' = fst (fetchWorkflows env s)) /\
  (truthy_opt (token env) && answered_ok = false -> s' = s) /\
  (forall m, ~ In (AAlert m) acts).
Proof.
  unfold handleToggleActive, toggle_request.
  destruct (truthy_opt (token env)); cbn [negb andb].
  2: { cbn. repeat split; auto; try discriminate.
       intros m [H | []]. discriminate H. }
  destruct (patch_response env workflowId _) as [|status body].
  { cbn. repeat split; auto; try discriminate.
    intros m [H | []]. discriminate H. }
  destruct (Z.eqb status 401) eqn:E401.
  { assert (Hok : ok status = false).
    { destruct (ok status) eqn:E; [|reflexivity].
      rewrite (ok_not_401 _ E) in E401. discriminate E401. }
    rewrite Hok. cbn. repeat split; auto; try discriminate.
    intros m [H | [H | []]]; discriminate H. }
  destruct (ok status) eqn:E.
  - destruct (fetchWorkflows env s) as [s1 acts1] eqn:F. cbn.
    repeat split; auto; try discriminate.
    intros m [H | H]; [discriminate H|].
    destruct (fetchWorkflows_actions s (AAlert m)) as [H' | H'];
      [rewrite F; exact H | discriminate H' | discriminate H'].
  - cbn. repeat split; auto; try discriminate.
    intros m [H | []]. discriminate H.
Qed.

End Workflows.

(** ** A task in flight across reconnections *)

Lemma connection_events_session (evs : list Event) :
  forall w, connection_events w evs = true ->
            session_of (run w evs) = session_of w.
Proof.
  induction evs as [|e evs IH]; intros w H; [reflexivity|].
  cbn in H. apply andb_true_iff in H. destruct H as [He Hr].
  cbn [run fold_left]. fold (run (step w e) evs).
  rewrite (IH _ Hr).
  destruct (connection_step_session w) as (Ho & Her & Hc & Ht).
  destruct e as [o|ws|ws fr|ws|ws|id|cycle resp now|net task files|];
    try discriminate He.
  - apply Ho.
  - apply Her.
  - apply Hc.
  - cbn in He. destruct (find _ (timers w)) as [t|] eqn:E.
    + apply (Ht id t E). now apply negb_true_iff.
    + cbn [step]. unfold fire. now rewrite E.
Qed.

(** X22: a task in flight survives the connection's troubles.  After
    any sequence of socket opens, errors and closes and of reconnect and
    heartbeat timers firing, the session is what it was, bound task
    included; so a completion notification for that task that arrives
    afterwards, on whichever socket, is accepted: its result is shown,
    the page stops running, the task is unbound and the poll interval
    whose handle is held is cancelled. *)
Theorem task_survives_reconnections (w : World) (evs : list Event)
    (t : string) (msg res : Json) :
  connection_events w evs = true ->
  taskIdRef w = Some t ->
  get "type" msg = Some (JStr "task_completed") ->
  get "task_id" msg = Some (JStr t) ->
  get "result" msg = Some res ->
  let w1 := run w evs in
  let w2 := ws_onmessage (FJson msg) w1 in
  session_of w1 = session_of w /\
  result w2 = res /\ resolved w2 /\ agentLogs w2 = agentLogs w /\
  (forall id, pollIntervalRef w = Some id -> pending id w2 = false).
Proof.
  intros Hevs Ht Hty Hid Hres w1 w2.
  pose proof (connection_events_session evs w Hevs) as Hs. fold w1 in Hs.
  assert (Ht1 : taskIdRef w1 = Some t).
  { apply (f_equal (fun x => snd (fst (fst (fst x))))) in Hs. cbn in Hs.
    congruence. }
  assert (Hp1 : pollIntervalRef w1 = pollIntervalRef w).
  { apply (f_equal (fun x => snd (fst (fst x)))) in Hs. exact Hs. }
  assert (Hl1 : agentLogs w1 = agentLogs w).
  { apply (f_equal (fun x => snd (fst (fst (fst (fst x)))))) in Hs. exact Hs. }
  split; [exact Hs|].
  subst w2.
  rewrite (onmessage_task_completed w1 msg (JStr t) res Hty Hid
             (eq_ind_r (fun c => filtered_out c (JStr t) = false)
                       (filtered_out_same t) Ht1) Hres).
  set (w0 := set_taskIdRef None _).
  destruct (stop_poll_fields w0) as (F1 & F2 & F3 & F4 & F5 & F6 & F7).
  unfold resolved. rewrite F1, F2, F3, F4, F5, F7.
  repeat split; auto.
  intros id Hp. apply (stop_poll_cancels w0 id). now rewrite <- Hp1 in Hp.
Qed.

Lemma task_survives_reconnections_witness :
  let w1 := run Scenario.awaiting [EvClose 0; EvTimer 3; EvOpen 1] in
  let w2 := ws_onmessage (FJson (Scenario.task_completed "t1")) w1 in
  session_of w1 = session_of Scenario.awaiting /\
  result w2 = Scenario.done /\ resolved w2.
Proof.
  intros w1 w2.
  destruct (task_survives_reconnections Scenario.awaiting
              [EvClose 0; EvTimer 3; EvOpen 1] "t1"
              (Scenario.task_completed "t1") Scenario.done)
    as (H1 & H2 & H3 & _); try reflexivity.
  exact (conj H1 (conj H2 H3)).
Defined.
